(** * Date-time range picker: validation, time zones and presets

    A shallow embedding of [src/utils/dateState.ts], [src/utils/timezone.ts]
    and [src/utils/presets.ts].

    Conventions of the embedding.
    - A JavaScript [Date] is its time value, an integer number of
      milliseconds since 1970-01-01T00:00:00Z ([Z]).  Only valid dates are
      values of the model; the "Invalid Date" that [setHours] produces from a
      [NaN] argument is the [None] of an [option].
    - The methods of [Date] follow ECMA-262 (sections "Day Number and Time
      within Day", "Year Number", "Month Number", "Date Number", "MakeTime",
      "MakeDay", "MakeDate").
    - The host's local time zone keeps one offset from UTC
      ([hostOffset], in minutes).  A machine whose zone changes its offset
      (daylight time) has local days of 23 or 25 hours: what is proved of
      calendar days and local fields carries over to it, what depends on
      elapsed milliseconds across a change does not, and a statement says
      so or takes what it needs as a hypothesis.
    - [Intl.DateTimeFormat] is a capability of the host: for a zone
      identifier it either throws a [RangeError] or knows the zone's offset
      from UTC, in minutes, at every instant.  Hours are formatted in the
      h23 cycle (00..23). *)

From Stdlib Require Import ZArith List String Ascii Bool Lia.
From Stdlib Require Import DecimalString DecimalPos.
From Equations Require Import Equations.
Import ListNotations.

Local Open Scope string_scope.
Local Open Scope Z_scope.

(* [lia] reasons about [/] and [mod] by a constant. *)
Ltac Zify.zify_post_hook ::= Z.to_euclidean_division_equations.

(** ** ECMAScript time values *)

Module JSDate.

Definition msPerSecond : Z := 1000.
Definition msPerMinute : Z := 60000.
Definition msPerHour : Z := 3600000.
Definition msPerDay : Z := 86400000.

Definition Day (t : Z) : Z := t / msPerDay.
Definition TimeWithinDay (t : Z) : Z := t mod msPerDay.

Definition isLeapYear (y : Z) : bool :=
  if negb (y mod 4 =? 0) then false
  else if negb (y mod 100 =? 0) then true
  else if negb (y mod 400 =? 0) then false
  else true.

Definition DaysInYear (y : Z) : Z := if isLeapYear y then 366 else 365.

Definition DayFromYear (y : Z) : Z :=
  365 * (y - 1970) + (y - 1969) / 4 - (y - 1901) / 100 + (y - 1601) / 400.

Definition TimeFromYear (y : Z) : Z := msPerDay * DayFromYear y.

(** The largest year whose first day is not after day [d]: an estimate
    from the mean length of a Gregorian year, corrected by one year. *)
Definition YearFromDay (d : Z) : Z :=
  let y := 1970 + (d * 400) / 146097 in
  if d <? DayFromYear y then y - 1
  else if DayFromYear (y + 1) <=? d then y + 1
  else y.

Definition YearFromTime (t : Z) : Z := YearFromDay (Day t).

Definition InLeapYear (t : Z) : Z :=
  if isLeapYear (YearFromTime t) then 1 else 0.

Definition DayWithinYear (t : Z) : Z := Day t - DayFromYear (YearFromTime t).

(** Number of days of the year before month [m] (0 = January). *)
Definition monthStart (m leap : Z) : Z :=
  match m with
  | 0 => 0
  | 1 => 31
  | 2 => 59 + leap
  | 3 => 90 + leap
  | 4 => 120 + leap
  | 5 => 151 + leap
  | 6 => 181 + leap
  | 7 => 212 + leap
  | 8 => 243 + leap
  | 9 => 273 + leap
  | 10 => 304 + leap
  | _ => 334 + leap
  end.

Definition MonthFromTime (t : Z) : Z :=
  let d := DayWithinYear t in
  let leap := InLeapYear t in
  if d <? 31 then 0
  else if d <? 59 + leap then 1
  else if d <? 90 + leap then 2
  else if d <? 120 + leap then 3
  else if d <? 151 + leap then 4
  else if d <? 181 + leap then 5
  else if d <? 212 + leap then 6
  else if d <? 243 + leap then 7
  else if d <? 273 + leap then 8
  else if d <? 304 + leap then 9
  else if d <? 334 + leap then 10
  else 11.

Definition DateFromTime (t : Z) : Z :=
  DayWithinYear t - monthStart (MonthFromTime t) (InLeapYear t) + 1.

Definition WeekDay (t : Z) : Z := (Day t + 4) mod 7.

Definition HourFromTime (t : Z) : Z := (t / msPerHour) mod 24.
Definition MinFromTime (t : Z) : Z := (t / msPerMinute) mod 60.
Definition SecFromTime (t : Z) : Z := (t / msPerSecond) mod 60.
Definition msFromTime (t : Z) : Z := t mod msPerSecond.

Definition MakeTime (hour min sec ms : Z) : Z :=
  hour * msPerHour + min * msPerMinute + sec * msPerSecond + ms.

Definition MakeDay (year month date : Z) : Z :=
  let ym := year + month / 12 in
  let mn := month mod 12 in
  DayFromYear ym + monthStart mn (if isLeapYear ym then 1 else 0) + date - 1.

Definition MakeDate (day time : Z) : Z := day * msPerDay + time.

End JSDate.

Import JSDate.

(** ** The host environment *)

(** What the program takes from the JavaScript engine it runs on. *)
Record Host : Type := {
  (** offset of the host's local time from UTC, in minutes *)
  hostOffset : Z;
  (** [Intl]'s zone data: [None] for an identifier the engine rejects,
      otherwise the zone's offset from UTC in minutes at an instant *)
  zoneOffset : string -> option (Z -> Z);
  (** [timeZoneName: 'long'] of a zone at an instant *)
  zoneLongName : string -> Z -> string
}.

Section DateMethods.

Variable host : Host.

(** ECMA-262's [LocalTime] and [UTC], for a zone that keeps one offset. *)
Definition LocalTime (t : Z) : Z := t + hostOffset host * msPerMinute.
Definition UTC (t : Z) : Z := t - hostOffset host * msPerMinute.

Definition getTime (d : Z) : Z := d.
Definition getFullYear (d : Z) : Z := YearFromTime (LocalTime d).
Definition getMonth (d : Z) : Z := MonthFromTime (LocalTime d).
Definition getDate (d : Z) : Z := DateFromTime (LocalTime d).
Definition getDay (d : Z) : Z := WeekDay (LocalTime d).
Definition getHours (d : Z) : Z := HourFromTime (LocalTime d).
Definition getMinutes (d : Z) : Z := MinFromTime (LocalTime d).
Definition getSeconds (d : Z) : Z := SecFromTime (LocalTime d).
Definition getMilliseconds (d : Z) : Z := msFromTime (LocalTime d).

(** [d.setHours(hour, min, sec, ms)] *)
Definition setHours (d hour min sec ms : Z) : Z :=
  UTC (MakeDate (Day (LocalTime d)) (MakeTime hour min sec ms)).

(** [d.setDate(date)] *)
Definition setDate (d date : Z) : Z :=
  let t := LocalTime d in
  UTC (MakeDate (MakeDay (YearFromTime t) (MonthFromTime t) date)
                (TimeWithinDay t)).

(** [d.setMonth(month)] *)
Definition setMonth (d month : Z) : Z :=
  let t := LocalTime d in
  UTC (MakeDate (MakeDay (YearFromTime t) month (DateFromTime t))
                (TimeWithinDay t)).

(** [new Date(year, monthIndex, day, hours, minutes, seconds, ms)]:
    the fields are read in local time; a year from 0 to 99 means 1900 + year. *)
Definition newDate (year month date hours minutes seconds ms : Z) : Z :=
  let yr := if (0 <=? year) && (year <=? 99) then 1900 + year else year in
  UTC (MakeDate (MakeDay yr month date) (MakeTime hours minutes seconds ms)).

End DateMethods.

(** ** JavaScript strings and numbers *)

Module JS.

(** An integer in a template literal. *)
Definition showZ (n : Z) : string := NilZero.string_of_int (Z.to_int n).

Definition isDigit (c : ascii) : bool :=
  let n := Z.of_nat (nat_of_ascii c) in (48 <=? n) && (n <=? 57).

Definition digitValue (c : ascii) : Z := Z.of_nat (nat_of_ascii c) - 48.

Fixpoint parseDigits (s : string) (acc : Z) : option Z :=
  match s with
  | EmptyString => Some acc
  | String c r =>
      if isDigit c then parseDigits r (10 * acc + digitValue c) else None
  end.

(** [Number(s)] on the strings the picker produces: decimal digits (the
    empty string is 0).  [None] is [NaN]; any other string is outside the
    input contract ("HH:MM") and is treated like [NaN]. *)
Definition Number (s : string) : option Z := parseDigits s 0.

(** [s.split(sep)] for a one-character separator. *)
Fixpoint split (sep : ascii) (s : string) : list string :=
  match s with
  | EmptyString => [EmptyString]
  | String c r =>
      if Ascii.eqb c sep then EmptyString :: split sep r
      else match split sep r with
           | [] => [String c EmptyString]
           | h :: t => String c h :: t
           end
  end.

(** [s.includes(sub)] *)
Fixpoint includes (sub s : string) : bool :=
  String.prefix sub s ||
  match s with
  | EmptyString => false
  | String _ r => includes sub r
  end.

(** [s.substring(0, n)] *)
Definition substring0 (n : nat) (s : string) : string := String.substring 0 n s.

(** Relational operators on numbers that may be [NaN]: a comparison with
    [NaN] is false, arithmetic with [NaN] is [NaN]. *)
Definition lt (a b : option Z) : bool :=
  match a, b with Some x, Some y => x <? y | _, _ => false end.
Definition gt (a b : option Z) : bool :=
  match a, b with Some x, Some y => y <? x | _, _ => false end.
Definition ge (a b : option Z) : bool :=
  match a, b with Some x, Some y => y <=? x | _, _ => false end.
Definition sub (a b : option Z) : option Z :=
  match a, b with Some x, Some y => Some (x - y) | _, _ => None end.

(** Truthiness of [string | null] and of [number | undefined]. *)
Definition truthyString (s : option string) : bool :=
  match s with Some s => negb (String.eqb s "") | None => false end.
Definition truthyNumber (n : option Z) : bool :=
  match n with Some n => negb (n =? 0) | None => false end.
Definition truthyObject {A} (o : option A) : bool :=
  match o with Some _ => true | None => false end.

(** [Math.ceil(a / b)] for integers [a] and [b > 0]. *)
Definition ceilDiv (a b : Z) : Z := - ((- a) / b).

(** [a.push(x)] *)
Definition push {A} (a : list A) (x : A) : list A := (a ++ [x])%list.

(** [s || dflt] *)
Definition orString (s : option string) (dflt : string) : string :=
  if truthyString s then match s with Some s => s | None => dflt end else dflt.

End JS.

(** ** dateState.ts: picker state and validators *)

Record DateTimeValue : Type := {
  date : option Z;
  time : option string   (* HH:MM format *)
}.

(** The field [end] of the source is [end_] here. *)
Record DateTimeRange : Type := {
  start : DateTimeValue;
  end_ : DateTimeValue
}.

Record PickerConstraints : Type := {
  minDate : option Z;
  maxDate : option Z;
  blackoutDates : option (list Z);
  minDuration : option Z;   (* milliseconds *)
  maxDuration : option Z;   (* milliseconds *)
  disabledDays : option (list Z)   (* 0-6 (Sunday-Saturday) *)
}.

(** Result of [isDateValid]: [{ valid: boolean; error?: string }]. *)
Record DateResult : Type := {
  valid : bool;
  error : option string
}.

(** Result of [isRangeValid]: [{ valid: boolean; errors: string[] }]
    (its [valid] is [rvalid] here). *)
Record RangeResult : Type := {
  rvalid : bool;
  errors : list string
}.

(** Format duration in milliseconds to readable string *)
Definition formatDuration (ms : Z) : string :=
  let seconds := ms / 1000 in
  let minutes := seconds / 60 in
  let hours := minutes / 60 in
  let days := hours / 24 in
  if 0 <? days then
    (JS.showZ days ++ " day" ++ (if (1 <? days)%Z then "s" else ""))%string
  else if 0 <? hours then
    (JS.showZ hours ++ " hour" ++ (if (1 <? hours)%Z then "s" else ""))%string
  else if 0 <? minutes then
    (JS.showZ minutes ++ " minute" ++ (if (1 <? minutes)%Z then "s" else ""))%string
  else
    (JS.showZ seconds ++ " second" ++ (if (1 <? seconds)%Z then "s" else ""))%string.

Section DateState.

Variable host : Host.

(** Check if two dates are on the same day *)
Definition isSameDay (d1 d2 : Z) : bool :=
  (getFullYear host d1 =? getFullYear host d2) &&
  (getMonth host d1 =? getMonth host d2) &&
  (getDate host d1 =? getDate host d2).

(** Validate if a date is within constraints *)
Definition isDateValid (date : Z) (constraints : PickerConstraints)
  : DateResult :=
  if match minDate constraints with
     | Some m => date <? m
     | None => false
     end
  then {| valid := false; error := Some "Date is before minimum allowed" |}
  else if match maxDate constraints with
          | Some m => m <? date
          | None => false
          end
  then {| valid := false; error := Some "Date is after maximum allowed" |}
  else if match blackoutDates constraints with
          | Some bds => existsb (fun bd => isSameDay bd date) bds
          | None => false
          end
  then {| valid := false; error := Some "This date is not available" |}
  else if match disabledDays constraints with
          | Some ds => existsb (fun x => x =? getDay host date) ds
          | None => false
          end
  then {| valid := false; error := Some "This day is disabled" |}
  else {| valid := true; error := None |}.

(** Combine date and time string into Date object; [None] is the
    Invalid Date that [setHours] gives for a [NaN] argument. *)
Definition combineDateTime (date : Z) (time : string) : option Z :=
  let parts := map JS.Number (JS.split ":" time) in
  match nth_error parts 0, nth_error parts 1 with
  | Some (Some hours), Some (Some minutes) =>
      Some (setHours host date hours minutes 0 0)
  | _, _ => None
  end.

(** [`${prefix}${e}`] for an optional [e]. *)
Definition withError (prefix : string) (e : option string) : string :=
  (prefix ++ match e with Some e => e | None => "undefined" end)%string.

(** Validate a complete date/time range *)
Definition isRangeValid (range : DateTimeRange) (constraints : PickerConstraints)
  : RangeResult :=
  let errors : list string := [] in
  (* Check if range is complete *)
  let errors :=
    if negb (JS.truthyObject (date (start range)))
       || negb (JS.truthyString (time (start range)))
    then JS.push errors "Start date and time are required" else errors in
  let errors :=
    if negb (JS.truthyObject (date (end_ range)))
       || negb (JS.truthyString (time (end_ range)))
    then JS.push errors "End date and time are required" else errors in
  if (0 <? Z.of_nat (List.length errors)) then {| rvalid := false; errors := errors |}
  else
  (* Validate individual dates *)
  let errors :=
    match date (start range) with
    | Some d =>
        let startValidation := isDateValid d constraints in
        if negb (valid startValidation)
        then JS.push errors (withError "Start: " (error startValidation))
        else errors
    | None => errors
    end in
  let errors :=
    match date (end_ range) with
    | Some d =>
        let endValidation := isDateValid d constraints in
        if negb (valid endValidation)
        then JS.push errors (withError "End: " (error endValidation))
        else errors
    | None => errors
    end in
  (* Check order *)
  let errors :=
    match date (start range), date (end_ range) with
    | Some sd, Some ed =>
        let startTime := combineDateTime sd (JS.orString (time (start range)) "00:00") in
        let endTime := combineDateTime ed (JS.orString (time (end_ range)) "00:00") in
        let errors :=
          if JS.ge startTime endTime
          then JS.push errors "Start must be before end" else errors in
        (* Check duration constraints *)
        let duration := JS.sub endTime startTime in
        let errors :=
          if JS.truthyNumber (minDuration constraints)
             && JS.lt duration (minDuration constraints)
          then JS.push errors
                 ("Duration must be at least "
                  ++ formatDuration (match minDuration constraints with
                                     | Some m => m | None => 0 end))
          else errors in
        let errors :=
          if JS.truthyNumber (maxDuration constraints)
             && JS.gt duration (maxDuration constraints)
          then JS.push errors
                 ("Duration must not exceed "
                  ++ formatDuration (match maxDuration constraints with
                                     | Some m => m | None => 0 end))
          else errors in
        errors
    | _, _ => errors
    end in
  {| rvalid := (Z.of_nat (List.length errors) =? 0); errors := errors |}.

End DateState.

Section DateRange.

Variable host : Host.

(** The [while (current <= end)] loop of [getDateRange]: [dates] is the
    array built so far, [current] the running date, [endv] the value of
    [end]. Each turn moves [current] one day on, so the number of days left
    up to [endv] decreases. *)
Equations? (noind) getDateRange_loop (endv current : Z) (dates : list Z)
  : list Z by wf (Z.to_nat ((endv - current) / msPerDay + 1)) lt :=
  getDateRange_loop endv current dates with Z_le_gt_dec current endv := {
    | left _ =>
        getDateRange_loop endv
          (setDate host current (getDate host current + 1))
          (JS.push dates current);
    | right _ => dates }.
Proof.
  assert (Hm : 0 <= MonthFromTime (LocalTime host current) <= 11).
  { unfold MonthFromTime.
    repeat match goal with
           | |- context [if ?b then _ else _] => destruct b
           end; lia. }
  unfold setDate, getDate, MakeDay.
  rewrite (Z.div_small _ 12), (Z.mod_small _ 12), Z.add_0_r by lia.
  unfold DateFromTime, DayWithinYear, InLeapYear, UTC, LocalTime, MakeDate,
    Day, TimeWithinDay, msPerDay, msPerMinute.
  lia.
Qed.

(** Get all dates in a range *)
Definition getDateRange (startDate endDate : Z) : list Z :=
  let dates : list Z := [] in
  let current := setHours host startDate 0 0 0 0 in
  let end_ := setHours host endDate 0 0 0 0 in
  getDateRange_loop end_ current dates.

End DateRange.

(** ** timezone.ts: time-zone conversions *)

(** Errors thrown by the engine. *)
Inductive exn : Type :=
| RangeError : exn.   (* Invalid time zone specified *)

(** A computation that returns a value or throws. *)
Inductive result (A : Type) : Type :=
| Ok : A -> result A
| Throw : exn -> result A.
Arguments Ok {A} _.
Arguments Throw {A} _.

Definition bind {A B} (r : result A) (k : A -> result B) : result B :=
  match r with
  | Ok a => k a
  | Throw e => Throw e
  end.

Notation "x <- r ;; k" := (bind r (fun x => k))
  (at level 61, r at next level, right associativity).

Record TimezoneInfo : Type := {
  name : string;
  offset : Z;   (* minutes from UTC *)
  abbreviation : string;
  isDST : bool
}.

(** Get all IANA timezone names *)
Definition getAllTimezones : list string :=
  [ (* UTC *)
    "UTC"; "GMT";
    (* Americas *)
    "America/New_York"; "America/Chicago"; "America/Denver";
    "America/Los_Angeles"; "America/Anchorage"; "Pacific/Honolulu";
    "America/Toronto"; "America/Mexico_City"; "America/Buenos_Aires";
    "America/Sao_Paulo";
    (* Europe *)
    "Europe/London"; "Europe/Paris"; "Europe/Berlin"; "Europe/Amsterdam";
    "Europe/Brussels"; "Europe/Vienna"; "Europe/Prague"; "Europe/Warsaw";
    "Europe/Moscow"; "Europe/Istanbul";
    (* Asia *)
    "Asia/Dubai"; "Asia/Kolkata"; "Asia/Bangkok"; "Asia/Singapore";
    "Asia/Hong_Kong"; "Asia/Shanghai"; "Asia/Tokyo"; "Asia/Seoul";
    "Asia/Jakarta"; "Asia/Manila";
    (* Australia *)
    "Australia/Sydney"; "Australia/Melbourne"; "Australia/Brisbane";
    "Australia/Perth"; "Australia/Adelaide";
    (* Pacific *)
    "Pacific/Auckland"; "Pacific/Fiji" ].

(** The wall-clock fields that [formatToParts] gives, already read as
    numbers ([parseInt] of the two-digit parts). *)
Record Parts : Type := {
  year : Z;
  month : Z;   (* 1-12 *)
  day : Z;
  hour : Z;    (* 0-23 *)
  minute : Z;
  second : Z
}.

(** [timeZoneName: 'shortOffset'] in en-US for an offset in minutes:
    "GMT", "GMT+2", "GMT-5", "GMT+5:30". *)
Definition shortOffsetName (off : Z) : string :=
  if off =? 0 then "GMT"
  else
    let a := Z.abs off in
    ("GMT" ++ (if 0 <? off then "+" else "-")%Z ++ JS.showZ (a / 60)
     ++ (if (a mod 60 =? 0)%Z then ""
         else ":" ++ (if (a mod 60 <? 10)%Z then "0" else "")
                  ++ JS.showZ (a mod 60)))%string.

(** The longest run of decimal digits at the head of a string
    (the [\d+] of a regular expression), and what follows it. *)
Fixpoint spanDigits (s : string) : string * string :=
  match s with
  | EmptyString => (EmptyString, EmptyString)
  | String c r =>
      if JS.isDigit c
      then let (ds, rest) := spanDigits r in (String c ds, rest)
      else (EmptyString, s)
  end.

(** The group captured by [/GMT([+-]\d+)/] at the head of [s], if [s]
    starts with a match. *)
Definition matchGMTHere (s : string) : option string :=
  match s with
  | String "G" (String "M" (String "T" (String sign r))) =>
      if Ascii.eqb sign "+" || Ascii.eqb sign "-" then
        match fst (spanDigits r) with
        | EmptyString => None
        | ds => Some (String sign ds)
        end
      else None
  | _ => None
  end.

(** [s.match(/GMT([+-]\d+)/)]: the captured group of the leftmost match. *)
Fixpoint matchGMT (s : string) : option string :=
  match matchGMTHere s with
  | Some g => Some g
  | None =>
      match s with
      | EmptyString => None
      | String _ r => matchGMT r
      end
  end.

(** [parseInt] of a sign followed by decimal digits. *)
Definition parseInt (s : string) : option Z :=
  match s with
  | String c r =>
      if Ascii.eqb c "-" then option_map Z.opp (JS.Number r)
      else if Ascii.eqb c "+" then JS.Number r
      else JS.Number s
  | EmptyString => None
  end.

Section Timezone.

Variable host : Host.

(** [new Intl.DateTimeFormat('en-US', { timeZone, ... })]: the formatter
    knows the zone's offset at every instant, or the constructor throws a
    [RangeError] for an identifier the engine does not accept.  "UTC" is
    accepted by every engine. *)
Definition DateTimeFormat (timeZone : string) : result (Z -> Z) :=
  if String.eqb timeZone "UTC" then Ok (fun _ => 0)
  else match zoneOffset host timeZone with
       | Some rules => Ok rules
       | None => Throw RangeError
       end.

(** [formatter.formatToParts(date)], reduced to the numeric fields. *)
Definition formatToParts (formatter : Z -> Z) (date : Z) : Parts :=
  let t := date + formatter date * msPerMinute in
  {| year := YearFromTime t;
     month := MonthFromTime t + 1;
     day := DateFromTime t;
     hour := HourFromTime t;
     minute := MinFromTime t;
     second := SecFromTime t |}.

(** Convert UTC date to local timezone *)
Definition utcToTimezone (utcDate : Z) (timezone : string) : result Z :=
  formatter <- DateTimeFormat timezone ;;
  let values := formatToParts formatter utcDate in
  (* Create local date representing the timezone-adjusted time *)
  let localDate :=
    newDate host (year values) (month values - 1) (day values)
            (hour values) (minute values) (second values) 0 in
  Ok localDate.

(** Convert timezone-local date to UTC *)
Definition timezoneToUtc (localDate : Z) (timezone : string) : result Z :=
  formatter <- DateTimeFormat timezone ;;
  (* the timeZoneName part, e.g. "GMT-5", "GMT+2" *)
  let tzPart := shortOffsetName (formatter localDate) in
  let offset := 0 in
  let offset :=
    match matchGMT tzPart with
    | Some m1 =>
        match parseInt m1 with
        | Some h => h * 60   (* Convert hours to minutes *)
        | None => offset     (* not reached: the group is a signed number *)
        end
    | None => offset
    end in
  (* Calculate UTC time by subtracting the offset *)
  let utcTime := getTime localDate - offset * 60 * 1000 in
  Ok utcTime.

(** Get timezone offset in minutes for a specific date *)
Definition getOffsetMinutes (date : Z) (timezone : string) : result Z :=
  utcFormatter <- DateTimeFormat "UTC" ;;
  tzFormatter <- DateTimeFormat timezone ;;
  let utcParts := formatToParts utcFormatter date in
  let tzParts := formatToParts tzFormatter date in
  let utcTotalMinutes := hour utcParts * 60 + minute utcParts in
  let tzTotalMinutes := hour tzParts * 60 + minute tzParts in
  Ok (tzTotalMinutes - utcTotalMinutes).

(** Check if a date is in DST for a given timezone *)
Definition isDaylightSavings (date : Z) (timezone : string) : result bool :=
  (* Create dates 6 months apart *)
  let d1 := date in
  let d2 := date in
  let d2 := setMonth host d2 (getMonth host d2 + 6) in
  (* Get offsets at both times *)
  offset1 <- getOffsetMinutes d1 timezone ;;
  offset2 <- getOffsetMinutes d2 timezone ;;
  Ok (offset2 <? offset1).

(** [new Date(date.toLocaleString('en-US', { timeZone }))]: the string
    carries the zone's wall-clock fields to the second
    ("1/15/2025, 7:00:00 AM"), which the engine's parser reads back as
    local time. *)
Definition localeStringDate (date : Z) (timeZone : string) : result Z :=
  formatter <- DateTimeFormat timeZone ;;
  let p := formatToParts formatter date in
  Ok (UTC host (MakeDate (MakeDay (year p) (month p - 1) (day p))
                         (MakeTime (hour p) (minute p) (second p) 0))).

(** Get timezone offset info at a specific instant *)
Definition getTimezoneInfo (date : Z) (timezone : string)
  : result TimezoneInfo :=
  formatter <- DateTimeFormat timezone ;;
  let tzNamePart := zoneLongName host timezone date in
  let tzName := JS.orString (Some tzNamePart) timezone in
  (* Get offset *)
  utcDate <- localeStringDate date "UTC" ;;
  tzDate <- localeStringDate date timezone ;;
  let offsetMs := getTime utcDate - getTime tzDate in
  let offsetMinutes := offsetMs / (1000 * 60) in
  dst <- isDaylightSavings date timezone ;;
  Ok {| name := timezone;
        offset := offsetMinutes;
        abbreviation := JS.substring0 4 tzName;
        isDST := dst |}.

(** Calculate days between two dates *)
Definition daysBetween (startDate endDate : Z) : Z :=
  let start := setHours host startDate 0 0 0 0 in
  let end_ := setHours host endDate 0 0 0 0 in
  let diffTime := Z.abs (getTime end_ - getTime start) in
  let diffDays := JS.ceilDiv diffTime (1000 * 60 * 60 * 24) in
  diffDays.

End Timezone.

(** ** presets.ts: relative ranges *)

Module Presets.

(** What [getRange] returns (the field [end] is [end_]). *)
Record PresetRange : Type := {
  start : Z;
  startTime : string;
  end_ : Z;
  endTime : string
}.

Section Relative.

Variable host : Host.

(** [getRange] of the preset with id 'last7days', label 'Last 7 Days'.
    [nowEnd] and [nowStart] are what the two [new Date()] of the body
    read from the clock, in program order. *)
Definition last7days_getRange (nowEnd nowStart : Z) : PresetRange :=
  let end_ := nowEnd in
  let end_ := setHours host end_ 23 59 59 999 in
  let start := nowStart in
  let start := setDate host start (getDate host start - 6) in
  let start := setHours host start 0 0 0 0 in
  {| start := start; startTime := "00:00"; end_ := end_; endTime := "23:59" |}.

End Relative.

End Presets.

(** ** A host for the worked examples *)

(** An engine in the UTC zone whose zone data has a few identifiers, with
    the offsets of the IANA data for the year 2025 (New York changes to
    daylight time on 2025-03-09T07:00Z and back on 2025-11-02T06:00Z). *)
Definition sampleZones (tz : string) : option (Z -> Z) :=
  if String.eqb tz "GMT" then Some (fun _ => 0)
  else if String.eqb tz "America/New_York" then
    Some (fun t => if (1741503600000 <=? t) && (t <? 1762063200000)
                   then -240 else -300)
  else if String.eqb tz "Asia/Kolkata" then Some (fun _ => 330)
  else if String.eqb tz "Asia/Tokyo" then Some (fun _ => 540)
  else if String.eqb tz "Africa/Nairobi" then Some (fun _ => 180)
  else None.

Definition sampleLongName (tz : string) (t : Z) : string :=
  if String.eqb tz "America/New_York" then
    if (1741503600000 <=? t) && (t <? 1762063200000)
    then "Eastern Daylight Time" else "Eastern Standard Time"
  else if String.eqb tz "Asia/Kolkata" then "India Standard Time"
  else if String.eqb tz "Asia/Tokyo" then "Japan Standard Time"
  else if String.eqb tz "Africa/Nairobi" then "East Africa Time"
  else "Coordinated Universal Time".

Definition utcHost : Host :=
  {| hostOffset := 0; zoneOffset := sampleZones; zoneLongName := sampleLongName |}.

(** The same engine on a machine set to India Standard Time (UTC+5:30). *)
Definition istHost : Host :=
  {| hostOffset := 330; zoneOffset := sampleZones; zoneLongName := sampleLongName |}.

(** The empty constraint set, and [new Date(y, m, d)] on the machine in
    the UTC zone. *)
Definition noConstraints : PickerConstraints :=
  {| minDate := None; maxDate := None; blackoutDates := None;
     minDuration := None; maxDuration := None; disabledDays := None |}.

Definition ymd (y m d : Z) : Z := newDate utcHost y m d 0 0 0 0.

(** ** The input contract for times *)

(** A time matches [/^([01]\d|2[0-3]):([0-5]\d)$/], the test of the time
    input before it hands a time to the picker state. *)
Definition wellFormedTime (s : string) : bool :=
  match s with
  | String h1 (String h2 (String c (String m1 (String m2 EmptyString)))) =>
      ((Ascii.eqb h1 "0" || Ascii.eqb h1 "1") && JS.isDigit h2
       || Ascii.eqb h1 "2" && JS.isDigit h2 && (JS.digitValue h2 <=? 3))
      && Ascii.eqb c ":"
      && JS.isDigit m1 && (JS.digitValue m1 <=? 5) && JS.isDigit m2
  | _ => false
  end.

(** ** Vocabulary of the statements *)

Section RangeVocabulary.

Variable host : Host.

(** The messages of each step of [isRangeValid], for a complete range
    whose sides combine to the values [a] (start) and [b] (end). *)
Definition dateErrors (prefix : string) (d : Z) (c : PickerConstraints)
  : list string :=
  if valid (isDateValid host d c) then []
  else [withError prefix (error (isDateValid host d c))].

Definition orderErrors (a b : Z) : list string :=
  if b <=? a then ["Start must be before end"] else [].

Definition minDurationErrors (duration : Z) (c : PickerConstraints)
  : list string :=
  match minDuration c with
  | Some m =>
      if negb (m =? 0) && (duration <? m)
      then [("Duration must be at least " ++ formatDuration m)%string] else []
  | None => []
  end.

Definition maxDurationErrors (duration : Z) (c : PickerConstraints)
  : list string :=
  match maxDuration c with
  | Some m =>
      if negb (m =? 0) && (m <? duration)
      then [("Duration must not exceed " ++ formatDuration m)%string] else []
  | None => []
  end.

Definition completeRange (sd : Z) (st : string) (ed : Z) (et : string)
  : DateTimeRange :=
  {| start := {| date := Some sd; time := Some st |};
     end_ := {| date := Some ed; time := Some et |} |}.

End RangeVocabulary.

(** A side of a range is missing when its date or its time is null; the
    program also takes an empty time string for a missing time. *)
Definition missing (v : DateTimeValue) : bool :=
  match date v, time v with
  | Some _, Some t => String.eqb t ""
  | _, _ => true
  end.

(** The constraints with [minDuration] left out. *)
Definition withoutMinDuration (c : PickerConstraints) : PickerConstraints :=
  {| minDate := minDate c; maxDate := maxDate c;
     blackoutDates := blackoutDates c; minDuration := None;
     maxDuration := maxDuration c; disabledDays := disabledDays c |}.

(** The units of [formatDuration], with their length in milliseconds. *)
Definition units : list (string * Z) :=
  [("day", 86400000); ("hour", 3600000); ("minute", 60000); ("second", 1000)].

(** [s] reports [ms] in one unit: the largest unit whose floored magnitude
    is not zero, with an "s" exactly when the magnitude is more than 1. *)
Definition reportsLargestUnit (ms : Z) (s : string) : Prop :=
  exists unit size,
    In (unit, size) units /\
    ms / size <> 0 /\
    (forall unit' size', In (unit', size') units -> size < size' ->
                         ms / size' = 0) /\
    s = (JS.showZ (ms / size) ++ " " ++ unit
         ++ (if (1 <? ms / size)%Z then "s" else ""))%string.

(** The results of [isDateValid] for a date that is refused. *)
Definition beforeMinimum : DateResult :=
  {| valid := false; error := Some "Date is before minimum allowed" |}.
Definition afterMaximum : DateResult :=
  {| valid := false; error := Some "Date is after maximum allowed" |}.
Definition notAvailable : DateResult :=
  {| valid := false; error := Some "This date is not available" |}.

(** [instantToCivil] then [civilToInstant]. *)
Definition roundTrip (host : Host) (instant : Z) (timezone : string)
  : result Z :=
  localDate <- utcToTimezone host instant timezone ;;
  timezoneToUtc host localDate timezone.

(** What may follow the digits of a number: nothing, or not a digit. *)
Definition noDigitAhead (s : string) : Prop :=
  match s with
  | EmptyString => True
  | String c _ => JS.isDigit c = false
  end.

(** * The rest of the picker *)

(** ** Months *)

(** Number of days of month [m] (0 = January) of year [y]. *)
Definition monthLength (y m : Z) : Z :=
  match m with
  | 1 => if isLeapYear y then 29 else 28
  | 3 | 5 | 8 | 10 => 30
  | _ => 31
  end.

(** The constraints with [maxDuration] left out. *)
Definition withoutMaxDuration (c : PickerConstraints) : PickerConstraints :=
  {| minDate := minDate c; maxDate := maxDate c;
     blackoutDates := blackoutDates c; minDuration := minDuration c;
     maxDuration := None; disabledDays := disabledDays c |}.


(** ** dateState.ts: month information *)

Module MonthInfo.

(** What [getMonthInfo] returns. *)
Record t : Type := {
  year : Z;
  month : Z;
  daysInMonth : Z;
  startingDayOfWeek : Z;
  monthName : string
}.

End MonthInfo.

(** [new Intl.DateTimeFormat('en-US', { month: 'long' })] for a month
    index (0 = January). *)
Definition monthLongName (m : Z) : string :=
  match m with
  | 0 => "January"
  | 1 => "February"
  | 2 => "March"
  | 3 => "April"
  | 4 => "May"
  | 5 => "June"
  | 6 => "July"
  | 7 => "August"
  | 8 => "September"
  | 9 => "October"
  | 10 => "November"
  | _ => "December"
  end.

Section MonthInfoDef.

Variable host : Host.

(** Get month and year info *)
Definition getMonthInfo (year month : Z) : MonthInfo.t :=
  let firstDay := newDate host year month 1 0 0 0 0 in
  let lastDay := newDate host year (month + 1) 0 0 0 0 0 in
  let daysInMonth := getDate host lastDay in
  let startingDayOfWeek := getDay host firstDay in
  {| MonthInfo.year := year;
     MonthInfo.month := month;
     MonthInfo.daysInMonth := daysInMonth;
     MonthInfo.startingDayOfWeek := startingDayOfWeek;
     MonthInfo.monthName := monthLongName (getMonth host firstDay) |}.

End MonthInfoDef.

(** ** CalendarGrid.tsx: the month grid *)

Module CalendarGrid.

(** The properties of the component that its logic reads; the array
    properties are [None] when the caller leaves them out. *)
Record Props : Type := {
  year : Z;
  month : Z;
  disabledDays : option (list Z);
  blackoutDates : option (list Z);
  minDate : option Z;
  maxDate : option Z
}.

(** [for (let i = from; i < upto; i++) acc = body(i, acc)] *)
Definition forRange {A} (from upto : Z) (body : Z -> A -> A) (acc : A) : A :=
  fold_left (fun a i => body i a)
            (map (fun k => from + Z.of_nat k)
                 (seq 0 (Z.to_nat (upto - from)))) acc.

(** Cells still missing to fill the last week of a grid of [n] cells. *)
Definition cellsToPad (n : nat) : nat :=
  Z.to_nat ((7 - Z.of_nat n mod 7) mod 7).
Arguments cellsToPad : simpl never.

(** [while (dates.length % 7 !== 0) dates.push(null)] *)
Equations? (noind) padWeek (dates : list (option Z)) : list (option Z)
  by wf (cellsToPad (List.length dates)) lt :=
  padWeek dates with Z.eq_dec (Z.of_nat (List.length dates) mod 7) 0 := {
    | left _ => dates;
    | right _ => padWeek (JS.push dates None) }.
Proof.
  unfold JS.push. rewrite length_app. cbn [List.length].
  unfold cellsToPad. rewrite Nat2Z.inj_add. change (Z.of_nat 1) with 1. lia.
Qed.

Section Grid.

Variable host : Host.
Variable props : Props.

(** An array property with its default [[]]. *)
Definition orEmpty (l : option (list Z)) : list Z :=
  match l with Some l => l | None => [] end.

(** Generate all dates for the calendar grid *)
Definition dates : list (option Z) :=
  let monthInfo := getMonthInfo host (year props) (month props) in
  let dates : list (option Z) := [] in
  (* Add empty cells before first day *)
  let dates :=
    forRange 0 (MonthInfo.startingDayOfWeek monthInfo)
             (fun _ dates => JS.push dates None) dates in
  (* Add actual days *)
  let dates :=
    forRange 1 (MonthInfo.daysInMonth monthInfo + 1)
             (fun day dates =>
                JS.push dates
                  (Some (newDate host (year props) (month props) day 0 0 0 0)))
             dates in
  (* Pad remaining cells *)
  padWeek dates.

Definition isDateDisabled (date : option Z) : bool :=
  match date with
  | None => true
  | Some date =>
      if existsb (fun x => x =? getDay host date)
                 (orEmpty (disabledDays props)) then true
      else if existsb (fun bd => isSameDay host bd date)
                      (orEmpty (blackoutDates props)) then true
      else if match minDate props with
              | Some m => date <? m
              | None => false
              end then true
      else if match maxDate props with
              | Some m => m <? date
              | None => false
              end then true
      else false
  end.

(** [handleDateClick]: the date handed to [onDateSelect], if any. *)
Definition handleDateClick (date : Z) : option Z :=
  if negb (isDateDisabled (Some date)) then Some date else None.

(** The [targetDate] that [handleKeyDown] computes for a key pressed on
    the cell of [date]; [None] is [null]. *)
Definition targetDate (key : string) (date : Z) : option Z :=
  if String.eqb key "ArrowUp" then
    Some (setDate host date (getDate host date - 7))
  else if String.eqb key "ArrowDown" then
    Some (setDate host date (getDate host date + 7))
  else if String.eqb key "ArrowLeft" then
    Some (setDate host date (getDate host date - 1))
  else if String.eqb key "ArrowRight" then
    Some (setDate host date (getDate host date + 1))
  else if String.eqb key "Home" then
    (* First day of month *)
    Some (newDate host (year props) (month props) 1 0 0 0 0)
  else if String.eqb key "End" then
    (* Last day of month *)
    Some (newDate host (year props) (month props + 1) 0 0 0 0 0)
  else None.

(** [handleKeyDown]: the dates handed to [onDateSelect], in order.
    "Enter" and " " click the cell itself; a key with a target clicks the
    target when it is not disabled. *)
Definition handleKeyDown (key : string) (date : Z) : list Z :=
  let clicked :=
    if String.eqb key "Enter" || String.eqb key " "
    then match handleDateClick date with Some d => [d] | None => [] end
    else [] in
  match targetDate key date with
  | Some target =>
      if negb (isDateDisabled (Some target))
      then (clicked ++ match handleDateClick target with
                       | Some d => [d] | None => [] end)%list
      else clicked
  | None => clicked
  end.

(** [getDateKey] *)
Definition getDateKey (date : option Z) : string :=
  match date with
  | None => ""
  | Some date =>
      JS.showZ (getFullYear host date) ++ "-" ++ JS.showZ (getMonth host date)
      ++ "-" ++ JS.showZ (getDate host date)
  end.

End Grid.

End CalendarGrid.


(** ** presets.ts: the list of presets *)

Module RelativePresets.

Inductive Category : Type := relative | absolute.

(** A preset.  [getRange] takes what its one or two [new Date()] read from
    the clock, in program order (a preset that reads the clock once leaves
    the second reading unused). *)
Record RangePreset : Type := {
  id : string;
  label : string;
  getRange : Z -> Z -> Presets.PresetRange;
  category : Category
}.

Section GetRange.

Variable host : Host.

Definition today_getRange (now _unused : Z) : Presets.PresetRange :=
  let today := now in
  let startDate := today in
  let startDate := setHours host startDate 0 0 0 0 in
  let endDate := today in
  let endDate := setHours host endDate 23 59 59 999 in
  {| Presets.start := startDate; Presets.startTime := "00:00";
     Presets.end_ := endDate; Presets.endTime := "23:59" |}.

Definition yesterday_getRange (now _unused : Z) : Presets.PresetRange :=
  let yesterday := now in
  let yesterday := setDate host yesterday (getDate host yesterday - 1) in
  let startDate := yesterday in
  let startDate := setHours host startDate 0 0 0 0 in
  let endDate := yesterday in
  let endDate := setHours host endDate 23 59 59 999 in
  {| Presets.start := startDate; Presets.startTime := "00:00";
     Presets.end_ := endDate; Presets.endTime := "23:59" |}.

Definition tomorrow_getRange (now _unused : Z) : Presets.PresetRange :=
  let tomorrow := now in
  let tomorrow := setDate host tomorrow (getDate host tomorrow + 1) in
  let startDate := tomorrow in
  let startDate := setHours host startDate 0 0 0 0 in
  let endDate := tomorrow in
  let endDate := setHours host endDate 23 59 59 999 in
  {| Presets.start := startDate; Presets.startTime := "00:00";
     Presets.end_ := endDate; Presets.endTime := "23:59" |}.

Definition last30days_getRange (nowEnd nowStart : Z) : Presets.PresetRange :=
  let end_ := nowEnd in
  let end_ := setHours host end_ 23 59 59 999 in
  let start := nowStart in
  let start := setDate host start (getDate host start - 29) in
  let start := setHours host start 0 0 0 0 in
  {| Presets.start := start; Presets.startTime := "00:00";
     Presets.end_ := end_; Presets.endTime := "23:59" |}.

Definition thisMonth_getRange (nowStart nowEnd : Z) : Presets.PresetRange :=
  let start := nowStart in
  let start := setDate host start 1 in
  let start := setHours host start 0 0 0 0 in
  let end_ := nowEnd in
  let end_ := setMonth host end_ (getMonth host end_ + 1) in
  let end_ := setDate host end_ 0 in
  let end_ := setHours host end_ 23 59 59 999 in
  {| Presets.start := start; Presets.startTime := "00:00";
     Presets.end_ := end_; Presets.endTime := "23:59" |}.

Definition lastMonth_getRange (nowStart nowEnd : Z) : Presets.PresetRange :=
  let start := nowStart in
  let start := setMonth host start (getMonth host start - 1) in
  let start := setDate host start 1 in
  let start := setHours host start 0 0 0 0 in
  let end_ := nowEnd in
  let end_ := setDate host end_ 0 in
  let end_ := setHours host end_ 23 59 59 999 in
  {| Presets.start := start; Presets.startTime := "00:00";
     Presets.end_ := end_; Presets.endTime := "23:59" |}.

Definition lastQuarter_getRange (nowEnd nowStart : Z) : Presets.PresetRange :=
  let end_ := nowEnd in
  let end_ := setHours host end_ 23 59 59 999 in
  let start := nowStart in
  let start := setDate host start (getDate host start - 89) in
  let start := setHours host start 0 0 0 0 in
  {| Presets.start := start; Presets.startTime := "00:00";
     Presets.end_ := end_; Presets.endTime := "23:59" |}.

(** Get relative presets (e.g., last 7 days, today, tomorrow) *)
Definition getRelativePresets : list RangePreset :=
  [ {| id := "today"; label := "Today"; category := relative;
       getRange := today_getRange |};
    {| id := "yesterday"; label := "Yesterday"; category := relative;
       getRange := yesterday_getRange |};
    {| id := "tomorrow"; label := "Tomorrow"; category := relative;
       getRange := tomorrow_getRange |};
    {| id := "last7days"; label := "Last 7 Days"; category := relative;
       getRange := Presets.last7days_getRange host |};
    {| id := "last30days"; label := "Last 30 Days"; category := relative;
       getRange := last30days_getRange |};
    {| id := "thisMonth"; label := "This Month"; category := relative;
       getRange := thisMonth_getRange |};
    {| id := "lastMonth"; label := "Last Month"; category := relative;
       getRange := lastMonth_getRange |};
    {| id := "lastQuarter"; label := "Last 90 Days"; category := relative;
       getRange := lastQuarter_getRange |} ].

(** Get a preset by ID: [presets.find((p) => p.id === id) || null] *)
Definition getPresetById (id' : string) : option RangePreset :=
  let presets := getRelativePresets in
  find (fun p => String.eqb (id p) id') presets.

End GetRange.

End RelativePresets.

(** ** timezone.ts: start and end of a day in a zone *)

Section DayBounds.

Variable host : Host.

(** Get the start of day in a timezone *)
Definition getStartOfDay (date : Z) (timezone : string) : result Z :=
  formatter <- DateTimeFormat host timezone ;;
  let values := formatToParts formatter date in
  let startDate :=
    newDate host (year values) (month values - 1) (day values) 0 0 0 0 in
  timezoneToUtc host startDate timezone.

(** Get the end of day in a timezone *)
Definition getEndOfDay (date : Z) (timezone : string) : result Z :=
  formatter <- DateTimeFormat host timezone ;;
  let values := formatToParts formatter date in
  let endDate :=
    newDate host (year values) (month values - 1) (day values) 23 59 59 999 in
  timezoneToUtc host endDate timezone.

End DayBounds.


(** ** JavaScript numbers that may be [NaN] or [undefined] *)

Module JSNum.

Inductive num : Type :=
| Num (n : Z)
| NaN
| Undefined.

(** The [i]-th element of [s.split(':').map(Number)], as destructuring
    reads it: [undefined] past the end. *)
Definition nth (parts : list (option Z)) (i : nat) : num :=
  match nth_error parts i with
  | Some (Some n) => Num n
  | Some None => NaN
  | None => Undefined
  end.

(** [String(x)] *)
Definition toString (x : num) : string :=
  match x with
  | Num n => JS.showZ n
  | NaN => "NaN"
  | Undefined => "undefined"
  end.

(** [x + k], [x - k], [x * k] and [x % k] for a number [k]. *)
Definition add (x : num) (k : Z) : num :=
  match x with Num n => Num (n + k) | _ => NaN end.
Definition sub (x : num) (k : Z) : num :=
  match x with Num n => Num (n - k) | _ => NaN end.
Definition mul (x : num) (k : Z) : num :=
  match x with Num n => Num (n * k) | _ => NaN end.
Definition rem (x : num) (k : Z) : num :=
  match x with Num n => Num (Z.rem n k) | _ => NaN end.

(** [x + y] *)
Definition plus (x y : num) : num :=
  match x, y with Num a, Num b => Num (a + b) | _, _ => NaN end.

(** [Math.floor(x / k)] for [k > 0]. *)
Definition floorDiv (x : num) (k : Z) : num :=
  match x with Num n => Num (n / k) | _ => NaN end.

(** [x === k], [x >= k], [x < k]: false for [NaN] and [undefined]. *)
Definition eqb (x : num) (k : Z) : bool :=
  match x with Num n => n =? k | _ => false end.
Definition geb (x : num) (k : Z) : bool :=
  match x with Num n => k <=? n | _ => false end.
Definition ltb (x : num) (k : Z) : bool :=
  match x with Num n => n <? k | _ => false end.

End JSNum.

(** [s.padStart(n, c)] for a one-character pad. *)
Fixpoint repeatChar (n : nat) (c : ascii) : string :=
  match n with
  | O => EmptyString
  | S n => String c (repeatChar n c)
  end.

Definition padStart (n : nat) (c : ascii) (s : string) : string :=
  (repeatChar (n - String.length s) c ++ s)%string.

(** [`${String(h).padStart(2, '0')}:${String(m).padStart(2, '0')}`] *)
Definition formatTime (h m : JSNum.num) : string :=
  (padStart 2 "0" (JSNum.toString h) ++ ":"
   ++ padStart 2 "0" (JSNum.toString m))%string.

(** [const [hours, minutes] = time.split(':').map(Number)] *)
Definition timeParts (time : string) : JSNum.num * JSNum.num :=
  let parts := map JS.Number (JS.split ":" time) in
  (JSNum.nth parts 0, JSNum.nth parts 1).

(** [s.replace(/\D/g, '')] *)
Fixpoint stripNonDigits (s : string) : string :=
  match s with
  | EmptyString => EmptyString
  | String c r =>
      if JS.isDigit c then String c (stripNonDigits r) else stripNonDigits r
  end.

(** ** TimeInput.tsx: the time field *)

Module TimeInput.

(** What [handleInputChange] does with a typed value. *)
Inductive InputOutcome : Type :=
| Ignored                                  (* fewer than two digits *)
| Rejected (error : string)                (* [setError(error)], no change *)
| Accepted (emitted : option string).      (* [setError(null)], and
                                              [onChange(emitted)] if any *)

Definition handleInputChange (targetValue : string) : InputOutcome :=
  let val := stripNonDigits targetValue in
  let val :=
    if (4 <? String.length val)%nat then String.substring 0 4 val else val in
  (* Format as HH:MM *)
  if (2 <=? String.length val)%nat then
    let hours := String.substring 0 2 val in
    let minutes := String.substring 2 2 val in
    if JS.gt (parseInt hours) (Some 23) then Rejected "Hours must be 00-23"
    else if negb (String.eqb minutes "") && JS.gt (parseInt minutes) (Some 59)
    then Rejected "Minutes must be 00-59"
    else
      Accepted (if (String.length minutes =? 2)%nat
                then Some (hours ++ ":" ++ minutes)%string else None)
  else Ignored.

(** [handleKeyDown]: the time handed to [onChange], if any.  [value] is
    the property of the component; the field shows [value || '00:00']. *)
Definition handleKeyDown (value : option string) (key : string)
  : option string :=
  let timeValue := JS.orString value "00:00" in
  let (hours, minutes) := timeParts timeValue in
  if String.eqb key "ArrowUp" then
    let newHours := JSNum.rem (JSNum.add hours 1) 24 in
    Some (formatTime newHours minutes)
  else if String.eqb key "ArrowDown" then
    let prevHours :=
      if JSNum.eqb hours 0 then JSNum.Num 23 else JSNum.sub hours 1 in
    Some (formatTime prevHours minutes)
  else if String.eqb key "ArrowRight" then
    let newMinutes := JSNum.rem (JSNum.add minutes 15) 60 in
    let hoursAdjust := if JSNum.geb (JSNum.add minutes 15) 60 then 1 else 0 in
    let adjustedHours := JSNum.rem (JSNum.add hours hoursAdjust) 24 in
    Some (formatTime adjustedHours newMinutes)
  else if String.eqb key "ArrowLeft" then
    let leftMinutes := JSNum.sub minutes 15 in
    let leftHours := hours in
    let (leftMinutes, leftHours) :=
      if JSNum.ltb leftMinutes 0
      then (JSNum.add leftMinutes 60,
            if JSNum.eqb leftHours 0 then JSNum.Num 23
            else JSNum.sub leftHours 1)
      else (leftMinutes, leftHours) in
    Some (formatTime leftHours leftMinutes)
  else None.

End TimeInput.

(** ** useDateTimeRange.ts: the hooks, as transitions of their state *)

Module UseTimeInput.

(** The state of [useTimeInput]. *)
Record State : Type := {
  time : string;
  error : option string
}.

(** [useTimeInput(initialTime = '00:00')] *)
Definition init (initialTime : option string) : State :=
  {| time := match initialTime with Some t => t | None => "00:00" end;
     error := None |}.

(** [updateTime]: the value returned and the next state. *)
Definition updateTime (newTime : string) (st : State) : bool * State :=
  (* Validate HH:MM format *)
  if negb (wellFormedTime newTime)
  then (false, {| time := time st;
                  error := Some "Invalid time format (HH:MM)" |})
  else (true, {| time := newTime; error := None |}).

Definition incrementHour (st : State) : State :=
  let (hours, minutes) := timeParts (time st) in
  let newHours := JSNum.rem (JSNum.add hours 1) 24 in
  {| time := formatTime newHours minutes; error := error st |}.

Definition decrementHour (st : State) : State :=
  let (hours, minutes) := timeParts (time st) in
  let newHours :=
    if JSNum.eqb hours 0 then JSNum.Num 23 else JSNum.sub hours 1 in
  {| time := formatTime newHours minutes; error := error st |}.

Definition incrementMinute (st : State) : State :=
  let (hours, minutes) := timeParts (time st) in
  let newTotalMinutes :=
    JSNum.rem (JSNum.add (JSNum.plus (JSNum.mul hours 60) minutes) 15)
              (24 * 60) in
  let newHours := JSNum.floorDiv newTotalMinutes 60 in
  let newMinutes := JSNum.rem newTotalMinutes 60 in
  {| time := formatTime newHours newMinutes; error := error st |}.

Definition decrementMinute (st : State) : State :=
  let (hours, minutes) := timeParts (time st) in
  let newTotalMinutes :=
    JSNum.sub (JSNum.plus (JSNum.mul hours 60) minutes) 15 in
  let newTotalMinutes :=
    if JSNum.ltb newTotalMinutes 0
    then JSNum.add newTotalMinutes (24 * 60) else newTotalMinutes in
  let newHours := JSNum.floorDiv newTotalMinutes 60 in
  let newMinutes := JSNum.rem newTotalMinutes 60 in
  {| time := formatTime newHours newMinutes; error := error st |}.

End UseTimeInput.


(** [s || null] for a string that may be missing. *)
Definition orNull (s : option string) : option string :=
  if JS.truthyString s then s else None.

Module PickerState.

Inductive Field : Type := startDate | startTime | endDate | endTime.

(** [PickerState] of dateState.ts. *)
Record t : Type := {
  range : DateTimeRange;
  activeField : option Field;
  timezone : string;
  constraints : PickerConstraints;
  error : option string
}.

End PickerState.

Module UseDateTimeRangeState.

Definition emptyRange : DateTimeRange :=
  {| start := {| date := None; time := None |};
     end_ := {| date := None; time := None |} |}.

(** [useDateTimeRangeState(initialTimezone = 'UTC', initialConstraints = {})] *)
Definition init (initialTimezone : option string)
           (initialConstraints : option PickerConstraints) : PickerState.t :=
  {| PickerState.range := emptyRange;
     PickerState.activeField := None;
     PickerState.timezone :=
       match initialTimezone with Some tz => tz | None => "UTC" end;
     PickerState.constraints :=
       match initialConstraints with
       | Some c => c
       | None => {| minDate := None; maxDate := None; blackoutDates := None;
                    minDuration := None; maxDuration := None;
                    disabledDays := None |}
       end;
     PickerState.error := None |}.

Section Transitions.

Variable host : Host.

(** The error that [setStartDate] and [setEndDate] compute for a date. *)
Definition dateError (d : option Z) (prev : PickerState.t) : option string :=
  match d with
  | Some d =>
      let validation := isDateValid host d (PickerState.constraints prev) in
      if negb (valid validation) then orNull (error validation) else None
  | None => None
  end.

Definition setStartDate (d : option Z) (prev : PickerState.t) : PickerState.t :=
  let newRange :=
    {| start := {| date := d; time := time (start (PickerState.range prev)) |};
       end_ := end_ (PickerState.range prev) |} in
  {| PickerState.range := newRange;
     PickerState.activeField := PickerState.activeField prev;
     PickerState.timezone := PickerState.timezone prev;
     PickerState.constraints := PickerState.constraints prev;
     PickerState.error := dateError d prev |}.

Definition setStartTime (t : option string) (prev : PickerState.t)
  : PickerState.t :=
  let newRange :=
    {| start := {| date := date (start (PickerState.range prev)); time := t |};
       end_ := end_ (PickerState.range prev) |} in
  {| PickerState.range := newRange;
     PickerState.activeField := PickerState.activeField prev;
     PickerState.timezone := PickerState.timezone prev;
     PickerState.constraints := PickerState.constraints prev;
     PickerState.error := PickerState.error prev |}.

Definition setEndDate (d : option Z) (prev : PickerState.t) : PickerState.t :=
  let newRange :=
    {| start := start (PickerState.range prev);
       end_ := {| date := d; time := time (end_ (PickerState.range prev)) |} |} in
  {| PickerState.range := newRange;
     PickerState.activeField := PickerState.activeField prev;
     PickerState.timezone := PickerState.timezone prev;
     PickerState.constraints := PickerState.constraints prev;
     PickerState.error := dateError d prev |}.

Definition setEndTime (t : option string) (prev : PickerState.t)
  : PickerState.t :=
  let newRange :=
    {| start := start (PickerState.range prev);
       end_ := {| date := date (end_ (PickerState.range prev)); time := t |} |} in
  {| PickerState.range := newRange;
     PickerState.activeField := PickerState.activeField prev;
     PickerState.timezone := PickerState.timezone prev;
     PickerState.constraints := PickerState.constraints prev;
     PickerState.error := PickerState.error prev |}.


Definition setTimezone (timezone : string) (prev : PickerState.t)
  : PickerState.t :=
  {| PickerState.range := PickerState.range prev;
     PickerState.activeField := PickerState.activeField prev;
     PickerState.timezone := timezone;
     PickerState.constraints := PickerState.constraints prev;
     PickerState.error := PickerState.error prev |}.

Definition setActiveField (field : option PickerState.Field)
           (prev : PickerState.t) : PickerState.t :=
  {| PickerState.range := PickerState.range prev;
     PickerState.activeField := field;
     PickerState.timezone := PickerState.timezone prev;
     PickerState.constraints := PickerState.constraints prev;
     PickerState.error := PickerState.error prev |}.

Definition setConstraints (constraints : PickerConstraints)
           (prev : PickerState.t) : PickerState.t :=
  {| PickerState.range := PickerState.range prev;
     PickerState.activeField := PickerState.activeField prev;
     PickerState.timezone := PickerState.timezone prev;
     PickerState.constraints := constraints;
     PickerState.error := PickerState.error prev |}.

(** [validate]: the value returned and the next state. *)
Definition validate (state : PickerState.t) : bool * PickerState.t :=
  let validation :=
    isRangeValid host (PickerState.range state)
                 (PickerState.constraints state) in
  (rvalid validation,
   {| PickerState.range := PickerState.range state;
      PickerState.activeField := PickerState.activeField state;
      PickerState.timezone := PickerState.timezone state;
      PickerState.constraints := PickerState.constraints state;
      PickerState.error := orNull (hd_error (errors validation)) |}).


End Transitions.

End UseDateTimeRangeState.

Module UseCalendarNavigation.

(** The state of [useCalendarNavigation]. *)
Record State : Type := {
  currentDate : Z;
  selectedDate : option Z
}.

Section Transitions.

Variable host : Host.

Definition goToPreviousMonth (st : State) : State :=
  let prev := currentDate st in
  let newDate := prev in
  let newDate := setMonth host newDate (getMonth host newDate - 1) in
  {| currentDate := newDate; selectedDate := selectedDate st |}.

Definition goToNextMonth (st : State) : State :=
  let prev := currentDate st in
  let newDate := prev in
  let newDate := setMonth host newDate (getMonth host newDate + 1) in
  {| currentDate := newDate; selectedDate := selectedDate st |}.

(** [selectDate]: the next state and the date handed to [onDateSelect]. *)
Definition selectDate (d : Z) (st : State) : State * Z :=
  ({| currentDate := currentDate st; selectedDate := Some d |}, d).

(** [goToToday], with [today] what [new Date()] reads. *)
Definition goToToday (today : Z) (st : State) : State * Z :=
  ({| currentDate := today; selectedDate := Some today |}, today).

Definition selectDateRelative (offset : Z) (st : State) : State * Z :=
  let newDate :=
    match selectedDate st with Some d => d | None => currentDate st end in
  let newDate := setDate host newDate (getDate host newDate + offset) in
  selectDate newDate st.

End Transitions.

End UseCalendarNavigation.


(** The constraints that the picker hands to its grids. *)
Definition gridProps (year month : Z) (c : PickerConstraints)
  : CalendarGrid.Props :=
  {| CalendarGrid.year := year; CalendarGrid.month := month;
     CalendarGrid.disabledDays := disabledDays c;
     CalendarGrid.blackoutDates := blackoutDates c;
     CalendarGrid.minDate := minDate c;
     CalendarGrid.maxDate := maxDate c |}.


(** ** DateTimeRangePicker.tsx: the picker's state and its buttons *)

Module Picker.

(** The object handed to [onRangeChange]. *)
Record Range : Type := {
  startDate : option Z;
  startTime : option string;
  endDate : option Z;
  endTime : option string
}.

(** The [useState] cells that the handlers read and write: the four cells
    of the range, and the messages shown. *)
Record State : Type := {
  range : Range;
  errors : list string
}.

Section Handlers.

Variable host : Host.
Variable constraints : PickerConstraints.

(** "Apply".  The second component is the call of [onRangeChange], if it
    is made. *)
Definition handleRangeChange (s : State) : State * option Range :=
  let range := range s in
  let validation :=
    isRangeValid host
      {| start := {| date := startDate range; time := startTime range |};
         end_ := {| date := endDate range; time := endTime range |} |}
      constraints in
  match validation with
  | Build_RangeResult valid errs =>
      ({| range := range; errors := errs |},
       if valid then Some range else None)
  end.

(** A click on a preset, with [range] what its [getRange()] returned. *)
Definition handlePresetClick (range : Presets.PresetRange) (s : State)
  : State * option Range :=
  let r := {| startDate := Some (Presets.start range);
              startTime := Some (Presets.startTime range);
              endDate := Some (Presets.end_ range);
              endTime := Some (Presets.endTime range) |} in
  ({| range := r; errors := errors s |}, Some r).

(** "Clear". *)
Definition handleClear (s : State) : State :=
  {| range := {| startDate := None; startTime := None;
                 endDate := None; endTime := None |};
     errors := [] |}.

End Handlers.

End Picker.

(** The constraints that ask for a minimum duration only. *)
Definition atLeast (m : Z) : PickerConstraints :=
  {| minDate := None; maxDate := None; blackoutDates := None;
     minDuration := Some m; maxDuration := None; disabledDays := None |}.


(** ** All the well-formed times *)

Definition digits : list ascii :=
  ["0"; "1"; "2"; "3"; "4"; "5"; "6"; "7"; "8"; "9"]%char.

Definition hhmm (h1 h2 m1 m2 : ascii) : string :=
  String h1 (String h2 (String ":" (String m1 (String m2 EmptyString)))).

(** [P] holds of every string "dd:dd" that is a well-formed time. *)
Definition forallTimes (P : string -> bool) : bool :=
  forallb (fun h1 => forallb (fun h2 => forallb (fun m1 => forallb (fun m2 =>
    if wellFormedTime (hhmm h1 h2 m1 m2) then P (hhmm h1 h2 m1 m2) else true)
    digits) digits) digits) digits.

(** [P] holds of every four digits. *)
Definition forallDigits4 (P : ascii -> ascii -> ascii -> ascii -> bool)
  : bool :=
  forallb (fun c1 => forallb (fun c2 => forallb (fun c3 => forallb (fun c4 =>
    P c1 c2 c3 c4) digits) digits) digits) digits.

Definition emits (r : option string) (t : string) : bool :=
  match r with Some u => String.eqb u t | None => false end.

Definition emitsWellFormed (r : option string) : bool :=
  match r with Some u => wellFormedTime u | None => false end.

(** The key pressed [n] times, each press on the time the press before
    handed to [onChange]. *)
Fixpoint pressed (n : nat) (key : string) (t : option string)
  : option string :=
  match n with
  | O => t
  | S n =>
      match t with
      | Some _ => pressed n key (TimeInput.handleKeyDown t key)
      | None => None
      end
  end.

Fixpoint allDigits (s : string) : bool :=
  match s with
  | EmptyString => true
  | String c r => JS.isDigit c && allDigits r
  end.

(** ** The civil value of a date and a time *)




(** * Proofs *)

(** ** Facts about time values *)

Section CalendarFacts.

Lemma DayFromYear_bounds (y : Z) :
  146097 * (y - 1970) - 1000 <= 400 * DayFromYear y
  <= 146097 * (y - 1970) + 1000.
Proof. unfold DayFromYear. lia. Qed.

(** [YearFromDay] is the year of ECMA-262's YearFromTime: the largest
    year that starts on or before the day. *)
Lemma YearFromDay_spec (d : Z) :
  DayFromYear (YearFromDay d) <= d < DayFromYear (YearFromDay d + 1).
Proof.
  unfold YearFromDay. cbv zeta.
  set (q := d * 400 / 146097).
  assert (Hq : 146097 * q <= 400 * d < 146097 * (q + 1)) by (subst q; lia).
  clearbody q.
  pose proof (DayFromYear_bounds (1970 + q - 1)).
  pose proof (DayFromYear_bounds (1970 + q + 1 + 1)).
  destruct (Z.ltb_spec d (DayFromYear (1970 + q))) as [H1|H1];
    [|destruct (Z.leb_spec (DayFromYear (1970 + q + 1)) d) as [H2|H2]].
  - replace (1970 + q - 1 + 1) with (1970 + q) by lia. lia.
  - lia.
  - lia.
Qed.

Lemma MonthFromTime_range (t : Z) : 0 <= MonthFromTime t <= 11.
Proof.
  unfold MonthFromTime.
  repeat match goal with
         | |- context [if ?b then _ else _] => destruct b
         end; lia.
Qed.

Lemma DayFromYear_succ (y : Z) :
  DayFromYear (y + 1) = DayFromYear y + DaysInYear y.
Proof.
  unfold DayFromYear, DaysInYear, isLeapYear.
  destruct (Z.eqb_spec (y mod 4) 0), (Z.eqb_spec (y mod 100) 0),
    (Z.eqb_spec (y mod 400) 0); cbn [negb]; lia.
Qed.

Lemma DayWithinYear_range (t : Z) :
  0 <= DayWithinYear t < DaysInYear (YearFromTime t).
Proof.
  unfold DayWithinYear, YearFromTime.
  pose proof (YearFromDay_spec (Day t)) as H.
  rewrite DayFromYear_succ in H. lia.
Qed.

(** The date of the month is a day of that month. *)
Lemma DateFromTime_range (t : Z) : 1 <= DateFromTime t <= 31.
Proof.
  pose proof (DayWithinYear_range t) as H.
  unfold DateFromTime, MonthFromTime, InLeapYear, DaysInYear in *.
  destruct (isLeapYear (YearFromTime t));
    repeat match goal with
           | |- context [if ?b then _ else _] =>
               let E := fresh in destruct b eqn:E
           end; cbn [monthStart]; lia.
Qed.

(** Setting the day of the month moves the day number by the difference. *)
Lemma MakeDay_of_fields (t dt : Z) :
  MakeDay (YearFromTime t) (MonthFromTime t) dt = Day t + (dt - DateFromTime t).
Proof.
  pose proof (MonthFromTime_range t) as Hm.
  unfold MakeDay.
  rewrite (Z.div_small (MonthFromTime t) 12), (Z.mod_small (MonthFromTime t) 12) by lia.
  rewrite Z.add_0_r.
  unfold DateFromTime, DayWithinYear, InLeapYear. lia.
Qed.

Lemma Day_MakeDate (d tm : Z) :
  0 <= tm < msPerDay -> Day (MakeDate d tm) = d.
Proof. unfold Day, MakeDate, msPerDay. intros. lia. Qed.

Lemma TimeWithinDay_MakeDate (d tm : Z) :
  0 <= tm < msPerDay -> TimeWithinDay (MakeDate d tm) = tm.
Proof. unfold TimeWithinDay, MakeDate, msPerDay. intros. lia. Qed.

Lemma MakeDate_Day_TimeWithinDay (t : Z) :
  MakeDate (Day t) (TimeWithinDay t) = t.
Proof. unfold MakeDate, Day, TimeWithinDay, msPerDay. lia. Qed.

Variable host : Host.

Lemma LocalTime_UTC (t : Z) : LocalTime host (UTC host t) = t.
Proof. unfold LocalTime, UTC. lia. Qed.

Lemma UTC_LocalTime (t : Z) : UTC host (LocalTime host t) = t.
Proof. unfold LocalTime, UTC. lia. Qed.

(** [d.setDate(d.getDate() + k)] moves [d] by [k] whole days. *)
Lemma setDate_getDate_plus (d k : Z) :
  setDate host d (getDate host d + k) = d + k * msPerDay.
Proof.
  unfold setDate, getDate.
  rewrite MakeDay_of_fields.
  unfold UTC, LocalTime, MakeDate, Day, TimeWithinDay, msPerDay, msPerMinute.
  lia.
Qed.

(** [d.setHours(h, m, s, ms)] keeps the local calendar day of [d]. *)
Lemma Day_setHours (d h m s ms : Z) :
  0 <= MakeTime h m s ms < msPerDay ->
  Day (LocalTime host (setHours host d h m s ms)) = Day (LocalTime host d).
Proof.
  intros. unfold setHours. rewrite LocalTime_UTC. now apply Day_MakeDate.
Qed.

End CalendarFacts.


(** ** Validation of ranges *)

Section RangeFacts.

Variable host : Host.

Lemma isDigit_not_colon (c : ascii) :
  JS.isDigit c = true -> Ascii.eqb c ":" = false.
Proof.
  destruct c as [[] [] [] [] [] [] [] []]; try reflexivity; discriminate.
Qed.

Lemma isDigit_value (c : ascii) :
  JS.isDigit c = true -> 0 <= JS.digitValue c <= 9.
Proof.
  unfold JS.isDigit, JS.digitValue. cbv zeta. lia.
Qed.

(** A well-formed time combines with a date into a date: the local day of
    the date at [hh:mm:00.000], with [hh < 24] and [mm < 60]. *)
Lemma combineDateTime_wellFormed (d : Z) (s : string) :
  wellFormedTime s = true ->
  exists hh mm, 0 <= hh < 24 /\ 0 <= mm < 60 /\
    combineDateTime host d s = Some (setHours host d hh mm 0 0).
Proof.
  destruct s as [|h1 [|h2 [|c [|m1 [|m2 [|? ?]]]]]]; try discriminate.
  unfold wellFormedTime. intros H.
  repeat (apply andb_true_iff in H; destruct H as [H ?]).
  assert (Hh1 : JS.isDigit h1 = true /\ 0 <= JS.digitValue h1 <= 2
                /\ (JS.digitValue h1 = 2 -> JS.digitValue h2 <= 3)
                /\ JS.isDigit h2 = true).
  { apply orb_true_iff in H. destruct H as [H|H].
    - apply andb_true_iff in H. destruct H as [H Hd].
      apply orb_true_iff in H.
      destruct H as [H|H]; apply Ascii.eqb_eq in H; subst h1.
      + change (JS.digitValue "0") with 0. split; [reflexivity|]. split; [lia|]. split; [lia|assumption].
      + change (JS.digitValue "1") with 1. split; [reflexivity|]. split; [lia|]. split; [lia|assumption].
    - repeat (apply andb_true_iff in H; destruct H as [H ?]).
      apply Ascii.eqb_eq in H. subst h1.
      change (JS.digitValue "2") with 2. split; [reflexivity|]. split; [lia|]. split; [lia|assumption]. }
  destruct Hh1 as (D1 & R1 & R12 & D2).
  match goal with E : Ascii.eqb c ":" = true |- _ => apply Ascii.eqb_eq in E; subst c end.
  pose proof (isDigit_value _ D2).
  repeat match goal with E : JS.isDigit _ = true |- _ =>
    pose proof (isDigit_value _ E); pose proof (isDigit_not_colon _ E); revert E end.
  intros.
  exists (10 * (10 * 0 + JS.digitValue h1) + JS.digitValue h2),
         (10 * (10 * 0 + JS.digitValue m1) + JS.digitValue m2).
  split; [lia|]. split; [lia|].
  unfold combineDateTime. simpl.
  repeat match goal with E : Ascii.eqb _ ":" = false |- _ => rewrite E; clear E end.
  simpl. unfold JS.Number. simpl.
  repeat match goal with E : JS.isDigit _ = true |- _ => rewrite E; clear E end.
  reflexivity.
Qed.


Lemma combineDateTime_nonempty (d : Z) (s : string) (a : Z) :
  combineDateTime host d s = Some a ->
  JS.truthyString (Some s) = true /\ JS.orString (Some s) "00:00" = s.
Proof.
  destruct s as [|c s]; [discriminate|]. intros _. split; reflexivity.
Qed.


Lemma isRangeValid_complete (sd ed a b : Z) (st et : string)
      (c : PickerConstraints) :
  combineDateTime host sd st = Some a ->
  combineDateTime host ed et = Some b ->
  isRangeValid host (completeRange sd st ed et) c =
    let es := (dateErrors host "Start: " sd c ++ dateErrors host "End: " ed c
               ++ orderErrors a b ++ minDurationErrors (b - a) c
               ++ maxDurationErrors (b - a) c)%list in
    {| rvalid := (Z.of_nat (List.length es) =? 0); errors := es |}.
Proof.
  intros Ha Hb.
  destruct (combineDateTime_nonempty _ _ _ Ha) as [Ts Os].
  destruct (combineDateTime_nonempty _ _ _ Hb) as [Te Oe].
  unfold isRangeValid, completeRange. cbn [start end_ date time JS.truthyObject].
  rewrite Ts, Te, Os, Oe, Ha, Hb. cbn [negb orb List.length Z.of_nat Z.ltb Z.compare].
  unfold dateErrors, orderErrors, minDurationErrors, maxDurationErrors, JS.push.
  cbn [JS.ge JS.sub JS.lt JS.gt JS.truthyNumber].
  destruct (valid (isDateValid host sd c)), (valid (isDateValid host ed c)),
    (b <=? a), (minDuration c) as [m|], (maxDuration c) as [M|];
    cbn [negb app JS.lt JS.gt JS.truthyNumber andb];
    repeat match goal with
           | |- context [if ?x && ?y then _ else _] => destruct (x && y)
           end; reflexivity.
Qed.

End RangeFacts.

(** ** Incomplete ranges (C4) *)


(** C4. A range with a null start date, start time, end date or end time is
    rejected at once with the completeness messages only: "Start date and
    time are required" when the start side is missing, "End date and time
    are required" when the end side is missing, in this order, and nothing
    from the per-side, ordering or duration checks. *)
Theorem isRangeValid_incomplete (host : Host) (range : DateTimeRange)
        (constraints : PickerConstraints) :
  date (start range) = None \/ time (start range) = None \/
  date (end_ range) = None \/ time (end_ range) = None ->
  isRangeValid host range constraints =
    {| rvalid := false;
       errors :=
         ((if missing (start range)
           then ["Start date and time are required"] else [])
          ++ (if missing (end_ range)
              then ["End date and time are required"] else []))%list |}.
Proof.
  destruct range as [[sd st] [ed et]]. cbn [start end_ date time].
  intros H. unfold isRangeValid, missing. cbn [start end_ date time].
  destruct sd as [sd|], st as [st|], ed as [ed|], et as [et|];
    cbn [JS.truthyObject JS.truthyString negb orb];
    try (exfalso; destruct H as [H|[H|[H|H]]]; discriminate);
    repeat match goal with
           | |- context [String.eqb ?s ""] => destruct (String.eqb s "")
           end; reflexivity.
Qed.

Lemma isRangeValid_incomplete_witness :
  isRangeValid utcHost
    {| start := {| date := Some 1736899200000; time := None |};
       end_ := {| date := Some 1736985600000; time := Some "17:00" |} |}
    {| minDate := Some 1740000000000; maxDate := None; blackoutDates := None;
       minDuration := Some 7200000; maxDuration := None;
       disabledDays := None |}
  = {| rvalid := false; errors := ["Start date and time are required"] |}.
Proof.
  apply (isRangeValid_incomplete utcHost
           {| start := {| date := Some 1736899200000; time := None |};
              end_ := {| date := Some 1736985600000; time := Some "17:00" |} |}).
  right; left; reflexivity.
Defined.

(** ** Ordering (C5) *)









(** ** Minimum duration (C6) *)


Lemma includes_at_least (x : string) :
  JS.includes "at least" ("Duration must be at least " ++ x) = true.
Proof. reflexivity. Qed.

Lemma app_nil_inv {A} (l1 l2 : list A) :
  (l1 ++ l2)%list = [] -> l1 = [] /\ l2 = [].
Proof. destruct l1; simpl; [tauto|discriminate]. Qed.

Lemma length_zero_nil {A} (l : list A) :
  (Z.of_nat (List.length l) =? 0) = true -> l = [].
Proof. destruct l; [reflexivity|simpl; lia]. Qed.

(** C6. Take a complete range that is valid when [minDuration] is left out
    of the constraints, with civil duration [b - a] milliseconds.  With
    [minDuration = m]: if the duration is exactly [m] the range is valid;
    if it is [m - 1] the range is invalid and its one message is
    "Duration must be at least ..." with [m] formatted, which contains
    "at least". *)
Theorem isRangeValid_minDuration_boundary (host : Host) (sd ed a b m : Z)
        (st et : string) (constraints : PickerConstraints) :
  combineDateTime host sd st = Some a ->
  combineDateTime host ed et = Some b ->
  minDuration constraints = Some m ->
  rvalid (isRangeValid host (completeRange sd st ed et)
            (withoutMinDuration constraints)) = true ->
  (b - a = m ->
   isRangeValid host (completeRange sd st ed et) constraints
   = {| rvalid := true; errors := [] |})
  /\
  (b - a = m - 1 ->
   isRangeValid host (completeRange sd st ed et) constraints
   = {| rvalid := false;
        errors := [("Duration must be at least " ++ formatDuration m)%string] |}
   /\ JS.includes "at least"
        ("Duration must be at least " ++ formatDuration m) = true).
Proof.
  intros Ha Hb Hm Hv.
  rewrite (isRangeValid_complete host _ _ _ _ _ _ _ Ha Hb) in Hv.
  cbn [rvalid] in Hv. apply length_zero_nil in Hv.
  apply app_nil_inv in Hv. destruct Hv as [E1 Hv].
  apply app_nil_inv in Hv. destruct Hv as [E2 Hv].
  apply app_nil_inv in Hv. destruct Hv as [E3 Hv].
  apply app_nil_inv in Hv. destruct Hv as [_ E5].
  change (dateErrors host "Start: " sd (withoutMinDuration constraints))
    with (dateErrors host "Start: " sd constraints) in E1.
  change (dateErrors host "End: " ed (withoutMinDuration constraints))
    with (dateErrors host "End: " ed constraints) in E2.
  change (maxDurationErrors (b - a) (withoutMinDuration constraints))
    with (maxDurationErrors (b - a) constraints) in E5.
  assert (Hlt : a < b).
  { unfold orderErrors in E3. destruct (Z.leb_spec b a); [discriminate|lia]. }
  rewrite (isRangeValid_complete host _ _ _ _ _ _ _ Ha Hb).
  cbv zeta. rewrite E1, E2, E3, E5. cbn [app].
  unfold minDurationErrors. rewrite Hm.
  split; intros Hd.
  - replace (b - a <? m) with false by lia.
    rewrite andb_false_r. reflexivity.
  - replace (b - a <? m) with true by lia.
    replace (m =? 0) with false by lia.
    split; [reflexivity | apply includes_at_least].
Qed.

Lemma isRangeValid_minDuration_boundary_witness :
  isRangeValid utcHost
    (completeRange 1736899200000 "09:00" 1736899200000 "11:00")
    {| minDate := None; maxDate := None; blackoutDates := None;
       minDuration := Some 7200000; maxDuration := None;
       disabledDays := None |}
  = {| rvalid := true; errors := [] |}.
Proof.
  refine (proj1 (isRangeValid_minDuration_boundary utcHost
            1736899200000 1736899200000 1736931600000 1736938800000 7200000
            "09:00" "11:00" _ _ _ _ _) _); reflexivity.
Defined.

(** ** Formatting of durations (C7) *)


Lemma formatDuration_units (ms : Z) :
  ms / 1000 / 60 = ms / 60000 /\
  ms / 1000 / 60 / 60 = ms / 3600000 /\
  ms / 1000 / 60 / 60 / 24 = ms / 86400000.
Proof. lia. Qed.

(** C7, as the code has it. From one second on, [formatDuration] reports
    one unit, the largest of days, hours, minutes and seconds whose floored
    magnitude is not zero, in the plural exactly when the magnitude is more
    than 1.  Below one second (zero and negative durations too) it reports
    the floored number of seconds with the word "second". *)
Theorem formatDuration_single_unit (ms : Z) :
  (1000 <= ms -> reportsLargestUnit ms (formatDuration ms)) /\
  (ms < 1000 ->
   formatDuration ms = (JS.showZ (ms / 1000) ++ " second")%string).
Proof.
  destruct (formatDuration_units ms) as (Em & Eh & Ed).
  unfold formatDuration. cbv zeta. rewrite Ed, Eh, Em.
  split; intros H.
  - destruct (Z.ltb_spec 0 (ms / 86400000)) as [D|D].
    { exists "day", 86400000. split; [simpl; tauto|]. split; [lia|].
      split; [|reflexivity].
      intros u' s' Hin Hlt. simpl in Hin.
      destruct Hin as [E|[E|[E|[E|[]]]]]; inversion E; subst; lia. }
    destruct (Z.ltb_spec 0 (ms / 3600000)) as [Hh|Hh].
    { exists "hour", 3600000. split; [simpl; tauto|]. split; [lia|].
      split; [|reflexivity].
      intros u' s' Hin Hlt. simpl in Hin.
      destruct Hin as [E|[E|[E|[E|[]]]]]; inversion E; subst; lia. }
    destruct (Z.ltb_spec 0 (ms / 60000)) as [Hmi|Hmi].
    { exists "minute", 60000. split; [simpl; tauto|]. split; [lia|].
      split; [|reflexivity].
      intros u' s' Hin Hlt. simpl in Hin.
      destruct Hin as [E|[E|[E|[E|[]]]]]; inversion E; subst; lia. }
    exists "second", 1000. split; [simpl; tauto|]. split; [lia|].
    split; [|reflexivity].
    intros u' s' Hin Hlt. simpl in Hin.
    destruct Hin as [E|[E|[E|[E|[]]]]]; inversion E; subst; lia.
  - replace (0 <? ms / 86400000) with false by lia.
    replace (0 <? ms / 3600000) with false by lia.
    replace (0 <? ms / 60000) with false by lia.
    replace (1 <? ms / 1000) with false by lia.
    reflexivity.
Qed.

Lemma formatDuration_single_unit_witness :
  reportsLargestUnit 7200000 (formatDuration 7200000)
  /\ formatDuration 500 = "0 second".
Proof.
  split.
  - apply (proj1 (formatDuration_single_unit 7200000)). lia.
  - apply (proj2 (formatDuration_single_unit 500)). lia.
Defined.

(** C7 as stated fails below one second: half a second is reported as
    "0 second", a unit whose magnitude is zero, and minus one day is
    reported in seconds although its magnitude in days is not zero. *)
Lemma formatDuration_largest_unit_counterexample :
  formatDuration 500 = "0 second"
  /\ ~ reportsLargestUnit 500 (formatDuration 500)
  /\ formatDuration (-86400000) = "-86400 second"
  /\ ~ reportsLargestUnit (-86400000) (formatDuration (-86400000)).
Proof.
  split; [reflexivity|]. split; [|split; [reflexivity|]].
  - intros (u & s & Hin & Hnz & _). simpl in Hin.
    destruct Hin as [E|[E|[E|[E|[]]]]]; inversion E; subst;
      apply Hnz; reflexivity.
  - intros (u & s & Hin & Hnz & Hlarge & Hs). simpl in Hin.
    destruct Hin as [E|[E|[E|[E|[]]]]]; inversion E; subst.
    + discriminate Hs.
    + specialize (Hlarge "day" 86400000). simpl in Hlarge.
      assert (X : -86400000 / 86400000 = 0) by (apply Hlarge; [tauto|lia]).
      discriminate X.
    + specialize (Hlarge "day" 86400000). simpl in Hlarge.
      assert (X : -86400000 / 86400000 = 0) by (apply Hlarge; [tauto|lia]).
      discriminate X.
    + specialize (Hlarge "day" 86400000). simpl in Hlarge.
      assert (X : -86400000 / 86400000 = 0) by (apply Hlarge; [tauto|lia]).
      discriminate X.
Qed.

(** ** Calendar days *)

Section DayFacts.

Variable host : Host.

Lemma fields_of_Day (t1 t2 : Z) :
  Day t1 = Day t2 ->
  YearFromTime t1 = YearFromTime t2 /\
  MonthFromTime t1 = MonthFromTime t2 /\
  DateFromTime t1 = DateFromTime t2.
Proof.
  intros E.
  assert (Y : YearFromTime t1 = YearFromTime t2)
    by (unfold YearFromTime; now rewrite E).
  assert (W : DayWithinYear t1 = DayWithinYear t2)
    by (unfold DayWithinYear; now rewrite E, Y).
  assert (L : InLeapYear t1 = InLeapYear t2)
    by (unfold InLeapYear; now rewrite Y).
  assert (M : MonthFromTime t1 = MonthFromTime t2)
    by (unfold MonthFromTime; now rewrite W, L).
  repeat split; try assumption.
  unfold DateFromTime. now rewrite W, L, M.
Qed.

(** Two dates are on the same day exactly when their local day numbers
    agree; the time of day plays no part. *)
Lemma isSameDay_iff (d1 d2 : Z) :
  isSameDay host d1 d2 = true
  <-> Day (LocalTime host d1) = Day (LocalTime host d2).
Proof.
  unfold isSameDay, getFullYear, getMonth, getDate. split.
  - intros H. apply andb_true_iff in H. destruct H as [H Hd].
    apply andb_true_iff in H. destruct H as [Hy Hm].
    apply Z.eqb_eq in Hy, Hm, Hd.
    pose proof (MakeDay_of_fields (LocalTime host d1)
                  (DateFromTime (LocalTime host d1))) as E1.
    pose proof (MakeDay_of_fields (LocalTime host d2)
                  (DateFromTime (LocalTime host d2))) as E2.
    rewrite Hy, Hm, Hd in E1. lia.
  - intros E. destruct (fields_of_Day _ _ E) as (Hy & Hm & Hd).
    rewrite Hy, Hm, Hd, !Z.eqb_refl. reflexivity.
Qed.

End DayFacts.

(** ** Single dates (C9) *)


(** C9. [isDateValid] compares the date with [minDate] and [maxDate] as
    instants: a date earlier than [minDate] is "before minimum" whatever
    its calendar day, also on the day of [minDate] itself, and likewise for
    [maxDate].  The blackout check that follows looks at the calendar day
    only: the date is "not available" exactly when a blackout date has the
    same local day number. *)
Theorem isDateValid_instant_bounds_day_blackout (host : Host) (date : Z)
        (constraints : PickerConstraints) :
  (forall m, minDate constraints = Some m -> date < m ->
             isDateValid host date constraints = beforeMinimum)
  /\
  (forall M, maxDate constraints = Some M -> M < date ->
             (forall m, minDate constraints = Some m -> m <= date) ->
             isDateValid host date constraints = afterMaximum)
  /\
  (forall bds, blackoutDates constraints = Some bds ->
               (forall m, minDate constraints = Some m -> m <= date) ->
               (forall M, maxDate constraints = Some M -> date <= M) ->
               (isDateValid host date constraints = notAvailable
                <-> exists bd, In bd bds /\
                      Day (LocalTime host bd) = Day (LocalTime host date))).
Proof.
  unfold isDateValid. repeat split.
  - intros m Hm Hlt. rewrite Hm.
    replace (date <? m) with true by lia. reflexivity.
  - intros M HM Hlt Hmin. rewrite HM.
    destruct (minDate constraints) as [m|].
    + specialize (Hmin m eq_refl). replace (date <? m) with false by lia.
      replace (M <? date) with true by lia. reflexivity.
    + replace (M <? date) with true by lia. reflexivity.
  - rename H into Hb, H0 into Hmin, H1 into Hmax. rewrite Hb.
    assert (E1 : match minDate constraints with
                 | Some m => date <? m | None => false end = false).
    { destruct (minDate constraints) as [m|]; [|reflexivity].
      specialize (Hmin m eq_refl). lia. }
    assert (E2 : match maxDate constraints with
                 | Some m => m <? date | None => false end = false).
    { destruct (maxDate constraints) as [m|]; [|reflexivity].
      specialize (Hmax m eq_refl). lia. }
    rewrite E1, E2.
    destruct (existsb (fun bd => isSameDay host bd date) bds) eqn:Ex.
    + intros _. apply existsb_exists in Ex. destruct Ex as (bd & Hin & Hs).
      exists bd. split; [assumption|]. now apply isSameDay_iff.
    + intros Hv. exfalso.
      destruct (match disabledDays constraints with
                | Some ds => existsb (fun x => x =? getDay host date) ds
                | None => false end); discriminate Hv.
  - rename H into Hb, H0 into Hmin, H1 into Hmax. rewrite Hb.
    assert (E1 : match minDate constraints with
                 | Some m => date <? m | None => false end = false).
    { destruct (minDate constraints) as [m|]; [|reflexivity].
      specialize (Hmin m eq_refl). lia. }
    assert (E2 : match maxDate constraints with
                 | Some m => m <? date | None => false end = false).
    { destruct (maxDate constraints) as [m|]; [|reflexivity].
      specialize (Hmax m eq_refl). lia. }
    rewrite E1, E2. intros (bd & Hin & Hs).
    assert (Ex : existsb (fun bd => isSameDay host bd date) bds = true).
    { apply existsb_exists. exists bd. split; [assumption|].
      now apply isSameDay_iff. }
    rewrite Ex. reflexivity.
Qed.

(** On 2025-01-15 with [minDate] at 09:00 of that day, 08:00 of the same
    day is before the minimum; with a blackout at 09:00 of that day, 23:00
    of the same day is not available. *)
Lemma isDateValid_instant_bounds_day_blackout_witness :
  isSameDay utcHost 1736931600000 1736928000000 = true
  /\ isDateValid utcHost 1736928000000
       {| minDate := Some 1736931600000; maxDate := None;
          blackoutDates := None; minDuration := None; maxDuration := None;
          disabledDays := None |} = beforeMinimum
  /\ isDateValid utcHost 1736982000000
       {| minDate := None; maxDate := None;
          blackoutDates := Some [1736931600000]; minDuration := None;
          maxDuration := None; disabledDays := None |} = notAvailable.
Proof.
  split; [reflexivity|]. split.
  - apply (proj1 (isDateValid_instant_bounds_day_blackout utcHost
                    1736928000000 _) 1736931600000); [reflexivity|lia].
  - apply (proj2 (proj2 (isDateValid_instant_bounds_day_blackout utcHost
                    1736982000000 _)) [1736931600000]);
      [reflexivity | discriminate | discriminate |].
    exists 1736931600000. split; [left; reflexivity | reflexivity].
Defined.

(** ** The "Last 7 Days" preset (C8) *)

Section PresetFacts.

Variable host : Host.

Lemma Day_LocalTime_shift (d k : Z) :
  Day (LocalTime host (d + k * msPerDay)) = Day (LocalTime host d) + k.
Proof. unfold Day, LocalTime, msPerDay. lia. Qed.

Lemma MakeTime_start_of_day : MakeTime 0 0 0 0 = 0.
Proof. reflexivity. Qed.

Lemma MakeTime_end_of_day : MakeTime 23 59 59 999 = msPerDay - 1.
Proof. reflexivity. Qed.

Lemma time_fields_of_MakeDate (dy h m s ms : Z) :
  0 <= h < 24 -> 0 <= m < 60 -> 0 <= s < 60 -> 0 <= ms < 1000 ->
  let d := UTC host (MakeDate dy (MakeTime h m s ms)) in
  getHours host d = h /\ getMinutes host d = m /\
  getSeconds host d = s /\ getMilliseconds host d = ms.
Proof.
  intros. subst d.
  unfold getHours, getMinutes, getSeconds, getMilliseconds.
  rewrite LocalTime_UTC.
  unfold HourFromTime, MinFromTime, SecFromTime, msFromTime, MakeDate,
    MakeTime, msPerDay, msPerHour, msPerMinute, msPerSecond.
  repeat split; lia.
Qed.

End PresetFacts.

(** C8. With both readings of the clock equal to [now], "Last 7 Days"
    starts on the local day six days before the day of [now], at
    00:00:00.000, and ends on the day of [now] at 23:59:59.999: seven
    calendar days, both ends included.  The companion strings are "00:00"
    and "23:59".  When the day of [now] is 2025-06-10 the range goes from
    2025-06-04 00:00:00.000 to 2025-06-10 23:59:59.999. *)
Theorem last7days_range (host : Host) (now : Z) :
  let r := Presets.last7days_getRange host now now in
  let today := Day (LocalTime host now) in
  Presets.start r = UTC host (MakeDate (today - 6) 0)
  /\ Presets.end_ r = UTC host (MakeDate today (msPerDay - 1))
  /\ Presets.startTime r = "00:00" /\ Presets.endTime r = "23:59"
  /\ (getHours host (Presets.start r), getMinutes host (Presets.start r),
      getSeconds host (Presets.start r), getMilliseconds host (Presets.start r))
     = (0, 0, 0, 0)
  /\ (getHours host (Presets.end_ r), getMinutes host (Presets.end_ r),
      getSeconds host (Presets.end_ r), getMilliseconds host (Presets.end_ r))
     = (23, 59, 59, 999)
  /\ Day (LocalTime host (Presets.end_ r)) = today
  /\ Day (LocalTime host (Presets.start r)) = today - 6
  /\ Day (LocalTime host (Presets.end_ r))
     - Day (LocalTime host (Presets.start r)) + 1 = 7
  /\ ((getFullYear host now, getMonth host now, getDate host now)
      = (2025, 5, 10) ->
      Presets.start r = newDate host 2025 5 4 0 0 0 0
      /\ Presets.end_ r = newDate host 2025 5 10 23 59 59 999).
Proof.
  intros r today.
  assert (Hs : Presets.start r = UTC host (MakeDate (today - 6) 0)).
  { subst r today. unfold Presets.last7days_getRange. cbn [Presets.start].
    replace (getDate host now - 6) with (getDate host now + (-6)) by lia.
    rewrite setDate_getDate_plus. unfold setHours.
    rewrite Day_LocalTime_shift, MakeTime_start_of_day.
    unfold UTC, MakeDate. lia. }
  assert (He : Presets.end_ r = UTC host (MakeDate today (msPerDay - 1))).
  { subst r today. unfold Presets.last7days_getRange. cbn [Presets.end_].
    unfold setHours. now rewrite MakeTime_end_of_day. }
  assert (Ds : Day (LocalTime host (Presets.start r)) = today - 6).
  { rewrite Hs, LocalTime_UTC. apply Day_MakeDate. unfold msPerDay. lia. }
  assert (De : Day (LocalTime host (Presets.end_ r)) = today).
  { rewrite He, LocalTime_UTC. apply Day_MakeDate. unfold msPerDay. lia. }
  split; [exact Hs|]. split; [exact He|].
  split; [reflexivity|]. split; [reflexivity|].
  split.
  { rewrite Hs. rewrite <- MakeTime_start_of_day.
    destruct (time_fields_of_MakeDate host (today - 6) 0 0 0 0)
      as (E1 & E2 & E3 & E4); try lia.
    now rewrite E1, E2, E3, E4. }
  split.
  { rewrite He. rewrite <- MakeTime_end_of_day.
    destruct (time_fields_of_MakeDate host today 23 59 59 999)
      as (E1 & E2 & E3 & E4); try lia.
    now rewrite E1, E2, E3, E4. }
  split; [exact De|]. split; [exact Ds|]. split; [lia|].
  intros Hnow. injection Hnow as Hy Hm Hd.
  assert (Ht : today = MakeDay 2025 5 10).
  { subst today. unfold getFullYear, getMonth, getDate in *.
    pose proof (MakeDay_of_fields (LocalTime host now) 10) as E.
    rewrite Hy, Hm, Hd in E. lia. }
  rewrite Hs, He, Ht. unfold newDate. cbn [Z.leb Z.compare andb].
  split; reflexivity.
Qed.

(** Noon of 2025-06-10 on a machine in the UTC zone. *)
Lemma last7days_range_witness :
  Presets.start (Presets.last7days_getRange utcHost 1749556800000 1749556800000)
  = 1748995200000
  /\ Presets.end_ (Presets.last7days_getRange utcHost 1749556800000 1749556800000)
     = 1749599999999.
Proof.
  pose proof (last7days_range utcHost 1749556800000) as H. cbv zeta in H.
  destruct H as (_ & _ & _ & _ & _ & _ & _ & _ & _ & H).
  destruct (H eq_refl) as [Hs He].
  rewrite Hs, He. split; reflexivity.
Defined.

(** ** All days of a range (C10) *)

Section DateRangeFacts.

Variable host : Host.

Lemma getDateRange_loop_done (endv current : Z) (dates : list Z) :
  endv < current -> getDateRange_loop host endv current dates = dates.
Proof.
  intros H. rewrite getDateRange_loop_equation_1.
  destruct (Z_le_gt_dec current endv); [lia|reflexivity].
Qed.

Lemma getDateRange_loop_step (endv current : Z) (dates : list Z) :
  current <= endv ->
  getDateRange_loop host endv current dates
  = getDateRange_loop host endv (current + msPerDay) (dates ++ [current])%list.
Proof.
  intros H. rewrite getDateRange_loop_equation_1.
  destruct (Z_le_gt_dec current endv); [|lia].
  cbn. rewrite setDate_getDate_plus. unfold JS.push. f_equal; lia.
Qed.

(** The loop appends one date per day, from [current] up to [endv]. *)
Lemma getDateRange_loop_days (n : nat) :
  forall (endv current : Z) (dates : list Z),
    endv - current = (Z.of_nat n - 1) * msPerDay ->
    getDateRange_loop host endv current dates
    = (dates ++ map (fun k => current + Z.of_nat k * msPerDay) (seq 0 n))%list.
Proof.
  induction n as [|n IH]; intros endv current dates H.
  - rewrite getDateRange_loop_done by (unfold msPerDay in *; lia).
    simpl. now rewrite app_nil_r.
  - rewrite getDateRange_loop_step by (unfold msPerDay in *; lia).
    rewrite IH by lia.
    rewrite <- app_assoc. f_equal. cbn [seq map app].
    f_equal; [lia|].
    rewrite <- seq_shift, map_map. apply map_ext. intros k. lia.
Qed.

End DateRangeFacts.

(** C10. [getDateRange] returns the local midnights of the consecutive
    calendar days from the day of the start date to the day of the end
    date, both included, in ascending order; the times of day of the two
    dates play no part.  Its length is the number of calendar days
    between the two days plus one, and it is empty when the start's day is
    after the end's day. *)
Theorem getDateRange_days (host : Host) (startDate endDate : Z) :
  let first := Day (LocalTime host startDate) in
  let last := Day (LocalTime host endDate) in
  getDateRange host startDate endDate
  = map (fun k => UTC host (MakeDate (first + Z.of_nat k) 0))
        (seq 0 (Z.to_nat (last - first + 1)))
  /\ (first <= last ->
      Z.of_nat (List.length (getDateRange host startDate endDate))
      = (last - first) + 1)
  /\ (last < first -> getDateRange host startDate endDate = []).
Proof.
  intros first last.
  assert (Hc : setHours host startDate 0 0 0 0 = UTC host (MakeDate first 0))
    by reflexivity.
  assert (He : setHours host endDate 0 0 0 0 = UTC host (MakeDate last 0))
    by reflexivity.
  assert (Hmain : getDateRange host startDate endDate
                  = map (fun k => UTC host (MakeDate (first + Z.of_nat k) 0))
                        (seq 0 (Z.to_nat (last - first + 1)))).
  { unfold getDateRange. cbv zeta. rewrite Hc, He.
    destruct (Z_lt_le_dec last first) as [Hlt|Hle].
    - rewrite getDateRange_loop_done
        by (unfold UTC, MakeDate, msPerDay; lia).
      replace (Z.to_nat (last - first + 1)) with 0%nat by lia. reflexivity.
    - rewrite (getDateRange_loop_days host (Z.to_nat (last - first + 1)))
        by (unfold UTC, MakeDate, msPerDay; lia).
      cbn [app]. apply map_ext. intros k.
      unfold UTC, MakeDate, msPerDay. lia. }
  split; [exact Hmain|]. split.
  - intros Hle. rewrite Hmain, length_map, length_seq. lia.
  - intros Hlt. rewrite Hmain.
    replace (Z.to_nat (last - first + 1)) with 0%nat by lia. reflexivity.
Qed.

(** The days from 2025-01-15 12:00 to 2025-01-20 00:00 on a machine in
    the UTC zone: six midnights, for five days between. *)
Lemma getDateRange_days_witness :
  getDateRange utcHost 1736942400000 1737331200000
  = [1736899200000; 1736985600000; 1737072000000; 1737158400000;
     1737244800000; 1737331200000]
  /\ Z.of_nat (List.length (getDateRange utcHost 1736942400000 1737331200000))
     = (Day (LocalTime utcHost 1737331200000)
        - Day (LocalTime utcHost 1736942400000)) + 1
  /\ Day (LocalTime utcHost 1737331200000)
     - Day (LocalTime utcHost 1736942400000) = 5.
Proof.
  pose proof (getDateRange_days utcHost 1736942400000 1737331200000) as H.
  cbv zeta in H. destruct H as (Hm & Hl & _).
  split; [|split].
  - rewrite Hm. reflexivity.
  - apply Hl. vm_compute. discriminate.
  - reflexivity.
Defined.

(** ** Printing and reading offsets *)

Section ShortOffsetFacts.

Lemma parseDigits_uint_acc (d : Decimal.uint) :
  forall acc : positive,
    JS.parseDigits (NilEmpty.string_of_uint d) (Z.pos acc)
    = Some (Z.pos (Pos.of_uint_acc d acc)).
Proof.
  induction d; intros acc; cbn [NilEmpty.string_of_uint Pos.of_uint_acc];
    [reflexivity|..];
    cbn [JS.parseDigits];
    match goal with
    | |- context [JS.isDigit ?c] => change (JS.isDigit c) with true
    end; cbv iota;
    rewrite <- IHd; f_equal;
    match goal with
    | |- context [JS.digitValue ?c] =>
        let v := eval vm_compute in (JS.digitValue c) in
        change (JS.digitValue c) with v
    end; lia.
Qed.

Lemma parseDigits_uint (d : Decimal.uint) :
  JS.parseDigits (NilEmpty.string_of_uint d) 0 = Some (Z.of_N (Pos.of_uint d)).
Proof.
  induction d; cbn [NilEmpty.string_of_uint Pos.of_uint];
    [reflexivity|exact IHd|..];
    cbn [JS.parseDigits];
    match goal with
    | |- context [JS.isDigit ?c] => change (JS.isDigit c) with true
    end; cbv iota; cbn [Z.of_N];
    rewrite <- parseDigits_uint_acc; f_equal.
Qed.

(** A non-negative integer prints as its decimal digits. *)
Lemma showZ_digits (n : Z) :
  0 <= n ->
  exists d, JS.showZ n = NilEmpty.string_of_uint d
            /\ d <> Decimal.Nil /\ Z.of_N (Pos.of_uint d) = n.
Proof.
  intros Hn. destruct n as [|p|p]; [| |lia].
  - exists (Decimal.D0 Decimal.Nil). repeat split; discriminate.
  - exists (Pos.to_uint p). unfold JS.showZ. cbn [Z.to_int].
    pose proof (DecimalPos.Unsigned.to_uint_nonnil p) as Hnil.
    split; [|split; [assumption|]].
    + cbn [NilZero.string_of_int]. unfold NilZero.string_of_uint.
      destruct (Pos.to_uint p); [congruence|reflexivity..].
    + now rewrite DecimalPos.Unsigned.of_to.
Qed.

Lemma Number_showZ (n : Z) : 0 <= n -> JS.Number (JS.showZ n) = Some n.
Proof.
  intros Hn. destruct (showZ_digits n Hn) as (d & E & _ & V).
  unfold JS.Number. rewrite E, parseDigits_uint. now rewrite V.
Qed.

Lemma spanDigits_no_digit (s : string) :
  noDigitAhead s -> spanDigits s = (EmptyString, s).
Proof.
  destruct s as [|c s]; [reflexivity|]. simpl. intros H. now rewrite H.
Qed.

Lemma spanDigits_uint (d : Decimal.uint) (rest : string) :
  noDigitAhead rest ->
  spanDigits (NilEmpty.string_of_uint d ++ rest)
  = (NilEmpty.string_of_uint d, rest).
Proof.
  intros Hr.
  induction d; cbn [NilEmpty.string_of_uint append];
    [now apply spanDigits_no_digit|..];
    cbn [spanDigits];
    match goal with
    | |- context [JS.isDigit ?c] => change (JS.isDigit c) with true
    end; cbv iota; rewrite IHd; reflexivity.
Qed.

Lemma uint_string_nonempty (d : Decimal.uint) :
  d <> Decimal.Nil -> NilEmpty.string_of_uint d <> EmptyString.
Proof. destruct d; [congruence|discriminate..]. Qed.

(** The regular expression finds the sign and the hours at the head of a
    short offset name, and leaves the minutes. *)
Lemma matchGMT_signed (sign : ascii) (h : Z) (rest : string) :
  sign = "+"%char \/ sign = "-"%char -> 0 <= h -> noDigitAhead rest ->
  matchGMT ("GMT" ++ String sign (JS.showZ h ++ rest))
  = Some (String sign (JS.showZ h)).
Proof.
  intros Hs Hh Hr. destruct (showZ_digits h Hh) as (d & E & Hnil & _).
  rewrite E.
  change (matchGMT ("GMT" ++ String sign (NilEmpty.string_of_uint d ++ rest)))
    with (match matchGMTHere
                  ("GMT" ++ String sign (NilEmpty.string_of_uint d ++ rest))
          with
          | Some g => Some g
          | None => matchGMT ("MT" ++ String sign
                                (NilEmpty.string_of_uint d ++ rest))
          end).
  cbn [matchGMTHere append].
  replace (Ascii.eqb sign "+" || Ascii.eqb sign "-") with true
    by (destruct Hs; subst; reflexivity).
  rewrite (spanDigits_uint d rest Hr). cbn [fst].
  pose proof (uint_string_nonempty d Hnil) as Hne.
  destruct (NilEmpty.string_of_uint d); [congruence|reflexivity].
Qed.

Lemma parseInt_signed (sign : ascii) (h : Z) :
  0 <= h ->
  parseInt (String "+" (JS.showZ h)) = Some h
  /\ parseInt (String "-" (JS.showZ h)) = Some (- h).
Proof.
  intros Hh. unfold parseInt. cbn [Ascii.eqb Bool.eqb].
  rewrite (Number_showZ h Hh). split; reflexivity.
Qed.

(** The offset that [timezoneToUtc] reads back from a short offset name, in
    minutes: the whole hours of the offset, rounded towards zero. *)
Lemma offset_read_back (off : Z) :
  match matchGMT (shortOffsetName off) with
  | Some m1 => match parseInt m1 with
               | Some h => h * 60
               | None => 0
               end
  | None => 0
  end = Z.quot off 60 * 60.
Proof.
  unfold shortOffsetName.
  destruct (Z.eqb_spec off 0) as [->|Hnz]; [reflexivity|].
  cbv zeta.
  assert (Hh : 0 <= Z.abs off / 60) by lia.
  destruct (parseInt_signed "+" _ Hh) as [Pp Pm].
  assert (Hrest : noDigitAhead
                    (if Z.abs off mod 60 =? 0 then ""
                     else ":" ++ (if Z.abs off mod 60 <? 10 then "0" else "")
                              ++ JS.showZ (Z.abs off mod 60))).
  { destruct (Z.abs off mod 60 =? 0); [exact I|reflexivity]. }
  destruct (Z.ltb_spec 0 off) as [Hpos|Hneg].
  - change ("GMT" ++ "+" ++ JS.showZ (Z.abs off / 60) ++ ?r)%string
      with ("GMT" ++ String "+" (JS.showZ (Z.abs off / 60) ++ r))%string.
    rewrite matchGMT_signed by (auto; lia). rewrite Pp. lia.
  - change ("GMT" ++ "-" ++ JS.showZ (Z.abs off / 60) ++ ?r)%string
      with ("GMT" ++ String "-" (JS.showZ (Z.abs off / 60) ++ r))%string.
    rewrite matchGMT_signed by (auto; lia). rewrite Pm. lia.
Qed.

End ShortOffsetFacts.

(** ** Time-zone operations *)

Section TimezoneFacts.

Variable host : Host.

Lemma DateTimeFormat_UTC : exists f, DateTimeFormat host "UTC" = Ok f /\ forall t, f t = 0.
Proof. exists (fun _ => 0). split; reflexivity. Qed.

(** What [getOffsetMinutes] computes: the zone's offset, off by a whole
    day for each calendar day between the zone's date and the UTC date. *)
Lemma getOffsetMinutes_formula (date : Z) (timezone : string) (f : Z -> Z) :
  DateTimeFormat host timezone = Ok f ->
  getOffsetMinutes host date timezone
  = Ok (f date - 1440 * (Day (date + f date * msPerMinute) - Day date)).
Proof.
  intros Hf. unfold getOffsetMinutes.
  change (DateTimeFormat host "UTC") with (@Ok (Z -> Z) (fun _ => 0)).
  cbn [bind]. rewrite Hf. cbn [bind]. f_equal.
  unfold formatToParts. cbn [hour minute].
  generalize (f date). intros off.
  unfold HourFromTime, MinFromTime, Day, msPerHour, msPerMinute, msPerDay.
  lia.
Qed.

(** On the same calendar day in the zone and in UTC the result is the
    zone's offset. *)
Lemma getOffsetMinutes_same_day (date : Z) (timezone : string) (f : Z -> Z) :
  DateTimeFormat host timezone = Ok f ->
  Day (date + f date * msPerMinute) = Day date ->
  getOffsetMinutes host date timezone = Ok (f date).
Proof.
  intros Hf Hd. rewrite (getOffsetMinutes_formula _ _ _ Hf), Hd.
  f_equal. lia.
Qed.

Lemma getOffsetMinutes_UTC (date : Z) :
  getOffsetMinutes host date "UTC" = Ok 0.
Proof.
  rewrite (getOffsetMinutes_formula date "UTC" (fun _ => 0)) by reflexivity.
  f_equal. unfold msPerMinute. replace (date + 0 * 60000) with date by lia. lia.
Qed.

(** [utcToTimezone] gives the local date whose fields are the zone's
    wall-clock fields, to the second (years 0 to 99 apart). *)
Lemma utcToTimezone_value (utcDate : Z) (timezone : string) (f : Z -> Z) :
  DateTimeFormat host timezone = Ok f ->
  let t := utcDate + f utcDate * msPerMinute in
  YearFromTime t < 0 \/ 99 < YearFromTime t ->
  utcToTimezone host utcDate timezone
  = Ok (UTC host (t - t mod msPerSecond)).
Proof.
  intros Hf t Hy. unfold utcToTimezone. rewrite Hf. cbn [bind]. f_equal.
  unfold formatToParts. fold t. cbn [year month day hour minute second].
  unfold newDate.
  replace ((0 <=? YearFromTime t) && (YearFromTime t <=? 99)) with false by lia.
  replace (MonthFromTime t + 1 - 1) with (MonthFromTime t) by lia.
  rewrite MakeDay_of_fields. f_equal.
  unfold MakeDate, MakeTime, HourFromTime, MinFromTime, SecFromTime, Day,
    msPerDay, msPerHour, msPerMinute, msPerSecond.
  lia.
Qed.

(** Every operation on a zone asks [Intl] for the zone first. *)
Lemma zone_rejected (date : Z) (timezone : string) (e : exn) :
  DateTimeFormat host timezone = Throw e ->
  getOffsetMinutes host date timezone = Throw e
  /\ timezoneToUtc host date timezone = Throw e
  /\ utcToTimezone host date timezone = Throw e
  /\ getTimezoneInfo host date timezone = Throw e.
Proof.
  intros H.
  unfold getOffsetMinutes, timezoneToUtc, utcToTimezone, getTimezoneInfo.
  change (DateTimeFormat host "UTC") with (@Ok (Z -> Z) (fun _ => 0)).
  rewrite H. cbn [bind]. repeat split; reflexivity.
Qed.

Lemma zone_accepted (date : Z) (timezone : string) (f : Z -> Z) :
  DateTimeFormat host timezone = Ok f ->
  (exists m, getOffsetMinutes host date timezone = Ok m)
  /\ (exists u, timezoneToUtc host date timezone = Ok u)
  /\ (exists l, utcToTimezone host date timezone = Ok l)
  /\ (exists i, getTimezoneInfo host date timezone = Ok i).
Proof.
  intros H. split; [|split; [|split]].
  - rewrite (getOffsetMinutes_formula _ _ _ H). eauto.
  - unfold timezoneToUtc. rewrite H. cbn [bind]. eauto.
  - unfold utcToTimezone. rewrite H. cbn [bind]. eauto.
  - unfold getTimezoneInfo, localeStringDate, isDaylightSavings.
    change (DateTimeFormat host "UTC") with (@Ok (Z -> Z) (fun _ => 0)).
    rewrite H. cbn [bind].
    rewrite !(getOffsetMinutes_formula _ _ _ H). cbn [bind]. eauto.
Qed.

End TimezoneFacts.

Section OffsetNameFacts.

Lemma parseDigits_spanDigits (r : string) :
  forall acc, exists n, JS.parseDigits (fst (spanDigits r)) acc = Some n.
Proof.
  induction r as [|c r IH]; intros acc; simpl.
  - eauto.
  - destruct (JS.isDigit c) eqn:D.
    + destruct (spanDigits r) as [ds rest]. simpl in *. rewrite D. apply IH.
    + simpl. eauto.
Qed.

Lemma matchGMTHere_parseInt (s g : string) :
  matchGMTHere s = Some g -> exists n, parseInt g = Some n.
Proof.
  unfold matchGMTHere.
  destruct s as [|c1 [|c2 [|c3 [|sign r]]]];
    try discriminate;
    try (destruct c1 as [[] [] [] [] [] [] [] []]; discriminate);
    try (destruct c1 as [[] [] [] [] [] [] [] []]; try discriminate;
         destruct c2 as [[] [] [] [] [] [] [] []]; discriminate);
    try (destruct c1 as [[] [] [] [] [] [] [] []]; try discriminate;
         destruct c2 as [[] [] [] [] [] [] [] []]; try discriminate;
         destruct c3 as [[] [] [] [] [] [] [] []]; discriminate).
  destruct c1 as [[] [] [] [] [] [] [] []]; try discriminate.
  destruct c2 as [[] [] [] [] [] [] [] []]; try discriminate.
  destruct c3 as [[] [] [] [] [] [] [] []]; try discriminate.
  destruct (Ascii.eqb sign "+" || Ascii.eqb sign "-") eqn:S; [|discriminate].
  destruct (fst (spanDigits r)) as [|d ds] eqn:F; [discriminate|].
  intros E. injection E as <-.
  destruct (parseDigits_spanDigits r 0) as [n Hn]. rewrite F in Hn.
  unfold parseInt.
  destruct (Ascii.eqb sign "-") eqn:Sm.
  - unfold JS.Number. rewrite Hn. simpl. eauto.
  - rewrite orb_false_r in S. rewrite S. unfold JS.Number. eauto.
Qed.

(** The group that [/GMT([+-]\d+)/] captures is a signed number:
    [parseInt] of it is never [NaN]. *)
Lemma matchGMT_parseInt (s g : string) :
  matchGMT s = Some g -> exists n, parseInt g = Some n.
Proof.
  induction s as [|c s IH].
  - discriminate.
  - change (matchGMT (String c s))
      with (match matchGMTHere (String c s) with
            | Some g' => Some g'
            | None => matchGMT s
            end).
    destruct (matchGMTHere (String c s)) as [g'|] eqn:M.
    + intros E. injection E as <-. eapply matchGMTHere_parseInt; eauto.
    + exact IH.
Qed.

End OffsetNameFacts.

(** ** Round trip through a zone (C1) *)

(** What [timezoneToUtc] computes: the date minus the whole hours of the
    zone's offset at that date. *)
Lemma timezoneToUtc_value (host : Host) (localDate : Z) (timezone : string)
      (f : Z -> Z) :
  DateTimeFormat host timezone = Ok f ->
  timezoneToUtc host localDate timezone
  = Ok (localDate - Z.quot (f localDate) 60 * 60 * 60 * 1000).
Proof.
  intros Hf. unfold timezoneToUtc. rewrite Hf. cbn [bind]. cbv zeta.
  rewrite offset_read_back. reflexivity.
Qed.

(** The round trip in general. *)
Lemma roundTrip_value (host : Host) (t : Z) (timezone : string) (f : Z -> Z) :
  DateTimeFormat host timezone = Ok f ->
  let civil := t + f t * msPerMinute in
  let localDate := UTC host (civil - civil mod msPerSecond) in
  YearFromTime civil < 0 \/ 99 < YearFromTime civil ->
  roundTrip host t timezone
  = Ok (localDate - Z.quot (f localDate) 60 * 60 * 60 * 1000).
Proof.
  intros Hf civil localDate Hy. unfold roundTrip.
  rewrite (utcToTimezone_value host t timezone f Hf Hy). cbn [bind].
  apply (timezoneToUtc_value host _ timezone f Hf).
Qed.

(** Where the round trip does give the instant back: on a machine in the
    UTC zone, for an instant at a whole second, in a zone whose offset is a
    whole number of hours and is the same at the instant and at the civil
    time read as UTC. *)
Lemma roundTrip_exact (host : Host) (t : Z) (timezone : string) (f : Z -> Z) :
  DateTimeFormat host timezone = Ok f ->
  hostOffset host = 0 ->
  t mod msPerSecond = 0 ->
  f t mod 60 = 0 ->
  f (t + f t * msPerMinute) = f t ->
  YearFromTime (t + f t * msPerMinute) < 0
  \/ 99 < YearFromTime (t + f t * msPerMinute) ->
  roundTrip host t timezone = Ok t.
Proof.
  intros Hf Hh Hs Hm Hc Hy.
  rewrite (roundTrip_value host t timezone f Hf Hy).
  unfold UTC. rewrite Hh.
  replace (t + f t * msPerMinute - (t + f t * msPerMinute) mod msPerSecond
           - 0 * msPerMinute) with (t + f t * msPerMinute)
    by (unfold msPerMinute, msPerSecond in *; lia).
  rewrite Hc. f_equal. unfold msPerMinute. lia.
Qed.



(** C1 fails on the code.  "Asia/Kolkata" is in the catalog and keeps the
    offset +5:30 all year, so no instant is near a transition; yet on a
    machine in the UTC zone the round trip of 2025-01-15T12:00:00.000Z
    comes back as 12:30: [timezoneToUtc] reads "GMT+5:30" as five hours.
    A zone at whole hours ("Asia/Tokyo") comes back right on that machine,
    but not on a machine whose own zone is not UTC, and not for an instant
    with milliseconds. *)
Theorem roundTrip_half_hour_zone :
  In "Asia/Kolkata" getAllTimezones
  /\ (forall t, DateTimeFormat utcHost "Asia/Kolkata" = Ok (fun _ => 330)
                /\ shortOffsetName ((fun _ : Z => 330) t) = "GMT+5:30")
  /\ utcToTimezone utcHost 1736942400000 "Asia/Kolkata" = Ok 1736962200000
  /\ timezoneToUtc utcHost 1736962200000 "Asia/Kolkata" = Ok 1736944200000
  /\ roundTrip utcHost 1736942400000 "Asia/Kolkata" = Ok 1736944200000
  /\ roundTrip utcHost 1736942400000 "Asia/Kolkata" <> Ok 1736942400000
  /\ roundTrip utcHost 1736942400000 "Asia/Tokyo" = Ok 1736942400000
  /\ roundTrip istHost 1736942400000 "Asia/Tokyo" = Ok 1736922600000
  /\ roundTrip utcHost 1736942400123 "Asia/Tokyo" = Ok 1736942400000.
Proof.
  assert (R : roundTrip utcHost 1736942400000 "Asia/Kolkata"
              = Ok 1736944200000) by (vm_compute; reflexivity).
  split; [simpl; tauto|].
  split; [intros t; split; reflexivity|].
  split; [vm_compute; reflexivity|]. split; [vm_compute; reflexivity|].
  split; [exact R|]. split; [rewrite R; discriminate|].
  repeat split; vm_compute; reflexivity.
Qed.

(** The half hour is lost at every instant, not near a transition only:
    on a machine in the UTC zone the round trip through "Asia/Kolkata"
    gives the instant, cut to the second, plus thirty minutes. *)
Lemma roundTrip_half_hour_everywhere (t : Z) :
  99 < YearFromTime (t + 330 * msPerMinute) ->
  roundTrip utcHost t "Asia/Kolkata"
  = Ok (t - t mod msPerSecond + 30 * msPerMinute).
Proof.
  intros Hy. unfold roundTrip.
  rewrite (utcToTimezone_value utcHost t "Asia/Kolkata" (fun _ => 330))
    by (try reflexivity; right; exact Hy).
  cbn [bind]. unfold timezoneToUtc.
  change (DateTimeFormat utcHost "Asia/Kolkata")
    with (@Ok (Z -> Z) (fun _ => 330)).
  cbn [bind].
  set (offset := match matchGMT (shortOffsetName 330) with
                 | Some m1 => match parseInt m1 with
                              | Some h => h * 60
                              | None => 0
                              end
                 | None => 0
                 end).
  vm_compute in offset. subst offset.
  f_equal. unfold getTime, UTC, utcHost, hostOffset, msPerMinute, msPerSecond.
  lia.
Qed.

(** ** The offset of a zone (C2) *)

(** C2 fails on the code when the zone and UTC are on different calendar
    days: nothing adjusts for the day.  At 2025-01-15T00:00Z (what
    [new Date(2025, 0, 15)] is on a machine in the UTC zone) New York is at
    19:00 of the day before, five hours behind, and [getOffsetMinutes]
    returns 1140 instead of -300; at 23:00Z Tokyo is at 08:00 of the next
    day and the result is -900 instead of 540.  At 12:00Z, where both are
    on the same day, it returns -300 as the claim says. *)
Theorem getOffsetMinutes_day_rollover :
  (exists f, DateTimeFormat utcHost "America/New_York" = Ok f
             /\ f 1736899200000 = -300 /\ f 1736942400000 = -300)
  /\ getOffsetMinutes utcHost 1736899200000 "America/New_York" = Ok 1140
  /\ getOffsetMinutes utcHost 1736982000000 "Asia/Tokyo" = Ok (-900)
  /\ getOffsetMinutes utcHost 1736942400000 "America/New_York" = Ok (-300).
Proof.
  split.
  - eexists. split; [reflexivity|]. split; reflexivity.
  - repeat split; vm_compute; reflexivity.
Qed.

(** ** Zones outside the catalog (C3) *)

(** C3 as stated fails: "Africa/Nairobi" is not in the catalog, the engine
    knows it, and every operation returns a result for it. *)
Lemma unknown_zone_counterexample :
  ~ In "Africa/Nairobi" getAllTimezones
  /\ getOffsetMinutes utcHost 1736942400000 "Africa/Nairobi" = Ok 180
  /\ timezoneToUtc utcHost 1736942400000 "Africa/Nairobi" = Ok 1736931600000
  /\ utcToTimezone utcHost 1736942400000 "Africa/Nairobi" = Ok 1736953200000
  /\ getTimezoneInfo utcHost 1736942400000 "Africa/Nairobi"
     = Ok {| name := "Africa/Nairobi"; offset := -180;
             abbreviation := "East"; isDST := false |}.
Proof.
  split.
  - simpl. intros H.
    repeat (destruct H as [H|H]; [discriminate H|]). exact H.
  - repeat split; vm_compute; reflexivity.
Qed.

(** C3, as the code has it.  The catalog plays no part in the operations
    on a zone: each of them fails exactly when the engine's [Intl] rejects
    the identifier, with the engine's [RangeError], and returns a result
    for every identifier the engine accepts. *)
Theorem zone_operations_follow_engine (host : Host) (date : Z)
        (timezone : string) :
  (DateTimeFormat host timezone = Throw RangeError ->
   getOffsetMinutes host date timezone = Throw RangeError
   /\ timezoneToUtc host date timezone = Throw RangeError
   /\ utcToTimezone host date timezone = Throw RangeError
   /\ getTimezoneInfo host date timezone = Throw RangeError)
  /\
  (forall f, DateTimeFormat host timezone = Ok f ->
   (exists m, getOffsetMinutes host date timezone = Ok m)
   /\ (exists u, timezoneToUtc host date timezone = Ok u)
   /\ (exists l, utcToTimezone host date timezone = Ok l)
   /\ (exists i, getTimezoneInfo host date timezone = Ok i))
  /\
  (DateTimeFormat host timezone = Throw RangeError
   \/ exists f, DateTimeFormat host timezone = Ok f).
Proof.
  split; [apply zone_rejected|]. split; [apply zone_accepted|].
  unfold DateTimeFormat.
  destruct (String.eqb timezone "UTC"); [right; eauto|].
  destruct (zoneOffset host timezone); [right; eauto|left; reflexivity].
Qed.

Lemma zone_operations_follow_engine_witness :
  getOffsetMinutes utcHost 1736942400000 "Mars/Olympus" = Throw RangeError
  /\ getTimezoneInfo utcHost 1736942400000 "Mars/Olympus" = Throw RangeError
  /\ exists m, getOffsetMinutes utcHost 1736942400000 "Africa/Nairobi" = Ok m.
Proof.
  pose proof (zone_operations_follow_engine utcHost 1736942400000
                "Mars/Olympus") as [R _].
  pose proof (zone_operations_follow_engine utcHost 1736942400000
                "Africa/Nairobi") as [_ [A _]].
  destruct (R eq_refl) as (R1 & _ & _ & R4).
  destruct (A _ eq_refl) as (A1 & _).
  split; [exact R1|]. split; [exact R4|exact A1].
Defined.

(** ** The repository's tests, on the model *)

(** dateState.test.ts, on a machine in the UTC zone. *)

Example should_validate_dates_within_constraints :
  valid (isDateValid utcHost (ymd 2025 0 15)
           {| minDate := Some (ymd 2025 0 1); maxDate := Some (ymd 2025 11 31);
              blackoutDates := None; minDuration := None;
              maxDuration := None; disabledDays := None |}) = true.
Proof. vm_compute. reflexivity. Qed.

Example should_reject_dates_before_minDate :
  isDateValid utcHost (ymd 2024 11 31)
    {| minDate := Some (ymd 2025 0 1); maxDate := None;
       blackoutDates := None; minDuration := None;
       maxDuration := None; disabledDays := None |} = beforeMinimum.
Proof. vm_compute. reflexivity. Qed.

Example should_reject_disabled_days :
  isDateValid utcHost (ymd 2025 0 5)
    {| minDate := None; maxDate := None; blackoutDates := None;
       minDuration := None; maxDuration := None;
       disabledDays := Some [0] |}
  = {| valid := false; error := Some "This day is disabled" |}.
Proof. vm_compute. reflexivity. Qed.

Example should_validate_complete_ranges :
  isRangeValid utcHost
    (completeRange (ymd 2025 0 15) "09:00" (ymd 2025 0 16) "17:00") noConstraints
  = {| rvalid := true; errors := [] |}.
Proof. vm_compute. reflexivity. Qed.

Example should_enforce_minimum_duration :
  isRangeValid utcHost
    (completeRange (ymd 2025 0 15) "09:00" (ymd 2025 0 15) "10:00")
    {| minDate := None; maxDate := None; blackoutDates := None;
       minDuration := Some (2 * 60 * 60 * 1000); maxDuration := None;
       disabledDays := None |}
  = {| rvalid := false; errors := ["Duration must be at least 2 hours"] |}.
Proof. vm_compute. reflexivity. Qed.

Example should_enforce_maximum_duration :
  isRangeValid utcHost
    (completeRange (ymd 2025 0 15) "09:00" (ymd 2025 0 20) "17:00")
    {| minDate := None; maxDate := None; blackoutDates := None;
       minDuration := None; maxDuration := Some (3 * 24 * 60 * 60 * 1000);
       disabledDays := None |}
  = {| rvalid := false; errors := ["Duration must not exceed 3 days"] |}.
Proof. vm_compute. reflexivity. Qed.

Example should_generate_correct_date_range :
  List.length (getDateRange utcHost (ymd 2025 0 15) (ymd 2025 0 20)) = 6%nat.
Proof. vm_compute. reflexivity. Qed.

(** timezone.test.ts.  The expected offsets are met on a machine set to
    India Standard Time, where [new Date(2025, 0, 15)] is 18:30Z of the day
    before and New York is on the same calendar day as UTC. *)
Example should_convert_UTC_to_timezone :
  option_map (getHours utcHost)
    (match utcToTimezone utcHost 1736942400000 "America/New_York" with
     | Ok d => Some d | Throw _ => None end) = Some 7.
Proof. vm_compute. reflexivity. Qed.

Example should_calculate_correct_offset_for_EST :
  getOffsetMinutes istHost (newDate istHost 2025 0 15 0 0 0 0)
    "America/New_York" = Ok (-300).
Proof. vm_compute. reflexivity. Qed.

Example should_calculate_correct_offset_for_EDT :
  getOffsetMinutes istHost (newDate istHost 2025 6 15 0 0 0 0)
    "America/New_York" = Ok (-240).
Proof. vm_compute. reflexivity. Qed.

Example should_detect_DST_in_summer :
  isDaylightSavings istHost (newDate istHost 2025 6 15 0 0 0 0)
    "America/New_York" = Ok true.
Proof. vm_compute. reflexivity. Qed.

Example should_detect_non_DST_in_winter :
  isDaylightSavings istHost (newDate istHost 2025 0 15 0 0 0 0)
    "America/New_York" = Ok false.
Proof. vm_compute. reflexivity. Qed.

(** * Further properties of the code *)

(** ** Calendar dates and day numbers *)

Section CalendarRoundTrip.

Lemma DayFromYear_monotone (a b : Z) : a <= b -> DayFromYear a <= DayFromYear b.
Proof. unfold DayFromYear. lia. Qed.

Lemma YearFromDay_unique (y d : Z) :
  DayFromYear y <= d < DayFromYear (y + 1) -> YearFromDay d = y.
Proof.
  intros H. pose proof (YearFromDay_spec d) as S.
  destruct (Z.lt_trichotomy (YearFromDay d) y) as [L|[E|G]]; [|exact E|].
  - pose proof (DayFromYear_monotone (YearFromDay d + 1) y ltac:(lia)). lia.
  - pose proof (DayFromYear_monotone (y + 1) (YearFromDay d) ltac:(lia)). lia.
Qed.

Lemma monthStart_next (y m : Z) :
  0 <= m <= 10 ->
  monthStart (m + 1) (if isLeapYear y then 1 else 0)
  = monthStart m (if isLeapYear y then 1 else 0) + monthLength y m.
Proof.
  intros H.
  assert (C : m = 0 \/ m = 1 \/ m = 2 \/ m = 3 \/ m = 4 \/ m = 5 \/ m = 6
              \/ m = 7 \/ m = 8 \/ m = 9 \/ m = 10) by lia.
  destruct C as [->|[->|[->|[->|[->|[->|[->|[->|[->|[->| ->]]]]]]]]]];
    cbn [monthStart monthLength Z.add Pos.add Pos.succ];
    destruct (isLeapYear y); reflexivity.
Qed.

Lemma monthLength_range (y m : Z) : 28 <= monthLength y m <= 31.
Proof.
  unfold monthLength.
  destruct m as [|p|p]; try lia.
  repeat (destruct p as [p|p|]; try lia); destruct (isLeapYear y); lia.
Qed.

Lemma monthStart_December (y : Z) :
  monthStart 11 (if isLeapYear y then 1 else 0) + monthLength y 11
  = DaysInYear y.
Proof. unfold DaysInYear. cbn. destruct (isLeapYear y); reflexivity. Qed.

(** The fields of a date made from a year, a month from 0 to 11 and a day
    of that month are that year, month and day. *)
Lemma fields_of_MakeDay (y m d tm : Z) :
  0 <= m <= 11 -> 1 <= d <= monthLength y m -> 0 <= tm < msPerDay ->
  let t := MakeDate (MakeDay y m d) tm in
  YearFromTime t = y /\ MonthFromTime t = m /\ DateFromTime t = d.
Proof.
  intros Hm Hd Htm t.
  assert (HD : Day t = MakeDay y m d) by (apply Day_MakeDate; exact Htm).
  assert (HM : MakeDay y m d
               = DayFromYear y + monthStart m (if isLeapYear y then 1 else 0)
                 + d - 1).
  { unfold MakeDay. rewrite (Z.div_small m 12), (Z.mod_small m 12) by lia.
    now rewrite Z.add_0_r. }
  set (leap := if isLeapYear y then 1 else 0) in *.
  assert (Hs : 0 <= monthStart m leap
               /\ monthStart m leap + monthLength y m <= DaysInYear y).
  { assert (C : m = 0 \/ m = 1 \/ m = 2 \/ m = 3 \/ m = 4 \/ m = 5 \/ m = 6
                \/ m = 7 \/ m = 8 \/ m = 9 \/ m = 10 \/ m = 11) by lia.
    subst leap. unfold DaysInYear.
    destruct C as [->|[->|[->|[->|[->|[->|[->|[->|[->|[->|[->| ->]]]]]]]]]]];
      cbn [monthStart monthLength]; destruct (isLeapYear y); lia. }
  assert (HY : YearFromTime t = y).
  { unfold YearFromTime. apply YearFromDay_unique.
    rewrite HD, HM, DayFromYear_succ. lia. }
  assert (HW : DayWithinYear t = monthStart m leap + d - 1).
  { unfold DayWithinYear. rewrite HY, HD, HM. lia. }
  assert (HL : InLeapYear t = leap).
  { unfold InLeapYear. now rewrite HY. }
  assert (HMo : MonthFromTime t = m).
  { unfold MonthFromTime. rewrite HW, HL.
    assert (C : m = 0 \/ m = 1 \/ m = 2 \/ m = 3 \/ m = 4 \/ m = 5 \/ m = 6
                \/ m = 7 \/ m = 8 \/ m = 9 \/ m = 10 \/ m = 11) by lia.
    assert (Lp : leap = 0 \/ leap = 1)
      by (subst leap; destruct (isLeapYear y); auto).
    revert Hd. unfold monthLength.
    destruct C as [->|[->|[->|[->|[->|[->|[->|[->|[->|[->|[->| ->]]]]]]]]]]];
      cbn [monthStart]; intros Hd;
      destruct (isLeapYear y); destruct Lp as [Lp|Lp];
        try (subst leap; discriminate Lp); rewrite Lp;
        repeat match goal with
               | |- context [if ?b then _ else _] =>
                   let E := fresh in destruct b eqn:E; try lia
               end. }
  split; [exact HY|]. split; [exact HMo|].
  unfold DateFromTime. rewrite HW, HL, HMo. lia.
Qed.

End CalendarRoundTrip.

(** ** More on single dates *)

Lemma existsb_eqb_In (x : Z) (l : list Z) :
  existsb (fun y => y =? x) l = true <-> In x l.
Proof.
  rewrite existsb_exists. split.
  - intros (y & Hin & E). apply Z.eqb_eq in E. now subst.
  - intros Hin. exists x. split; [assumption|apply Z.eqb_refl].
Qed.

Lemma WeekDay_range (t : Z) : 0 <= WeekDay t <= 6.
Proof. unfold WeekDay. lia. Qed.

(** X1. A date is valid exactly when it passes the four checks: not before
    [minDate] and not after [maxDate] as instants, on the local day of no
    blackout date, and on a weekday that is not disabled.  An error message
    comes with every invalid result and with no valid one. *)
Theorem isDateValid_valid_iff (host : Host) (date : Z)
        (constraints : PickerConstraints) :
  (valid (isDateValid host date constraints) = true
   <-> (forall m, minDate constraints = Some m -> m <= date)
       /\ (forall M, maxDate constraints = Some M -> date <= M)
       /\ (forall bds bd, blackoutDates constraints = Some bds -> In bd bds ->
             Day (LocalTime host bd) <> Day (LocalTime host date))
       /\ (forall ds, disabledDays constraints = Some ds ->
             ~ In (getDay host date) ds))
  /\ (valid (isDateValid host date constraints) = true
      <-> error (isDateValid host date constraints) = None).
Proof.
  set (b1 := match minDate constraints with
             | Some m => date <? m | None => false end).
  set (b2 := match maxDate constraints with
             | Some m => m <? date | None => false end).
  set (b3 := match blackoutDates constraints with
             | Some bds => existsb (fun bd => isSameDay host bd date) bds
             | None => false end).
  set (b4 := match disabledDays constraints with
             | Some ds => existsb (fun x => x =? getDay host date) ds
             | None => false end).
  assert (Hv : valid (isDateValid host date constraints)
               = negb (b1 || b2 || b3 || b4)).
  { unfold isDateValid. fold b1 b2 b3 b4.
    destruct b1, b2, b3, b4; reflexivity. }
  assert (He : error (isDateValid host date constraints) = None
               <-> b1 || b2 || b3 || b4 = false).
  { unfold isDateValid. fold b1 b2 b3 b4.
    destruct b1, b2, b3, b4; cbn; split; congruence. }
  assert (B1 : b1 = false <-> forall m, minDate constraints = Some m -> m <= date).
  { subst b1. destruct (minDate constraints) as [m|].
    - split; [intros H m' E; injection E as <-; lia
             |intros H; specialize (H m eq_refl); lia].
    - split; [discriminate|reflexivity]. }
  assert (B2 : b2 = false <-> forall M, maxDate constraints = Some M -> date <= M).
  { subst b2. destruct (maxDate constraints) as [m|].
    - split; [intros H m' E; injection E as <-; lia
             |intros H; specialize (H m eq_refl); lia].
    - split; [discriminate|reflexivity]. }
  assert (B3 : b3 = false
               <-> forall bds bd, blackoutDates constraints = Some bds ->
                     In bd bds ->
                     Day (LocalTime host bd) <> Day (LocalTime host date)).
  { subst b3. destruct (blackoutDates constraints) as [bds|].
    - split.
      + intros H bds' bd E Hin Hs. injection E as <-.
        apply isSameDay_iff in Hs.
        assert (X : existsb (fun bd => isSameDay host bd date) bds = true)
          by (apply existsb_exists; eauto).
        congruence.
      + intros H.
        destruct (existsb (fun bd => isSameDay host bd date) bds) eqn:B;
          [|reflexivity].
        apply existsb_exists in B. destruct B as (bd & Hin & Hs).
        apply isSameDay_iff in Hs. destruct (H bds bd eq_refl Hin Hs).
    - split; [discriminate|reflexivity]. }
  assert (B4 : b4 = false
               <-> forall ds, disabledDays constraints = Some ds ->
                     ~ In (getDay host date) ds).
  { subst b4. destruct (disabledDays constraints) as [ds|].
    - split.
      + intros H ds' E Hin. injection E as <-.
        apply existsb_eqb_In in Hin. congruence.
      + intros H.
        destruct (existsb (fun x => x =? getDay host date) ds) eqn:B;
          [|reflexivity].
        apply existsb_eqb_In in B. destruct (H ds eq_refl B).
    - split; [discriminate|reflexivity]. }
  rewrite Hv, He, <- B1, <- B2, <- B3, <- B4.
  destruct b1, b2, b3, b4; cbn; intuition congruence.
Qed.

(** X2. When the bounds and the blackout dates let a date through, it is
    refused as "This day is disabled" exactly when its local weekday is
    listed in [disabledDays]; the weekday is from 0 (Sunday) to 6, so an
    entry outside 0..6 disables nothing. *)
Theorem isDateValid_disabled_day (host : Host) (date : Z)
        (constraints : PickerConstraints) (ds : list Z) :
  disabledDays constraints = Some ds ->
  (forall m, minDate constraints = Some m -> m <= date) ->
  (forall M, maxDate constraints = Some M -> date <= M) ->
  (forall bds bd, blackoutDates constraints = Some bds -> In bd bds ->
     Day (LocalTime host bd) <> Day (LocalTime host date)) ->
  0 <= getDay host date <= 6
  /\ (isDateValid host date constraints
      = {| valid := false; error := Some "This day is disabled" |}
      <-> In (getDay host date) ds)
  /\ (isDateValid host date constraints = {| valid := true; error := None |}
      <-> ~ In (getDay host date) ds).
Proof.
  intros Hd Hmin Hmax Hb.
  split; [apply WeekDay_range|].
  unfold isDateValid. rewrite Hd.
  assert (E1 : match minDate constraints with
               | Some m => date <? m | None => false end = false).
  { destruct (minDate constraints) as [m|]; [|reflexivity].
    specialize (Hmin m eq_refl). lia. }
  assert (E2 : match maxDate constraints with
               | Some m => m <? date | None => false end = false).
  { destruct (maxDate constraints) as [m|]; [|reflexivity].
    specialize (Hmax m eq_refl). lia. }
  assert (E3 : match blackoutDates constraints with
               | Some bds => existsb (fun bd => isSameDay host bd date) bds
               | None => false end = false).
  { destruct (blackoutDates constraints) as [bds|]; [|reflexivity].
    destruct (existsb (fun bd => isSameDay host bd date) bds) eqn:B;
      [|reflexivity].
    apply existsb_exists in B. destruct B as (bd & Hin & Hs).
    apply isSameDay_iff in Hs. destruct (Hb bds bd eq_refl Hin Hs). }
  rewrite E1, E2, E3.
  destruct (existsb (fun x => x =? getDay host date) ds) eqn:W.
  - apply existsb_eqb_In in W. split; split; try tauto; try discriminate.
  - assert (N : ~ In (getDay host date) ds).
    { intros Hin. apply existsb_eqb_In in Hin. congruence. }
    split; split; try tauto; try discriminate.
Qed.

(** 2025-01-05 is a Sunday: with Sundays disabled it is refused; the
    entry 7 disables nothing. *)
Lemma isDateValid_disabled_day_witness :
  isDateValid utcHost (ymd 2025 0 5)
    {| minDate := None; maxDate := None; blackoutDates := None;
       minDuration := None; maxDuration := None;
       disabledDays := Some [7; 0] |}
  = {| valid := false; error := Some "This day is disabled" |}.
Proof.
  refine (proj2 (proj1 (proj2 (isDateValid_disabled_day utcHost (ymd 2025 0 5)
            {| minDate := None; maxDate := None; blackoutDates := None;
               minDuration := None; maxDuration := None;
               disabledDays := Some [7; 0] |}
            [7; 0] eq_refl _ _ _))) _).
  - discriminate.
  - discriminate.
  - discriminate.
  - right. left. reflexivity.
Defined.

(** ** More on ranges *)

(** [isRangeValid] answers [valid] exactly when it reports no error, for
    every range, complete or not. *)
Lemma isRangeValid_rvalid_errors (host : Host)
        (range : DateTimeRange) (constraints : PickerConstraints) :
  rvalid (isRangeValid host range constraints) = true
  <-> errors (isRangeValid host range constraints) = [].
Proof.
  unfold isRangeValid.
  match goal with
  | |- context [if (0 <? Z.of_nat (List.length ?e)) then _ else _] =>
      destruct (Z.ltb_spec 0 (Z.of_nat (List.length e))) as [L|L];
      [destruct e eqn:E; [simpl in L; lia|]|]
  end.
  - cbn [rvalid errors]. split; discriminate.
  - cbn [rvalid errors]. cbv zeta.
    match goal with
    | |- (Z.of_nat (List.length ?l) =? 0) = true <-> _ =>
        destruct l; cbn [List.length]; split;
          try reflexivity; try discriminate; lia
    end.
Qed.


(** X3. The messages of a complete range come in a fixed order: the start
    date's, the end date's, the ordering message, the minimum-duration
    message, the maximum-duration message; a later check runs whatever the
    earlier ones found. *)
Theorem isRangeValid_error_order (host : Host) (sd ed a b : Z)
        (st et : string) (constraints : PickerConstraints) :
  combineDateTime host sd st = Some a ->
  combineDateTime host ed et = Some b ->
  errors (isRangeValid host (completeRange sd st ed et) constraints)
  = (dateErrors host "Start: " sd constraints
     ++ dateErrors host "End: " ed constraints
     ++ orderErrors a b
     ++ minDurationErrors (b - a) constraints
     ++ maxDurationErrors (b - a) constraints)%list.
Proof.
  intros Ha Hb. now rewrite (isRangeValid_complete host _ _ _ _ _ _ _ Ha Hb).
Qed.

(** An end before the start, on a blackout day, with a minimum duration:
    three messages, in order. *)
Lemma isRangeValid_error_order_witness :
  errors (isRangeValid utcHost
            (completeRange (ymd 2025 0 16) "17:00" (ymd 2025 0 15) "09:00")
            {| minDate := None; maxDate := None;
               blackoutDates := Some [ymd 2025 0 15];
               minDuration := Some 3600000; maxDuration := None;
               disabledDays := None |})
  = ["End: This date is not available"; "Start must be before end";
     "Duration must be at least 1 hour"].
Proof.
  rewrite (isRangeValid_error_order utcHost (ymd 2025 0 16) (ymd 2025 0 15)
             1737046800000 1736931600000 "17:00" "09:00");
    [vm_compute; reflexivity | reflexivity | reflexivity].
Defined.

(** X4. Take a complete range that is valid when [maxDuration] is left out,
    with civil duration [b - a] milliseconds.  With [maxDuration = m] and
    [m] not zero: a duration of exactly [m] is valid; a duration of [m + 1]
    is invalid and its one message is "Duration must not exceed ..." with
    [m] formatted.  A [maxDuration] of zero is no constraint. *)
Theorem isRangeValid_maxDuration_boundary (host : Host) (sd ed a b m : Z)
        (st et : string) (constraints : PickerConstraints) :
  combineDateTime host sd st = Some a ->
  combineDateTime host ed et = Some b ->
  maxDuration constraints = Some m ->
  rvalid (isRangeValid host (completeRange sd st ed et)
            (withoutMaxDuration constraints)) = true ->
  (b - a = m \/ m = 0 ->
   isRangeValid host (completeRange sd st ed et) constraints
   = {| rvalid := true; errors := [] |})
  /\
  (b - a = m + 1 -> m <> 0 ->
   isRangeValid host (completeRange sd st ed et) constraints
   = {| rvalid := false;
        errors := [("Duration must not exceed " ++ formatDuration m)%string] |}).
Proof.
  intros Ha Hb Hm Hv.
  rewrite (isRangeValid_complete host _ _ _ _ _ _ _ Ha Hb) in Hv.
  cbn [rvalid] in Hv. apply length_zero_nil in Hv.
  apply app_nil_inv in Hv. destruct Hv as [E1 Hv].
  apply app_nil_inv in Hv. destruct Hv as [E2 Hv].
  apply app_nil_inv in Hv. destruct Hv as [E3 Hv].
  apply app_nil_inv in Hv. destruct Hv as [E4 _].
  change (dateErrors host "Start: " sd (withoutMaxDuration constraints))
    with (dateErrors host "Start: " sd constraints) in E1.
  change (dateErrors host "End: " ed (withoutMaxDuration constraints))
    with (dateErrors host "End: " ed constraints) in E2.
  change (minDurationErrors (b - a) (withoutMaxDuration constraints))
    with (minDurationErrors (b - a) constraints) in E4.
  rewrite (isRangeValid_complete host _ _ _ _ _ _ _ Ha Hb).
  cbv zeta. rewrite E1, E2, E3, E4. cbn [app].
  unfold maxDurationErrors. rewrite Hm.
  split.
  - intros [Hd| ->].
    + replace (m <? b - a) with false by lia.
      rewrite andb_false_r. reflexivity.
    + reflexivity.
  - intros Hd Hnz.
    replace (m <? b - a) with true by lia.
    replace (m =? 0) with false by lia. reflexivity.
Qed.

Lemma isRangeValid_maxDuration_boundary_witness :
  isRangeValid utcHost
    (completeRange (ymd 2025 0 15) "09:00" (ymd 2025 0 18) "09:00")
    {| minDate := None; maxDate := None; blackoutDates := None;
       minDuration := None; maxDuration := Some (3 * 24 * 60 * 60 * 1000);
       disabledDays := None |}
  = {| rvalid := true; errors := [] |}.
Proof.
  refine (proj1 (isRangeValid_maxDuration_boundary utcHost
            (ymd 2025 0 15) (ymd 2025 0 18) 1736931600000 1737190800000
            259200000 "09:00" "09:00" _ _ _ _ _) _);
    try reflexivity.
  left. reflexivity.
Defined.

(** ** Month information *)

Section MonthFacts.

Variable host : Host.

Lemma MakeDay_date_shift (y m d k : Z) :
  MakeDay y m (d + k) = MakeDay y m d + k.
Proof. unfold MakeDay. lia. Qed.

(** Day 0 of the next month is the last day of a month. *)
Lemma MakeDay_day_zero (y m : Z) :
  0 <= m <= 11 -> MakeDay y (m + 1) 0 = MakeDay y m (monthLength y m).
Proof.
  intros Hm. destruct (Z.eq_dec m 11) as [->|Hne].
  - unfold MakeDay. change ((11 + 1) / 12) with 1.
    change ((11 + 1) mod 12) with 0. change (11 / 12) with 0.
    change (11 mod 12) with 11. rewrite !Z.add_0_r, DayFromYear_succ.
    unfold monthStart, monthLength, DaysInYear.
    destruct (isLeapYear y), (isLeapYear (y + 1)); lia.
  - unfold MakeDay.
    rewrite (Z.div_small m 12), (Z.mod_small m 12),
      (Z.div_small (m + 1) 12), (Z.mod_small (m + 1) 12) by lia.
    rewrite !Z.add_0_r. rewrite monthStart_next by lia. lia.
Qed.

(** The fields of [new Date(year, month, day, ...)] for a month from 0 to
    11, a day of that month and a year that is not from 0 to 99. *)
Lemma newDate_fields (y m d h mi s ms : Z) :
  0 <= m <= 11 -> 1 <= d <= monthLength y m -> y < 0 \/ 99 < y ->
  0 <= MakeTime h mi s ms < msPerDay ->
  let t := newDate host y m d h mi s ms in
  getFullYear host t = y /\ getMonth host t = m /\ getDate host t = d.
Proof.
  intros Hm Hd Hy Ht t. subst t.
  unfold getFullYear, getMonth, getDate, newDate.
  replace ((0 <=? y) && (y <=? 99)) with false by lia.
  rewrite LocalTime_UTC.
  apply (fields_of_MakeDay y m d _ Hm Hd Ht).
Qed.

End MonthFacts.

Lemma getMonthInfo_daysInMonth (host : Host) (year month : Z) :
  0 <= month <= 11 -> year < 0 \/ 99 < year ->
  MonthInfo.daysInMonth (getMonthInfo host year month) = monthLength year month.
Proof.
  intros Hm Hy. unfold getMonthInfo. cbn [MonthInfo.daysInMonth].
  pose proof (monthLength_range year month) as Hl.
  unfold getDate, newDate.
  replace ((0 <=? year) && (year <=? 99)) with false by lia.
  rewrite LocalTime_UTC, MakeDay_day_zero by exact Hm.
  apply (fields_of_MakeDay year month (monthLength year month)
           (MakeTime 0 0 0 0)); [exact Hm|lia|].
  rewrite MakeTime_start_of_day. unfold msPerDay. lia.
Qed.

(** X5. For a month from 0 to 11 of a year that is not from 0 to 99,
    [getMonthInfo] gives the length of the month by the Gregorian rule
    (29 days for February in a leap year, 31 for December), the English
    name of the month, and as starting day the weekday, from 0 to 6, of
    the first of the month. *)
Theorem getMonthInfo_month (host : Host) (year month : Z) :
  0 <= month <= 11 -> year < 0 \/ 99 < year ->
  let info := getMonthInfo host year month in
  MonthInfo.daysInMonth info = monthLength year month
  /\ MonthInfo.monthName info = monthLongName month
  /\ MonthInfo.startingDayOfWeek info = (MakeDay year month 1 + 4) mod 7
  /\ 0 <= MonthInfo.startingDayOfWeek info <= 6
  /\ MonthInfo.year info = year /\ MonthInfo.month info = month.
Proof.
  intros Hm Hy info. subst info.
  split; [exact (getMonthInfo_daysInMonth host year month Hm Hy)|].
  unfold getMonthInfo.
  cbn [MonthInfo.daysInMonth MonthInfo.monthName MonthInfo.startingDayOfWeek
       MonthInfo.year MonthInfo.month].
  pose proof (monthLength_range year month) as Hl.
  split.
  { f_equal.
    apply (newDate_fields host year month 1 0 0 0 0); try lia.
    rewrite MakeTime_start_of_day. unfold msPerDay. lia. }
  assert (W : getDay host (newDate host year month 1 0 0 0 0)
              = (MakeDay year month 1 + 4) mod 7).
  { unfold getDay, newDate, WeekDay.
    replace ((0 <=? year) && (year <=? 99)) with false by lia.
    rewrite LocalTime_UTC, Day_MakeDate; [reflexivity|].
    rewrite MakeTime_start_of_day. unfold msPerDay. lia. }
  split; [exact W|]. split; [rewrite W; lia|]. split; reflexivity.
Qed.

(** February 2024 has 29 days and starts on a Thursday. *)
Lemma getMonthInfo_month_witness :
  MonthInfo.daysInMonth (getMonthInfo utcHost 2024 1) = 29
  /\ MonthInfo.monthName (getMonthInfo utcHost 2024 1) = "February"
  /\ MonthInfo.startingDayOfWeek (getMonthInfo utcHost 2024 1) = 4.
Proof.
  pose proof (getMonthInfo_month utcHost 2024 1 ltac:(lia) ltac:(lia)) as H.
  cbv zeta in H. destruct H as (H1 & H2 & H3 & _).
  rewrite H1, H2, H3. repeat split.
Defined.

(** ** Days between two dates *)

Lemma daysBetween_value (host : Host) (a b : Z) :
  daysBetween host a b
  = Z.abs (Day (LocalTime host b) - Day (LocalTime host a)).
Proof.
  unfold daysBetween, setHours, getTime, JS.ceilDiv.
  rewrite MakeTime_start_of_day.
  unfold UTC, MakeDate, msPerDay. lia.
Qed.

Lemma getDateRange_value (host : Host) (startDate endDate : Z) :
  getDateRange host startDate endDate
  = map (fun k => UTC host (MakeDate (Day (LocalTime host startDate)
                                      + Z.of_nat k) 0))
        (seq 0 (Z.to_nat (Day (LocalTime host endDate)
                          - Day (LocalTime host startDate) + 1))).
Proof.
  set (first := Day (LocalTime host startDate)).
  set (last := Day (LocalTime host endDate)).
  assert (Hc : setHours host startDate 0 0 0 0 = UTC host (MakeDate first 0))
    by reflexivity.
  assert (He : setHours host endDate 0 0 0 0 = UTC host (MakeDate last 0))
    by reflexivity.
  unfold getDateRange. cbv zeta. rewrite Hc, He.
  destruct (Z_lt_le_dec last first) as [Hlt|Hle].
  - rewrite getDateRange_loop_done
      by (unfold UTC, MakeDate, msPerDay; lia).
    replace (Z.to_nat (last - first + 1)) with 0%nat by lia. reflexivity.
  - rewrite (getDateRange_loop_days host (Z.to_nat (last - first + 1)))
      by (unfold UTC, MakeDate, msPerDay; lia).
    cbn [app]. apply map_ext. intros k.
    unfold UTC, MakeDate, msPerDay. lia.
Qed.

(** X6. [daysBetween] does not depend on the order of its two dates nor on
    their times of day, only on their local calendar days, and it is zero
    exactly for two dates on the same day.  It counts the time from local
    midnight to local midnight in days of 24 hours: when the two
    midnights are [k] times 24 hours apart, as they are when the
    machine's zone keeps one offset between them, it is the absolute
    value of [k]. *)
Theorem daysBetween_day_distance (host : Host) (startDate endDate : Z) :
  daysBetween host startDate endDate = daysBetween host endDate startDate
  /\ (daysBetween host startDate endDate = 0
      <-> isSameDay host startDate endDate = true)
  /\ (forall s' e',
        isSameDay host startDate s' = true ->
        isSameDay host endDate e' = true ->
        daysBetween host s' e' = daysBetween host startDate endDate)
  /\ (forall k,
        setHours host endDate 0 0 0 0 - setHours host startDate 0 0 0 0
        = k * msPerDay ->
        daysBetween host startDate endDate = Z.abs k).
Proof.
  split; [|split; [|split]].
  - rewrite !daysBetween_value. lia.
  - rewrite daysBetween_value, isSameDay_iff. lia.
  - intros s' e' Hs He. apply isSameDay_iff in Hs, He.
    rewrite !daysBetween_value. lia.
  - intros k H. unfold daysBetween. cbv zeta. unfold getTime. rewrite H.
    unfold JS.ceilDiv, msPerDay. lia.
Qed.

(** ** The calendar grid *)

Section GridFacts.

Variable host : Host.

Lemma fold_left_push {A B} (g : B -> A) (l : list B) :
  forall acc : list A,
    fold_left (fun a i => JS.push a (g i)) l acc = (acc ++ map g l)%list.
Proof.
  induction l as [|x l IH]; intros acc; simpl.
  - now rewrite app_nil_r.
  - rewrite IH. unfold JS.push. now rewrite <- app_assoc.
Qed.

Lemma map_const {A B} (x : A) (l : list B) :
  map (fun _ => x) l = repeat x (List.length l).
Proof. induction l as [|y l IH]; simpl; [reflexivity|now rewrite IH]. Qed.

Lemma forRange_push {A} (from upto : Z) (g : Z -> A) (acc : list A) :
  CalendarGrid.forRange from upto (fun i a => JS.push a (g i)) acc
  = (acc ++ map (fun k => g (from + Z.of_nat k))
                (seq 0 (Z.to_nat (upto - from))))%list.
Proof.
  unfold CalendarGrid.forRange. rewrite fold_left_push, map_map. reflexivity.
Qed.

Lemma padWeek_done (l : list (option Z)) :
  Z.of_nat (List.length l) mod 7 = 0 -> CalendarGrid.padWeek l = l.
Proof.
  intros H. rewrite CalendarGrid.padWeek_equation_1.
  destruct (Z.eq_dec (Z.of_nat (List.length l) mod 7) 0); [reflexivity|].
  contradiction.
Qed.

Lemma padWeek_step (l : list (option Z)) :
  Z.of_nat (List.length l) mod 7 <> 0 ->
  CalendarGrid.padWeek l = CalendarGrid.padWeek (l ++ [None]).
Proof.
  intros H. rewrite CalendarGrid.padWeek_equation_1.
  destruct (Z.eq_dec (Z.of_nat (List.length l) mod 7) 0); [contradiction|].
  reflexivity.
Qed.

(** The loop adds the cells that are missing to fill the last week, and
    no more. *)
Lemma padWeek_cells (k : nat) :
  forall l : list (option Z),
    CalendarGrid.cellsToPad (List.length l) = k ->
    CalendarGrid.padWeek l = (l ++ repeat None k)%list.
Proof.
  induction k as [|k IH]; intros l H.
  - rewrite padWeek_done; [now rewrite app_nil_r|].
    unfold CalendarGrid.cellsToPad in H. lia.
  - rewrite padWeek_step by (unfold CalendarGrid.cellsToPad in H; lia).
    rewrite IH.
    + rewrite <- app_assoc. reflexivity.
    + unfold CalendarGrid.cellsToPad in *. rewrite length_app.
      cbn [List.length]. rewrite Nat2Z.inj_add. change (Z.of_nat 1) with 1.
      lia.
Qed.

Lemma getDay_newDate_midnight (y m d : Z) :
  getDay host (newDate host y m d 0 0 0 0)
  = (getDay host (newDate host y m 1 0 0 0 0) + (d - 1)) mod 7.
Proof.
  unfold getDay, newDate, WeekDay.
  rewrite !LocalTime_UTC, MakeTime_start_of_day.
  rewrite !Day_MakeDate by (unfold msPerDay; lia).
  replace d with (1 + (d - 1)) at 1 by lia.
  rewrite MakeDay_date_shift. lia.
Qed.

End GridFacts.

Lemma CalendarGrid_dates_eq (host : Host) (props : CalendarGrid.Props) :
  let info := getMonthInfo host (CalendarGrid.year props)
                           (CalendarGrid.month props) in
  let lead := Z.to_nat (MonthInfo.startingDayOfWeek info) in
  let days := Z.to_nat (MonthInfo.daysInMonth info) in
  CalendarGrid.dates host props
  = (repeat None lead
     ++ map (fun k => Some (newDate host (CalendarGrid.year props)
                                    (CalendarGrid.month props)
                                    (1 + Z.of_nat k) 0 0 0 0))
            (seq 0 days)
     ++ repeat None (CalendarGrid.cellsToPad (lead + days)))%list.
Proof.
  intros info lead days.
  unfold CalendarGrid.dates. cbv zeta. fold info.
    rewrite !forRange_push. cbn [app].
    rewrite (padWeek_cells (CalendarGrid.cellsToPad (lead + days))).
    - rewrite <- app_assoc. f_equal.
      + rewrite Z.sub_0_r. fold lead.
        now rewrite map_const, length_seq.
      + replace (MonthInfo.daysInMonth info + 1 - 1)
          with (MonthInfo.daysInMonth info) by lia.
        reflexivity.
    - f_equal. rewrite length_app, !length_map, !length_seq.
      rewrite Z.sub_0_r.
      replace (MonthInfo.daysInMonth info + 1 - 1)
        with (MonthInfo.daysInMonth info) by lia.
      reflexivity.
Qed.

(** X7. The grid of a month: the empty cells before the first day, one cell
    per day of the month in order, and the empty cells that fill the last
    week.  Its length is a multiple of 7, and every date stands in the
    column of its weekday (column 0 is Sunday). *)
Theorem CalendarGrid_dates_layout (host : Host)
        (props : CalendarGrid.Props) :
  let info := getMonthInfo host (CalendarGrid.year props)
                           (CalendarGrid.month props) in
  let lead := Z.to_nat (MonthInfo.startingDayOfWeek info) in
  let days := Z.to_nat (MonthInfo.daysInMonth info) in
  CalendarGrid.dates host props
  = (repeat None lead
     ++ map (fun k => Some (newDate host (CalendarGrid.year props)
                                    (CalendarGrid.month props)
                                    (1 + Z.of_nat k) 0 0 0 0))
            (seq 0 days)
     ++ repeat None (CalendarGrid.cellsToPad (lead + days)))%list
  /\ Z.of_nat (List.length (CalendarGrid.dates host props)) mod 7 = 0
  /\ (forall i d, nth_error (CalendarGrid.dates host props) i = Some (Some d) ->
        getDay host d = Z.of_nat i mod 7).
Proof.
  intros info lead days.
  pose proof (CalendarGrid_dates_eq host props) as E. cbv zeta in E.
  fold info in E. fold lead days in E.
  split; [exact E|]. split.
  - rewrite E, !length_app, !repeat_length, length_map, length_seq.
    unfold CalendarGrid.cellsToPad. lia.
  - intros i d Hn. rewrite E in Hn.
    assert (Hlead : Z.of_nat lead = getDay host
                      (newDate host (CalendarGrid.year props)
                               (CalendarGrid.month props) 1 0 0 0 0)).
    { subst lead info. unfold getMonthInfo.
      cbn [MonthInfo.startingDayOfWeek].
      pose proof (WeekDay_range
                    (LocalTime host (newDate host (CalendarGrid.year props)
                       (CalendarGrid.month props) 1 0 0 0 0))) as R.
      unfold getDay. lia. }
    destruct (Nat.lt_ge_cases i lead) as [L|L].
    + rewrite nth_error_app1 in Hn by (now rewrite repeat_length).
      apply nth_error_In, repeat_spec in Hn. discriminate.
    + rewrite nth_error_app2 in Hn by (now rewrite repeat_length).
      rewrite repeat_length in Hn.
      destruct (Nat.lt_ge_cases (i - lead) days) as [L2|L2].
      * rewrite nth_error_app1 in Hn by (now rewrite length_map, length_seq).
        rewrite nth_error_map, nth_error_seq in Hn.
        replace (i - lead <? days)%nat with true in Hn
          by (symmetry; apply Nat.ltb_lt; exact L2).
        cbn [option_map Nat.add] in Hn.
        assert (Ed : d = newDate host (CalendarGrid.year props)
                           (CalendarGrid.month props)
                           (1 + Z.of_nat (i - lead)) 0 0 0 0) by congruence.
        rewrite Ed.
        rewrite (getDay_newDate_midnight host (CalendarGrid.year props)
                   (CalendarGrid.month props) (1 + Z.of_nat (i - lead))).
        pose proof (WeekDay_range
                      (LocalTime host (newDate host (CalendarGrid.year props)
                         (CalendarGrid.month props) 1 0 0 0 0))) as R.
        unfold getDay in *. lia.
      * rewrite nth_error_app2 in Hn by (now rewrite length_map, length_seq).
        apply nth_error_In, repeat_spec in Hn. discriminate.
Qed.

(** January 2025 starts on a Wednesday: three empty cells, 31 days, one
    empty cell, five weeks. *)
Lemma CalendarGrid_dates_layout_witness :
  let props := {| CalendarGrid.year := 2025; CalendarGrid.month := 0;
                  CalendarGrid.disabledDays := None;
                  CalendarGrid.blackoutDates := None;
                  CalendarGrid.minDate := None;
                  CalendarGrid.maxDate := None |} in
  List.length (CalendarGrid.dates utcHost props) = 35%nat
  /\ nth_error (CalendarGrid.dates utcHost props) 2 = Some None
  /\ nth_error (CalendarGrid.dates utcHost props) 3 = Some (Some (ymd 2025 0 1))
  /\ getDay utcHost (ymd 2025 0 1) = 3.
Proof.
  intros props.
  pose proof (CalendarGrid_dates_layout utcHost props) as H. cbv zeta in H.
  destruct H as (E & _ & C). rewrite E.
  split; [vm_compute; reflexivity|]. split; [vm_compute; reflexivity|].
  split; [vm_compute; reflexivity|].
  apply (C 3%nat). rewrite E. vm_compute. reflexivity.
Defined.

(** ** The grid and the validator *)

Section GridValidator.

Variable host : Host.

Lemma isDateValid_valid_bool (date : Z) (c : PickerConstraints) :
  valid (isDateValid host date c)
  = negb (match minDate c with Some m => date <? m | None => false end
          || match maxDate c with Some m => m <? date | None => false end
          || match blackoutDates c with
             | Some bds => existsb (fun bd => isSameDay host bd date) bds
             | None => false end
          || match disabledDays c with
             | Some ds => existsb (fun x => x =? getDay host date) ds
             | None => false end).
Proof.
  unfold isDateValid.
  repeat match goal with
         | |- context [if ?b then _ else _] => destruct b
         end; reflexivity.
Qed.

End GridValidator.

Lemma isDateDisabled_negb_valid (host : Host) (year month : Z)
      (constraints : PickerConstraints) (date : Z) :
  CalendarGrid.isDateDisabled host (gridProps year month constraints)
    (Some date)
  = negb (valid (isDateValid host date constraints)).
Proof.
  rewrite isDateValid_valid_bool. unfold CalendarGrid.isDateDisabled, gridProps.
  cbn [CalendarGrid.disabledDays CalendarGrid.blackoutDates
       CalendarGrid.minDate CalendarGrid.maxDate].
  destruct (minDate constraints) as [m|], (maxDate constraints) as [M|],
    (blackoutDates constraints) as [bds|], (disabledDays constraints) as [ds|];
    cbn [CalendarGrid.orEmpty existsb];
    repeat match goal with
           | |- context [existsb ?f ?l] =>
               match l with
               | [] => fail 1
               | _ => destruct (existsb f l)
               end
           | |- context [?a <? ?b] => destruct (a <? b)
           end; reflexivity.
Qed.

(** X8. The grid disables exactly the dates that [isDateValid] refuses under
    the constraints the picker passes on, although it runs the four checks
    in another order; an empty cell is always disabled. *)
Theorem isDateDisabled_iff_invalid (host : Host) (year month : Z)
        (constraints : PickerConstraints) (date : Z) :
  CalendarGrid.isDateDisabled host (gridProps year month constraints)
    (Some date)
  = negb (valid (isDateValid host date constraints))
  /\ CalendarGrid.isDateDisabled host (gridProps year month constraints) None
     = true.
Proof.
  split; [apply isDateDisabled_negb_valid|reflexivity].
Qed.

(** X9. Whatever key is pressed on whatever cell, every date that the grid
    hands to [onDateSelect] is a date that [isDateValid] accepts; a click
    on a cell selects its date or nothing. *)
Theorem CalendarGrid_selects_valid_dates (host : Host) (year month : Z)
        (constraints : PickerConstraints) (key : string) (date d : Z) :
  In d (CalendarGrid.handleKeyDown host (gridProps year month constraints)
          key date)
  \/ CalendarGrid.handleDateClick host (gridProps year month constraints) date
     = Some d ->
  valid (isDateValid host d constraints) = true.
Proof.
  set (props := gridProps year month constraints).
  assert (Click : forall x y, CalendarGrid.handleDateClick host props x = Some y ->
                              valid (isDateValid host y constraints) = true).
  { intros x y. unfold CalendarGrid.handleDateClick.
    destruct (CalendarGrid.isDateDisabled host props (Some x)) eqn:Dis;
      [discriminate|].
    intros E. injection E as <-.
    pose proof (isDateDisabled_negb_valid host year month constraints x) as H.
    fold props in H. rewrite Dis in H.
    destruct (valid (isDateValid host x constraints)); [reflexivity|discriminate]. }
  intros [Hin|Hc]; [|exact (Click _ _ Hc)].
  unfold CalendarGrid.handleKeyDown in Hin.
  assert (Clicked : forall x y,
             In y (match CalendarGrid.handleDateClick host props x with
                   | Some z => [z] | None => [] end) ->
             valid (isDateValid host y constraints) = true).
  { intros x y. destruct (CalendarGrid.handleDateClick host props x) eqn:E;
      [|intros []].
    intros [<-|[]]. exact (Click _ _ E). }
  assert (First : forall y,
             In y (if String.eqb key "Enter" || String.eqb key " "
                   then match CalendarGrid.handleDateClick host props date with
                        | Some z => [z] | None => [] end
                   else []) ->
             valid (isDateValid host y constraints) = true).
  { intros y. destruct (String.eqb key "Enter" || String.eqb key " ");
      [apply Clicked|intros []]. }
  destruct (CalendarGrid.targetDate host props key date) as [target|];
    [|exact (First _ Hin)].
  destruct (negb (CalendarGrid.isDateDisabled host props (Some target)));
    [|exact (First _ Hin)].
  apply in_app_or in Hin. destruct Hin as [Hin|Hin];
    [exact (First _ Hin)|exact (Clicked _ _ Hin)].
Qed.

(** With Sundays disabled, "ArrowLeft" on Monday 2025-01-06 selects
    nothing and "ArrowRight" selects Tuesday. *)
Lemma CalendarGrid_selects_valid_dates_witness :
  let c := {| minDate := None; maxDate := None; blackoutDates := None;
              minDuration := None; maxDuration := None;
              disabledDays := Some [0] |} in
  CalendarGrid.handleKeyDown utcHost (gridProps 2025 0 c) "ArrowLeft"
    (ymd 2025 0 6) = []
  /\ CalendarGrid.handleKeyDown utcHost (gridProps 2025 0 c) "ArrowRight"
       (ymd 2025 0 6) = [ymd 2025 0 7]
  /\ valid (isDateValid utcHost (ymd 2025 0 7) c) = true.
Proof.
  intros c. split; [vm_compute; reflexivity|].
  split; [vm_compute; reflexivity|].
  apply (CalendarGrid_selects_valid_dates utcHost 2025 0 c "ArrowRight"
           (ymd 2025 0 6)).
  left. vm_compute. left. reflexivity.
Defined.

(** X10. The arrow keys aim at the date one day or one week away, at the same
    time of day: "ArrowUp" and "ArrowDown" keep the weekday and undo each
    other, as "ArrowLeft" and "ArrowRight" do. *)
Theorem CalendarGrid_arrow_targets (host : Host)
        (props : CalendarGrid.Props) (date : Z) :
  CalendarGrid.targetDate host props "ArrowUp" date
  = Some (date - 7 * msPerDay)
  /\ CalendarGrid.targetDate host props "ArrowDown" date
     = Some (date + 7 * msPerDay)
  /\ CalendarGrid.targetDate host props "ArrowLeft" date
     = Some (date - msPerDay)
  /\ CalendarGrid.targetDate host props "ArrowRight" date
     = Some (date + msPerDay)
  /\ getDay host (date - 7 * msPerDay) = getDay host date
  /\ getDay host (date + 7 * msPerDay) = getDay host date
  /\ CalendarGrid.targetDate host props "ArrowUp" (date + 7 * msPerDay)
     = Some date
  /\ CalendarGrid.targetDate host props "ArrowLeft" (date + msPerDay)
     = Some date.
Proof.
  assert (S : forall d k, setDate host d (getDate host d - k)
                          = d - k * msPerDay).
  { intros d k. replace (getDate host d - k) with (getDate host d + - k) by lia.
    rewrite setDate_getDate_plus. lia. }
  unfold CalendarGrid.targetDate. cbn [String.eqb Ascii.eqb Bool.eqb andb].
  rewrite !S, !setDate_getDate_plus.
  repeat split; try (f_equal; unfold msPerDay; lia).
  - unfold getDay, WeekDay, Day, LocalTime, msPerDay, msPerMinute. lia.
  - unfold getDay, WeekDay, Day, LocalTime, msPerDay, msPerMinute. lia.
Qed.

(** X11. For a month from 0 to 11 of a year that is not from 0 to 99, "Home"
    aims at the first day of the displayed month and "End" at its last
    day, both at midnight. *)
Theorem CalendarGrid_home_end_targets (host : Host)
        (props : CalendarGrid.Props) (date : Z) :
  0 <= CalendarGrid.month props <= 11 ->
  CalendarGrid.year props < 0 \/ 99 < CalendarGrid.year props ->
  exists first last,
    CalendarGrid.targetDate host props "Home" date = Some first
    /\ CalendarGrid.targetDate host props "End" date = Some last
    /\ (getFullYear host first, getMonth host first, getDate host first)
       = (CalendarGrid.year props, CalendarGrid.month props, 1)
    /\ (getFullYear host last, getMonth host last, getDate host last)
       = (CalendarGrid.year props, CalendarGrid.month props,
          monthLength (CalendarGrid.year props) (CalendarGrid.month props))
    /\ In (Some first) (CalendarGrid.dates host props)
    /\ In (Some last) (CalendarGrid.dates host props).
Proof.
  intros Hm Hy.
  set (y := CalendarGrid.year props) in *.
  set (m := CalendarGrid.month props) in *.
  pose proof (monthLength_range y m) as Hl.
  assert (T0 : 0 <= MakeTime 0 0 0 0 < msPerDay)
    by (rewrite MakeTime_start_of_day; unfold msPerDay; lia).
  assert (EL : newDate host y (m + 1) 0 0 0 0 0
               = newDate host y m (monthLength y m) 0 0 0 0).
  { unfold newDate.
    replace ((0 <=? y) && (y <=? 99)) with false by lia.
    rewrite MakeDay_day_zero by exact Hm. reflexivity. }
  exists (newDate host y m 1 0 0 0 0), (newDate host y (m + 1) 0 0 0 0 0).
  split; [reflexivity|]. split; [reflexivity|].
  destruct (newDate_fields host y m 1 0 0 0 0 Hm ltac:(lia) Hy T0)
    as (F1 & F2 & F3).
  destruct (newDate_fields host y m (monthLength y m) 0 0 0 0 Hm
              ltac:(lia) Hy T0) as (L1 & L2 & L3).
  split; [now rewrite F1, F2, F3|].
  split; [now rewrite EL, L1, L2, L3|].
  pose proof (CalendarGrid_dates_eq host props) as E. cbv zeta in E.
  pose proof (getMonthInfo_daysInMonth host y m Hm Hy) as I1.
  fold y m in E. rewrite I1 in E.
  assert (Hin : forall k, 1 <= k <= monthLength y m ->
                  In (Some (newDate host y m k 0 0 0 0))
                     (CalendarGrid.dates host props)).
  { intros k Hk. rewrite E. apply in_or_app. right. apply in_or_app. left.
    apply in_map_iff. exists (Z.to_nat (k - 1)). split.
    - do 2 f_equal. lia.
    - apply in_seq. lia. }
  split; [apply Hin; lia|rewrite EL; apply Hin; lia].
Qed.

Lemma CalendarGrid_home_end_targets_witness :
  exists first last,
    CalendarGrid.targetDate utcHost (gridProps 2024 1 noConstraints) "Home" 0
    = Some first
    /\ CalendarGrid.targetDate utcHost (gridProps 2024 1 noConstraints) "End" 0
       = Some last
    /\ getDate utcHost first = 1 /\ getDate utcHost last = 29.
Proof.
  destruct (CalendarGrid_home_end_targets utcHost
              (gridProps 2024 1 noConstraints) 0)
    as (first & last & H1 & H2 & F & L & _).
  - cbn. lia.
  - cbn. lia.
  - exists first, last. split; [exact H1|]. split; [exact H2|].
    injection F as _ _ F3. injection L as _ _ L3.
    split; [exact F3|exact L3].
Defined.

(** ** The presets *)

Section PresetDayFacts.

Variable host : Host.

(** A date moved by [k] days and set to the start or to the end of its
    day. *)
Lemma start_of_shifted_day (now k : Z) :
  setHours host (setDate host now (getDate host now + k)) 0 0 0 0
  = UTC host (MakeDate (Day (LocalTime host now) + k) 0).
Proof.
  rewrite setDate_getDate_plus. unfold setHours.
  now rewrite Day_LocalTime_shift, MakeTime_start_of_day.
Qed.

Lemma end_of_shifted_day (now k : Z) :
  setHours host (setDate host now (getDate host now + k)) 23 59 59 999
  = UTC host (MakeDate (Day (LocalTime host now) + k) (msPerDay - 1)).
Proof.
  rewrite setDate_getDate_plus. unfold setHours.
  now rewrite Day_LocalTime_shift, MakeTime_end_of_day.
Qed.

End PresetDayFacts.

(** X12. "Today", "Yesterday" and "Tomorrow" cover one local calendar day, the
    day of [now] moved by 0, -1 and +1: from 00:00:00.000 to 23:59:59.999
    of that day, with the strings "00:00" and "23:59". *)
Theorem single_day_presets (host : Host) (now unused : Z) :
  let today := Day (LocalTime host now) in
  let oneDay (d : Z) : Presets.PresetRange :=
    {| Presets.start := UTC host (MakeDate d 0);
       Presets.startTime := "00:00";
       Presets.end_ := UTC host (MakeDate d (msPerDay - 1));
       Presets.endTime := "23:59" |} in
  RelativePresets.today_getRange host now unused = oneDay today
  /\ RelativePresets.yesterday_getRange host now unused = oneDay (today - 1)
  /\ RelativePresets.tomorrow_getRange host now unused = oneDay (today + 1).
Proof.
  intros today oneDay. subst oneDay.
  unfold RelativePresets.today_getRange, RelativePresets.yesterday_getRange,
    RelativePresets.tomorrow_getRange.
  cbv zeta.
  replace (getDate host now - 1) with (getDate host now + -1) by lia.
  rewrite !start_of_shifted_day, !end_of_shifted_day.
  unfold setHours. rewrite MakeTime_start_of_day, MakeTime_end_of_day.
  fold today. repeat split.
Qed.

(** X13. "Last 30 Days" and "Last 90 Days", with both readings of the clock
    equal to [now]: from the start of the day 29 (89) days before the day
    of [now] to the end of the day of [now], that is 30 (90) calendar days
    with both ends included, which [getDateRange] lists. *)
Theorem last_n_days_presets (host : Host) (now : Z) :
  let today := Day (LocalTime host now) in
  let r30 := RelativePresets.last30days_getRange host now now in
  let r90 := RelativePresets.lastQuarter_getRange host now now in
  r30 = {| Presets.start := UTC host (MakeDate (today - 29) 0);
           Presets.startTime := "00:00";
           Presets.end_ := UTC host (MakeDate today (msPerDay - 1));
           Presets.endTime := "23:59" |}
  /\ r90 = {| Presets.start := UTC host (MakeDate (today - 89) 0);
              Presets.startTime := "00:00";
              Presets.end_ := UTC host (MakeDate today (msPerDay - 1));
              Presets.endTime := "23:59" |}
  /\ getDateRange host (Presets.start r30) (Presets.end_ r30)
     = map (fun k => UTC host (MakeDate (today - 29 + Z.of_nat k) 0))
           (seq 0 30)
  /\ getDateRange host (Presets.start r90) (Presets.end_ r90)
     = map (fun k => UTC host (MakeDate (today - 89 + Z.of_nat k) 0))
           (seq 0 90).
Proof.
  intros today r30 r90.
  assert (E30 : r30 = {| Presets.start := UTC host (MakeDate (today - 29) 0);
                         Presets.startTime := "00:00";
                         Presets.end_ := UTC host (MakeDate today (msPerDay - 1));
                         Presets.endTime := "23:59" |}).
  { subst r30. unfold RelativePresets.last30days_getRange. cbv zeta.
    replace (getDate host now - 29) with (getDate host now + -29) by lia.
    rewrite start_of_shifted_day. unfold setHours.
    rewrite MakeTime_end_of_day. reflexivity. }
  assert (E90 : r90 = {| Presets.start := UTC host (MakeDate (today - 89) 0);
                         Presets.startTime := "00:00";
                         Presets.end_ := UTC host (MakeDate today (msPerDay - 1));
                         Presets.endTime := "23:59" |}).
  { subst r90. unfold RelativePresets.lastQuarter_getRange. cbv zeta.
    replace (getDate host now - 89) with (getDate host now + -89) by lia.
    rewrite start_of_shifted_day. unfold setHours.
    rewrite MakeTime_end_of_day. reflexivity. }
  assert (DS : forall d, Day (LocalTime host (UTC host (MakeDate d 0))) = d).
  { intros d. rewrite LocalTime_UTC. apply Day_MakeDate. unfold msPerDay. lia. }
  assert (DE : forall d,
             Day (LocalTime host (UTC host (MakeDate d (msPerDay - 1)))) = d).
  { intros d. rewrite LocalTime_UTC. apply Day_MakeDate. unfold msPerDay. lia. }
  split; [exact E30|]. split; [exact E90|].
  rewrite E30, E90. cbn [Presets.start Presets.end_].
  pose proof (getDateRange_value host (UTC host (MakeDate (today - 29) 0))
                (UTC host (MakeDate today (msPerDay - 1)))) as G30.
  pose proof (getDateRange_value host (UTC host (MakeDate (today - 89) 0))
                (UTC host (MakeDate today (msPerDay - 1)))) as G90.
  rewrite DS, DE in G30, G90.
  replace (Z.to_nat (today - (today - 29) + 1)) with 30%nat in G30 by lia.
  replace (Z.to_nat (today - (today - 89) + 1)) with 90%nat in G90 by lia.
  split; [exact G30|exact G90].
Qed.

(** ** Months in the presets and in the navigation *)

Section MonthArithmetic.

Variable host : Host.

Lemma MakeDay_normalize (y m d : Z) :
  MakeDay y m d = MakeDay (y + m / 12) (m mod 12) d.
Proof.
  unfold MakeDay.
  rewrite (Z.div_small (m mod 12) 12), Z.mod_mod, Z.add_0_r by lia.
  reflexivity.
Qed.

Lemma MakeDay_next_month (y m k : Z) :
  0 <= m <= 11 -> MakeDay y (m + 1) k = MakeDay y m (monthLength y m + k).
Proof.
  intros Hm.
  replace k with (0 + k) at 1 by lia.
  now rewrite !MakeDay_date_shift, MakeDay_day_zero.
Qed.

Lemma TimeWithinDay_range (t : Z) : 0 <= TimeWithinDay t < msPerDay.
Proof. unfold TimeWithinDay, msPerDay. lia. Qed.

(** The fields of a date made from any month number: the month is
    brought into 0..11 and the year moved along. *)
Lemma fields_of_MakeDay_any (y m d tm : Z) :
  1 <= d <= monthLength (y + m / 12) (m mod 12) -> 0 <= tm < msPerDay ->
  let t := MakeDate (MakeDay y m d) tm in
  YearFromTime t = y + m / 12 /\ MonthFromTime t = m mod 12
  /\ DateFromTime t = d.
Proof.
  intros Hd Htm. rewrite MakeDay_normalize.
  apply fields_of_MakeDay; [lia|exact Hd|exact Htm].
Qed.

(** A day past the end of a month is a day of the month after. *)
Lemma fields_of_MakeDay_overflow (y m d tm : Z) :
  monthLength (y + m / 12) (m mod 12) < d <= 31 -> 0 <= tm < msPerDay ->
  let t := MakeDate (MakeDay y m d) tm in
  YearFromTime t = y + (m + 1) / 12 /\ MonthFromTime t = (m + 1) mod 12
  /\ DateFromTime t = d - monthLength (y + m / 12) (m mod 12).
Proof.
  intros Hd Htm.
  set (len := monthLength (y + m / 12) (m mod 12)) in *.
  pose proof (monthLength_range (y + m / 12) (m mod 12)) as Hl. fold len in Hl.
  pose proof (monthLength_range
                (y + m / 12 + (m mod 12 + 1) / 12) ((m mod 12 + 1) mod 12)) as Hl2.
  assert (E : MakeDay y m d = MakeDay (y + m / 12) (m mod 12 + 1) (d - len)).
  { rewrite MakeDay_normalize, MakeDay_next_month by lia.
    fold len. f_equal. lia. }
  rewrite E.
  replace (y + (m + 1) / 12) with (y + m / 12 + (m mod 12 + 1) / 12) by lia.
  replace ((m + 1) mod 12) with ((m mod 12 + 1) mod 12) by lia.
  apply fields_of_MakeDay_any; [lia|exact Htm].
Qed.

(** [d.setDate(k)] on a date whose local fields are known. *)
Lemma setDate_of_fields (x y m k : Z) :
  getFullYear host x = y -> getMonth host x = m ->
  LocalTime host (setDate host x k)
  = MakeDate (MakeDay y m k) (TimeWithinDay (LocalTime host x)).
Proof.
  unfold getFullYear, getMonth, setDate. intros <- <-.
  now rewrite LocalTime_UTC.
Qed.

Lemma LocalTime_setMonth (x mo : Z) :
  LocalTime host (setMonth host x mo)
  = MakeDate (MakeDay (getFullYear host x) mo (getDate host x))
             (TimeWithinDay (LocalTime host x)).
Proof. unfold setMonth. now rewrite LocalTime_UTC. Qed.

Lemma setHours_of_local_day (x dy h m s ms tm : Z) :
  LocalTime host x = MakeDate dy tm -> 0 <= tm < msPerDay ->
  setHours host x h m s ms = UTC host (MakeDate dy (MakeTime h m s ms)).
Proof.
  intros E Htm. unfold setHours. now rewrite E, Day_MakeDate.
Qed.

Lemma getDate_range (x : Z) : 1 <= getDate host x <= 31.
Proof. apply DateFromTime_range. Qed.

Lemma getMonth_range (x : Z) : 0 <= getMonth host x <= 11.
Proof. apply MonthFromTime_range. Qed.

(** Moving a date to another month number and then to day [k] of the
    month it landed in. *)
Lemma setMonth_setDate (x mo k : Z) :
  let y := getFullYear host x in
  let d := getDate host x in
  let len := monthLength (y + mo / 12) (mo mod 12) in
  LocalTime host (setDate host (setMonth host x mo) k)
  = MakeDate (if d <=? len then MakeDay y mo k else MakeDay y (mo + 1) k)
             (TimeWithinDay (LocalTime host x)).
Proof.
  intros y d len.
  pose proof (getDate_range x) as Hd. fold d in Hd.
  pose proof (TimeWithinDay_range (LocalTime host x)) as Ht.
  pose proof (LocalTime_setMonth x mo) as L. fold y d in L.
  assert (T : TimeWithinDay (LocalTime host (setMonth host x mo))
              = TimeWithinDay (LocalTime host x)).
  { rewrite L. now apply TimeWithinDay_MakeDate. }
  destruct (Z.leb_spec d len) as [Hle|Hgt].
  - destruct (fields_of_MakeDay_any y mo d
                (TimeWithinDay (LocalTime host x))) as (F1 & F2 & _);
      [fold len; lia|exact Ht|].
    rewrite <- L in F1, F2.
    rewrite (setDate_of_fields _ _ _ k F1 F2), T.
    now rewrite <- MakeDay_normalize.
  - destruct (fields_of_MakeDay_overflow y mo d
                (TimeWithinDay (LocalTime host x))) as (F1 & F2 & _);
      [fold len; lia|exact Ht|].
    rewrite <- L in F1, F2.
    rewrite (setDate_of_fields _ _ _ k F1 F2), T.
    now rewrite <- MakeDay_normalize.
Qed.

End MonthArithmetic.

(** X14. "This Month", with both readings of the clock equal to [now], starts
    at 00:00:00.000 of the first day of the month of [now].  It ends at
    23:59:59.999 of the last day of that month when the day of the month
    of [now] exists in the next month (always so up to the 28th);
    otherwise, as on the 31st of January, it ends on the last day of the
    next month. *)
Theorem thisMonth_range (host : Host) (now : Z) :
  let y := getFullYear host now in
  let m := getMonth host now in
  let d := getDate host now in
  let nextLength := monthLength (y + (m + 1) / 12) ((m + 1) mod 12) in
  let r := RelativePresets.thisMonth_getRange host now now in
  Presets.start r = UTC host (MakeDate (MakeDay y m 1) 0)
  /\ Presets.startTime r = "00:00" /\ Presets.endTime r = "23:59"
  /\ (d <= nextLength ->
      Presets.end_ r
      = UTC host (MakeDate (MakeDay y m (monthLength y m)) (msPerDay - 1))
      /\ (getFullYear host (Presets.end_ r), getMonth host (Presets.end_ r),
          getDate host (Presets.end_ r)) = (y, m, monthLength y m))
  /\ (nextLength < d ->
      Presets.end_ r
      = UTC host (MakeDate (MakeDay y (m + 1) nextLength) (msPerDay - 1))
      /\ (getFullYear host (Presets.end_ r), getMonth host (Presets.end_ r),
          getDate host (Presets.end_ r))
         = (y + (m + 1) / 12, (m + 1) mod 12, nextLength)).
Proof.
  intros y m d nextLength r.
  pose proof (getMonth_range host now) as Hm. fold m in Hm.
  pose proof (getDate_range host now) as Hd. fold d in Hd.
  pose proof (TimeWithinDay_range (LocalTime host now)) as Ht.
  pose proof (monthLength_range y m) as Hl.
  pose proof (monthLength_range (y + (m + 1) / 12) ((m + 1) mod 12)) as Hn.
  fold nextLength in Hn.
  assert (Tend : 0 <= msPerDay - 1 < msPerDay) by (unfold msPerDay; lia).
  assert (S : Presets.start r = UTC host (MakeDate (MakeDay y m 1) 0)).
  { subst r. unfold RelativePresets.thisMonth_getRange. cbn [Presets.start].
    rewrite <- MakeTime_start_of_day.
    apply (setHours_of_local_day host _ _ 0 0 0 0
             (TimeWithinDay (LocalTime host now))); [|exact Ht].
    now apply setDate_of_fields. }
  assert (E : Presets.end_ r
              = UTC host (MakeDate (if d <=? nextLength
                                    then MakeDay y (m + 1) 0
                                    else MakeDay y (m + 1 + 1) 0)
                                   (msPerDay - 1))).
  { subst r. unfold RelativePresets.thisMonth_getRange. cbn [Presets.end_].
    rewrite <- MakeTime_end_of_day.
    apply (setHours_of_local_day host _ _ 23 59 59 999
             (TimeWithinDay (LocalTime host now))); [|exact Ht].
    fold m. apply (setMonth_setDate host now (m + 1) 0). }
  split; [exact S|]. split; [reflexivity|]. split; [reflexivity|].
  split.
  - intros Hle. replace (d <=? nextLength) with true in E by lia.
    rewrite MakeDay_day_zero in E by exact Hm.
    split; [exact E|].
    unfold getFullYear, getMonth, getDate. rewrite E, LocalTime_UTC.
    destruct (fields_of_MakeDay y m (monthLength y m) (msPerDay - 1))
      as (F1 & F2 & F3); [exact Hm|lia|exact Tend|].
    now rewrite F1, F2, F3.
  - intros Hgt. replace (d <=? nextLength) with false in E by lia.
    assert (E2 : MakeDay y (m + 1 + 1) 0 = MakeDay y (m + 1) nextLength).
    { rewrite (MakeDay_normalize y (m + 1 + 1)), (MakeDay_normalize y (m + 1)).
      replace (y + (m + 1 + 1) / 12)
        with (y + (m + 1) / 12 + ((m + 1) mod 12 + 1) / 12) by lia.
      replace ((m + 1 + 1) mod 12) with (((m + 1) mod 12 + 1) mod 12) by lia.
      rewrite <- MakeDay_normalize.
      rewrite MakeDay_day_zero by lia. reflexivity. }
    rewrite E2 in E. split; [exact E|].
    unfold getFullYear, getMonth, getDate. rewrite E, LocalTime_UTC.
    destruct (fields_of_MakeDay_any y (m + 1) nextLength (msPerDay - 1))
      as (F1 & F2 & F3); [fold nextLength; lia|exact Tend|].
    now rewrite F1, F2, F3.
Qed.

(** On 2025-01-15 "This Month" ends on January 31; on 2025-01-31 it ends
    on February 28. *)
Lemma thisMonth_range_witness :
  getDate utcHost
    (Presets.end_ (RelativePresets.thisMonth_getRange utcHost
                     (ymd 2025 0 15) (ymd 2025 0 15))) = 31
  /\ (getMonth utcHost
        (Presets.end_ (RelativePresets.thisMonth_getRange utcHost
                         (ymd 2025 0 31) (ymd 2025 0 31))),
      getDate utcHost
        (Presets.end_ (RelativePresets.thisMonth_getRange utcHost
                         (ymd 2025 0 31) (ymd 2025 0 31)))) = (1, 28).
Proof.
  pose proof (thisMonth_range utcHost (ymd 2025 0 15)) as H1.
  pose proof (thisMonth_range utcHost (ymd 2025 0 31)) as H2.
  cbv zeta in H1, H2.
  destruct H1 as (_ & _ & _ & H1 & _). destruct H2 as (_ & _ & _ & _ & H2).
  split.
  - destruct H1 as (_ & F); [vm_compute; discriminate|].
    pose proof (f_equal snd F) as F3. cbn [snd] in F3.
    rewrite F3. vm_compute. reflexivity.
  - destruct H2 as (_ & F); [vm_compute; reflexivity|].
    pose proof (f_equal (fun p => snd (fst p)) F) as F2.
    pose proof (f_equal snd F) as F3. cbn [fst snd] in F2, F3.
    rewrite F2, F3. vm_compute. reflexivity.
Defined.

(** X15. "Last Month", with both readings of the clock equal to [now], ends at
    23:59:59.999 of the last day of the month before the month of [now].
    It starts at 00:00:00.000 of the first day of that month when the day
    of the month of [now] exists in it; otherwise, as on the 31st of
    March, it starts on the first day of the month of [now] itself, after
    its own end. *)
Theorem lastMonth_range (host : Host) (now : Z) :
  let y := getFullYear host now in
  let m := getMonth host now in
  let d := getDate host now in
  let prevLength := monthLength (y + (m - 1) / 12) ((m - 1) mod 12) in
  let r := RelativePresets.lastMonth_getRange host now now in
  Presets.end_ r
  = UTC host (MakeDate (MakeDay y (m - 1) prevLength) (msPerDay - 1))
  /\ Presets.startTime r = "00:00" /\ Presets.endTime r = "23:59"
  /\ (d <= prevLength ->
      Presets.start r = UTC host (MakeDate (MakeDay y (m - 1) 1) 0)
      /\ Presets.start r < Presets.end_ r)
  /\ (prevLength < d ->
      Presets.start r = UTC host (MakeDate (MakeDay y m 1) 0)
      /\ Presets.end_ r < Presets.start r).
Proof.
  intros y m d prevLength r.
  pose proof (getMonth_range host now) as Hm. fold m in Hm.
  pose proof (getDate_range host now) as Hd. fold d in Hd.
  pose proof (TimeWithinDay_range (LocalTime host now)) as Ht.
  pose proof (monthLength_range (y + (m - 1) / 12) ((m - 1) mod 12)) as Hp.
  fold prevLength in Hp.
  assert (Z0 : MakeDay y m 0 = MakeDay y (m - 1) prevLength).
  { rewrite (MakeDay_normalize y (m - 1)).
    rewrite <- MakeDay_day_zero by lia.
    rewrite (MakeDay_normalize y m),
      (MakeDay_normalize (y + (m - 1) / 12) ((m - 1) mod 12 + 1)).
    f_equal; lia. }
  assert (E : Presets.end_ r
              = UTC host (MakeDate (MakeDay y (m - 1) prevLength)
                                   (msPerDay - 1))).
  { subst r. unfold RelativePresets.lastMonth_getRange. cbn [Presets.end_].
    rewrite <- MakeTime_end_of_day, <- Z0.
    apply (setHours_of_local_day host _ _ 23 59 59 999
             (TimeWithinDay (LocalTime host now))); [|exact Ht].
    now apply setDate_of_fields. }
  assert (S : Presets.start r
              = UTC host (MakeDate (if d <=? prevLength
                                    then MakeDay y (m - 1) 1
                                    else MakeDay y (m - 1 + 1) 1) 0)).
  { subst r. unfold RelativePresets.lastMonth_getRange. cbn [Presets.start].
    rewrite <- MakeTime_start_of_day.
    apply (setHours_of_local_day host _ _ 0 0 0 0
             (TimeWithinDay (LocalTime host now))); [|exact Ht].
    fold m. apply (setMonth_setDate host now (m - 1) 1). }
  split; [exact E|]. split; [reflexivity|]. split; [reflexivity|].
  replace (m - 1 + 1) with m in S by lia.
  assert (Sh : MakeDay y (m - 1) prevLength = MakeDay y (m - 1) 1 + (prevLength - 1)).
  { rewrite <- MakeDay_date_shift. f_equal. lia. }
  assert (Sh2 : MakeDay y m 1 = MakeDay y m 0 + 1).
  { rewrite <- MakeDay_date_shift. reflexivity. }
  split.
  - intros Hle. replace (d <=? prevLength) with true in S by lia.
    split; [exact S|].
    rewrite S, E, Sh. unfold UTC, MakeDate, msPerDay. lia.
  - intros Hgt. replace (d <=? prevLength) with false in S by lia.
    split; [exact S|].
    rewrite S, E, Sh2, Z0. unfold UTC, MakeDate, msPerDay. lia.
Qed.

(** On 2025-03-15 "Last Month" is February; on 2025-03-31 it starts on
    March 1, after its end on February 28. *)
Lemma lastMonth_range_witness :
  Presets.start (RelativePresets.lastMonth_getRange utcHost
                   (ymd 2025 2 15) (ymd 2025 2 15)) = ymd 2025 1 1
  /\ Presets.start (RelativePresets.lastMonth_getRange utcHost
                      (ymd 2025 2 31) (ymd 2025 2 31)) = ymd 2025 2 1
  /\ Presets.end_ (RelativePresets.lastMonth_getRange utcHost
                     (ymd 2025 2 31) (ymd 2025 2 31))
     < Presets.start (RelativePresets.lastMonth_getRange utcHost
                        (ymd 2025 2 31) (ymd 2025 2 31)).
Proof.
  pose proof (lastMonth_range utcHost (ymd 2025 2 15)) as H1.
  pose proof (lastMonth_range utcHost (ymd 2025 2 31)) as H2.
  cbv zeta in H1, H2.
  destruct H1 as (_ & _ & _ & H1 & _). destruct H2 as (_ & _ & _ & _ & H2).
  destruct H1 as (S1 & _); [vm_compute; discriminate|].
  destruct H2 as (S2 & L2); [vm_compute; reflexivity|].
  split; [rewrite S1; vm_compute; reflexivity|].
  split; [rewrite S2; vm_compute; reflexivity|exact L2].
Defined.

(** ** Presets through the validator and the picker *)

Section PresetValidation.

Variable host : Host.

Lemma combineDateTime_preset_start (d : Z) :
  combineDateTime host (UTC host (MakeDate d 0)) "00:00"
  = Some (UTC host (MakeDate d 0)).
Proof.
  change (combineDateTime host (UTC host (MakeDate d 0)) "00:00")
    with (Some (setHours host (UTC host (MakeDate d 0)) 0 0 0 0)).
  f_equal. rewrite <- MakeTime_start_of_day at 2.
  apply (setHours_of_local_day host _ d 0 0 0 0 0).
  - apply LocalTime_UTC.
  - unfold msPerDay. lia.
Qed.

Lemma combineDateTime_preset_end (d : Z) :
  combineDateTime host (UTC host (MakeDate d (msPerDay - 1))) "23:59"
  = Some (UTC host (MakeDate d (msPerDay - 60000))).
Proof.
  change (combineDateTime host (UTC host (MakeDate d (msPerDay - 1))) "23:59")
    with (Some (setHours host (UTC host (MakeDate d (msPerDay - 1)))
                  23 59 0 0)).
  f_equal.
  change (msPerDay - 60000) with (MakeTime 23 59 0 0).
  apply (setHours_of_local_day host _ d 23 59 0 0 (msPerDay - 1)).
  - apply LocalTime_UTC.
  - unfold msPerDay. lia.
Qed.

Lemma preset_range_errors (ds de : Z) (c : PickerConstraints) :
  let s := UTC host (MakeDate ds 0) in
  let e := UTC host (MakeDate de (msPerDay - 1)) in
  let duration := (de - ds + 1) * msPerDay - 60000 in
  isRangeValid host (completeRange s "00:00" e "23:59") c
  = let es := (dateErrors host "Start: " s c ++ dateErrors host "End: " e c
               ++ (if de <? ds then ["Start must be before end"] else [])
               ++ minDurationErrors duration c
               ++ maxDurationErrors duration c)%list in
    {| rvalid := (Z.of_nat (List.length es) =? 0); errors := es |}.
Proof.
  intros s e duration. subst s e.
  rewrite (isRangeValid_complete host _ _ _ _ _ _ c
             (combineDateTime_preset_start ds) (combineDateTime_preset_end de)).
  cbv zeta.
  replace (UTC host (MakeDate de (msPerDay - 60000))
           - UTC host (MakeDate ds 0)) with duration
    by (unfold duration, UTC, MakeDate, msPerDay; lia).
  replace (orderErrors (UTC host (MakeDate ds 0))
             (UTC host (MakeDate de (msPerDay - 60000))))
    with (if de <? ds then ["Start must be before end"] else []).
  - reflexivity.
  - unfold orderErrors, UTC, MakeDate, msPerDay.
    destruct (Z.ltb_spec de ds), (Z.leb_spec (de * 86400000 + (86400000 - 60000)
                                              - hostOffset host * msPerMinute)
                                             (ds * 86400000 + 0
                                              - hostOffset host * msPerMinute));
      try reflexivity; lia.
Qed.

End PresetValidation.

(** X16. A range of the presets' shape, from 00:00:00.000 of day [ds] with the
    time "00:00" to 23:59:59.999 of day [de] with the time "23:59": the
    start combines to itself and the end to 23:59:00.000, so that the
    range is validated as 59999 ms shorter than it is.  It is in order
    exactly when [ds <= de], and with no other constraint than a minimum
    duration [m] it is valid exactly when it is in order and the
    shortened length is at least [m]. *)
Theorem preset_range_measured (host : Host) (ds de m : Z) :
  m <> 0 ->
  let s := UTC host (MakeDate ds 0) in
  let e := UTC host (MakeDate de (msPerDay - 1)) in
  combineDateTime host s "00:00" = Some s
  /\ combineDateTime host e "23:59" = Some (e - 59999)
  /\ (s < e - 59999 <-> ds <= de)
  /\ (rvalid (isRangeValid host (completeRange s "00:00" e "23:59")
                (atLeast m)) = true
      <-> s < e - 59999 /\ m <= e - 59999 - s).
Proof.
  intros Hm s e.
  split; [apply combineDateTime_preset_start|].
  split.
  { subst e. rewrite combineDateTime_preset_end. f_equal.
    unfold UTC, MakeDate, msPerDay. lia. }
  assert (O : s < e - 59999 <-> ds <= de)
    by (subst s e; unfold UTC, MakeDate, msPerDay; lia).
  assert (Dd : e - 59999 - s = (de - ds + 1) * msPerDay - 60000)
    by (subst s e; unfold UTC, MakeDate, msPerDay; lia).
  assert (V : rvalid (isRangeValid host (completeRange s "00:00" e "23:59")
                        (atLeast m)) = true
              <-> ds <= de /\ m <= (de - ds + 1) * msPerDay - 60000).
  { subst s e. rewrite preset_range_errors. cbv zeta. cbn [rvalid].
    unfold dateErrors, isDateValid, atLeast, minDurationErrors,
      maxDurationErrors.
    cbn [minDate maxDate blackoutDates disabledDays minDuration maxDuration
         valid app].
    replace (m =? 0) with false by lia. cbn [negb andb].
    destruct (Z.ltb_spec de ds) as [L|L];
      destruct (Z.ltb_spec ((de - ds + 1) * msPerDay - 60000) m) as [D|D];
      cbn [app List.length Z.of_nat]; split; intros H;
      try discriminate; try reflexivity; try lia. }
  split; [exact O|].
  rewrite Dd. split.
  - intros H. apply V in H. destruct H as [A B]. split; [now apply O|exact B].
  - intros [A B]. apply V. split; [now apply O|exact B].
Qed.

(** The seven days from 2025-06-04 to 2025-06-10 under a minimum of six
    days. *)
Lemma preset_range_measured_witness :
  rvalid (isRangeValid utcHost
            (completeRange (ymd 2025 5 4) "00:00"
               (UTC utcHost (MakeDate (Day (ymd 2025 5 10)) (msPerDay - 1)))
               "23:59")
            (atLeast (6 * msPerDay))) = true.
Proof.
  apply (proj2 (proj2 (proj2 (preset_range_measured utcHost
                                (Day (ymd 2025 5 4)) (Day (ymd 2025 5 10))
                                (6 * msPerDay) ltac:(discriminate))))).
  vm_compute. split; [reflexivity|discriminate].
Defined.

(** X17. A click on "Today" hands the range to [onRangeChange] without
    validating it; "Apply" then refuses the same range under a minimum
    duration of the whole day, from its first to its last millisecond
    included, since it takes the end of the day at 23:59:00.000, and
    shows the one message of the minimum duration. *)
Theorem today_preset_under_one_day_minimum (host : Host) (now unused : Z)
        (s0 : Picker.State) :
  let today := RelativePresets.today_getRange host now unused in
  let day := Presets.end_ today - Presets.start today + 1 in
  let c := atLeast day in
  let clicked := Picker.handlePresetClick today s0 in
  let applied := Picker.handleRangeChange host c (fst clicked) in
  snd clicked = Some (Picker.range (fst clicked))
  /\ Picker.range (fst clicked)
     = {| Picker.startDate := Some (Presets.start today);
          Picker.startTime := Some "00:00";
          Picker.endDate := Some (Presets.end_ today);
          Picker.endTime := Some "23:59" |}
  /\ snd applied = None
  /\ Picker.errors (fst applied)
     = [("Duration must be at least " ++ formatDuration day)%string].
Proof.
  intros today day c clicked applied.
  split; [reflexivity|]. split; [reflexivity|].
  assert (Ed : day = 86400000).
  { subst day today. unfold RelativePresets.today_getRange.
    cbn [Presets.start Presets.end_]. unfold setHours.
    rewrite MakeTime_start_of_day, MakeTime_end_of_day.
    unfold UTC, MakeDate, msPerDay. lia. }
  assert (E : isRangeValid host
                (completeRange (Presets.start today) "00:00"
                   (Presets.end_ today) "23:59") c
              = {| rvalid := false;
                   errors := [("Duration must be at least "
                               ++ formatDuration day)%string] |}).
  { subst c. rewrite Ed.
    subst today. unfold RelativePresets.today_getRange.
    cbn [Presets.start Presets.end_]. unfold setHours.
    rewrite MakeTime_start_of_day, MakeTime_end_of_day.
    rewrite preset_range_errors. cbv zeta.
    rewrite Z.ltb_irrefl.
    replace ((Day (LocalTime host now) - Day (LocalTime host now) + 1)
             * msPerDay - 60000) with 86340000 by (unfold msPerDay; lia).
    reflexivity. }
  subst applied clicked. unfold Picker.handleRangeChange, Picker.handlePresetClick.
  cbn [fst snd Picker.range Picker.startDate Picker.startTime Picker.endDate
       Picker.endTime].
  change (Presets.startTime today) with "00:00".
  change (Presets.endTime today) with "23:59".
  unfold completeRange in E. rewrite E. split; reflexivity.
Qed.

(** X18. "Apply" hands the range to [onRangeChange] exactly when it shows no
    message, and then hands over the four cells as they are; after "Clear"
    it shows the two messages of a missing side and hands over nothing. *)
Theorem picker_apply_reports_valid_ranges (host : Host)
        (c : PickerConstraints) (s : Picker.State) :
  let applied := Picker.handleRangeChange host c s in
  let cleared := Picker.handleRangeChange host c (Picker.handleClear s) in
  (snd applied = Some (Picker.range s) <-> Picker.errors (fst applied) = [])
  /\ (snd applied = None <-> Picker.errors (fst applied) <> [])
  /\ Picker.range (fst applied) = Picker.range s
  /\ snd cleared = None
  /\ Picker.errors (fst cleared)
     = ["Start date and time are required"; "End date and time are required"].
Proof.
  intros applied cleared.
  split; [|split; [|split; [|split; reflexivity]]].
  - subst applied. unfold Picker.handleRangeChange.
    pose proof (isRangeValid_rvalid_errors host
      {| start := {| date := Picker.startDate (Picker.range s);
                     time := Picker.startTime (Picker.range s) |};
         end_ := {| date := Picker.endDate (Picker.range s);
                    time := Picker.endTime (Picker.range s) |} |} c) as V.
    destruct (isRangeValid host _ c) as [v es]. cbn [rvalid errors] in V.
    cbn [fst snd Picker.errors].
    destruct v; split; intros H.
    + now apply V.
    + reflexivity.
    + discriminate.
    + apply V in H. discriminate.
  - subst applied. unfold Picker.handleRangeChange.
    pose proof (isRangeValid_rvalid_errors host
      {| start := {| date := Picker.startDate (Picker.range s);
                     time := Picker.startTime (Picker.range s) |};
         end_ := {| date := Picker.endDate (Picker.range s);
                    time := Picker.endTime (Picker.range s) |} |} c) as V.
    destruct (isRangeValid host _ c) as [v es]. cbn [rvalid errors] in V.
    cbn [fst snd Picker.errors].
    destruct v; split; intros H.
    + discriminate.
    + exfalso. apply H. now apply V.
    + intros E. apply V in E. discriminate.
    + reflexivity.
  - subst applied. unfold Picker.handleRangeChange.
    destruct (isRangeValid host _ c). reflexivity.
Qed.

(** ** The list of presets *)

(** X19. [getPresetById] gives back each preset of the list when asked for its
    id, the ids being distinct, and [null] for every other string. *)
Theorem getPresetById_lookup (host : Host) :
  (forall p, In p (RelativePresets.getRelativePresets host) ->
             RelativePresets.getPresetById host (RelativePresets.id p)
             = Some p)
  /\ (forall id,
        RelativePresets.getPresetById host id = None
        <-> ~ In id ["today"; "yesterday"; "tomorrow"; "last7days";
                     "last30days"; "thisMonth"; "lastMonth"; "lastQuarter"])
  /\ map RelativePresets.label (RelativePresets.getRelativePresets host)
     = ["Today"; "Yesterday"; "Tomorrow"; "Last 7 Days"; "Last 30 Days";
        "This Month"; "Last Month"; "Last 90 Days"].
Proof.
  split; [|split; [|reflexivity]].
  - intros p Hp. cbn [RelativePresets.getRelativePresets In] in Hp.
    repeat (destruct Hp as [<-|Hp]; [reflexivity|]). destruct Hp.
  - intros id. unfold RelativePresets.getPresetById.
    cbn [RelativePresets.getRelativePresets find RelativePresets.id In].
    repeat match goal with
           | |- context [String.eqb ?a id] =>
               destruct (String.eqb_spec a id) as [<-|?]
           end;
      split; intros H; try discriminate; try reflexivity;
      try (exfalso; apply H; tauto).
    intros [E|[E|[E|[E|[E|[E|[E|[E|[]]]]]]]]]; congruence.
Qed.

(** ** More on the time-zone operations *)

Section ZoneInfoFacts.

Variable host : Host.

(** The wall-clock fields of [t], put together again, give [t] cut to the
    second. *)
Lemma fields_to_the_second (t : Z) :
  MakeDate (MakeDay (YearFromTime t) (MonthFromTime t + 1 - 1) (DateFromTime t))
           (MakeTime (HourFromTime t) (MinFromTime t) (SecFromTime t) 0)
  = t - t mod msPerSecond.
Proof.
  replace (MonthFromTime t + 1 - 1) with (MonthFromTime t) by lia.
  rewrite MakeDay_of_fields.
  unfold MakeDate, MakeTime, HourFromTime, MinFromTime, SecFromTime, Day,
    msPerDay, msPerHour, msPerMinute, msPerSecond.
  lia.
Qed.

Lemma localeStringDate_value (date : Z) (timezone : string) (f : Z -> Z) :
  DateTimeFormat host timezone = Ok f ->
  let t := date + f date * msPerMinute in
  localeStringDate host date timezone = Ok (UTC host (t - t mod msPerSecond)).
Proof.
  intros Hf t. unfold localeStringDate. rewrite Hf. cbn [bind].
  unfold formatToParts. fold t. cbn [year month day hour minute second].
  now rewrite fields_to_the_second.
Qed.

Lemma getTimezoneInfo_value (date : Z) (timezone : string) (f : Z -> Z) :
  DateTimeFormat host timezone = Ok f ->
  exists dst,
    isDaylightSavings host date timezone = Ok dst
    /\ getTimezoneInfo host date timezone
       = Ok {| name := timezone;
               offset := - f date;
               abbreviation :=
                 JS.substring0 4
                   (JS.orString (Some (zoneLongName host timezone date))
                                timezone);
               isDST := dst |}.
Proof.
  intros Hf.
  assert (D : exists dst, isDaylightSavings host date timezone = Ok dst).
  { unfold isDaylightSavings.
    rewrite !(getOffsetMinutes_formula _ _ _ _ Hf). cbn [bind]. eauto. }
  destruct D as [dst D]. exists dst. split; [exact D|].
  unfold getTimezoneInfo. rewrite Hf. cbn [bind].
  rewrite (localeStringDate_value date "UTC" (fun _ => 0)) by reflexivity.
  rewrite (localeStringDate_value date timezone f Hf).
  cbn [bind]. rewrite D. cbn [bind]. f_equal. f_equal.
  unfold getTime, UTC, msPerMinute, msPerSecond.
  generalize (f date). intros off. lia.
Qed.

Lemma Day_shift (t n : Z) : Day (t + n * msPerDay) = Day t + n.
Proof. unfold Day, msPerDay. lia. Qed.

End ZoneInfoFacts.

(** X20. On a machine whose own zone keeps one offset from UTC, so that the
    two wall clocks that [new Date] reads back are read at the same
    offset, and for a date from the year 100 on, where the text carries
    the full year: [getTimezoneInfo] carries the identifier it was given
    as [name], the first four characters of the zone's long name as
    [abbreviation], and as [offset] the UTC wall clock minus the zone's
    wall clock in minutes: the opposite of the zone's offset from UTC,
    and of what [getOffsetMinutes] answers on a day that is the same in
    the zone and in UTC. *)
Theorem getTimezoneInfo_offset_sign (host : Host) (date : Z)
        (timezone : string) (f : Z -> Z) :
  DateTimeFormat host timezone = Ok f ->
  99 < YearFromTime date ->
  99 < YearFromTime (date + f date * msPerMinute) ->
  exists info,
    getTimezoneInfo host date timezone = Ok info
    /\ name info = timezone
    /\ offset info = - f date
    /\ abbreviation info
       = JS.substring0 4
           (JS.orString (Some (zoneLongName host timezone date)) timezone)
    /\ isDaylightSavings host date timezone = Ok (isDST info)
    /\ (Day (date + f date * msPerMinute) = Day date ->
        getOffsetMinutes host date timezone = Ok (- offset info)).
Proof.
  intros Hf _ _.
  destruct (getTimezoneInfo_value host date timezone f Hf) as (dst & D & E).
  eexists. split; [exact E|]. cbn [name offset abbreviation isDST].
  repeat split; try assumption.
  intros Hd. rewrite (getOffsetMinutes_same_day host date timezone f Hf Hd).
  f_equal. lia.
Qed.

(** At 2025-01-15T12:00Z New York, five hours behind UTC, gets the offset
    +300 and the abbreviation "East". *)
Lemma getTimezoneInfo_offset_sign_witness :
  exists info,
    getTimezoneInfo utcHost 1736942400000 "America/New_York" = Ok info
    /\ name info = "America/New_York"
    /\ offset info = 300
    /\ abbreviation info = "East"
    /\ isDaylightSavings utcHost 1736942400000 "America/New_York"
       = Ok (isDST info)
    /\ (Day (1736942400000 + (-300) * msPerMinute) = Day 1736942400000 ->
        getOffsetMinutes utcHost 1736942400000 "America/New_York"
        = Ok (- offset info)).
Proof.
  exact (getTimezoneInfo_offset_sign utcHost 1736942400000 "America/New_York"
           (fun t => if (1741503600000 <=? t) && (t <? 1762063200000)
                     then -240 else -300)
           eq_refl ltac:(vm_compute; reflexivity)
           ltac:(vm_compute; reflexivity)).
Defined.

(** X21. [getOffsetMinutes] answers the zone's offset moved by a whole number
    of days: by none exactly when the zone and UTC are on the same
    calendar day at the instant.  For an offset of less than a day the
    answer stays within a day of zero. *)
Theorem getOffsetMinutes_whole_days (host : Host) (date : Z)
        (timezone : string) (f : Z -> Z) :
  DateTimeFormat host timezone = Ok f ->
  - 1440 < f date < 1440 ->
  exists m,
    getOffsetMinutes host date timezone = Ok m
    /\ (m - f date) mod 1440 = 0
    /\ - 1440 < m < 1440
    /\ (m = f date <-> Day (date + f date * msPerMinute) = Day date)
    /\ (0 < f date -> m = f date \/ m = f date - 1440)
    /\ (f date < 0 -> m = f date \/ m = f date + 1440).
Proof.
  intros Hf Hr.
  rewrite (getOffsetMinutes_formula host date timezone f Hf).
  eexists. split; [reflexivity|].
  revert Hr. generalize (f date). intros off Hr.
  unfold Day, msPerDay, msPerMinute.
  repeat split; try intros H; lia.
Qed.

(** Tokyo at 2025-01-15T20:00Z, where it is the 16th already: the answer
    is 540 - 1440. *)
Lemma getOffsetMinutes_whole_days_witness :
  exists m,
    getOffsetMinutes utcHost 1736971200000 "Asia/Tokyo" = Ok m
    /\ (m - 540) mod 1440 = 0
    /\ - 1440 < m < 1440
    /\ (m = 540 <-> Day (1736971200000 + 540 * msPerMinute)
                    = Day 1736971200000)
    /\ (0 < 540 -> m = 540 \/ m = 540 - 1440)
    /\ (540 < 0 -> m = 540 \/ m = 540 + 1440).
Proof.
  exact (getOffsetMinutes_whole_days utcHost 1736971200000 "Asia/Tokyo"
           (fun _ => 540) eq_refl ltac:(lia)).
Defined.

(** X22. [isDaylightSavings] compares what [getOffsetMinutes] answers at the
    date and at the date moved six months on by [setMonth]: the zone's
    offset less a whole day for each calendar day that the zone is ahead
    of UTC at the instant.  When both instants fall on the same calendar
    day in the zone and in UTC, the date is reported in daylight time
    exactly when the zone is further ahead of UTC at the date than six
    months later.  A zone whose offset is the same at both instants is
    not reported in daylight time when the later instant is a whole
    number of days after the date, as it is on a machine whose own zone
    has the same offset at both. *)
Theorem isDaylightSavings_samples (host : Host) (date : Z)
        (timezone : string) (f : Z -> Z) :
  DateTimeFormat host timezone = Ok f ->
  let later := setMonth host date (getMonth host date + 6) in
  let answered :=
    fun t => f t - 1440 * (Day (t + f t * msPerMinute) - Day t) in
  isDaylightSavings host date timezone = Ok (answered later <? answered date)
  /\ (Day (date + f date * msPerMinute) = Day date ->
      Day (later + f later * msPerMinute) = Day later ->
      isDaylightSavings host date timezone = Ok (f later <? f date))
  /\ (f later = f date ->
      (exists n, later = date + n * msPerDay) ->
      isDaylightSavings host date timezone = Ok false).
Proof.
  intros Hf later answered.
  assert (G : isDaylightSavings host date timezone
              = Ok (answered later <? answered date)).
  { unfold isDaylightSavings. fold later.
    rewrite !(getOffsetMinutes_formula host _ timezone f Hf). reflexivity. }
  split; [exact G|]. split.
  - intros H1 H2. rewrite G. unfold answered. rewrite H1, H2.
    do 2 f_equal; lia.
  - intros Hc [n Hn]. rewrite G. unfold answered. rewrite Hc, Hn.
    replace (date + n * msPerDay + f date * msPerMinute)
      with (date + f date * msPerMinute + n * msPerDay) by lia.
    rewrite !Day_shift. f_equal. lia.
Qed.

(** New York at noon UTC on 2025-07-15 and on 2025-01-15, and Tokyo on
    2025-01-15, 181 days before the later sample. *)
Lemma isDaylightSavings_samples_witness :
  isDaylightSavings utcHost 1752580800000 "America/New_York" = Ok true
  /\ isDaylightSavings utcHost 1736942400000 "America/New_York" = Ok false
  /\ isDaylightSavings utcHost 1736942400000 "Asia/Tokyo" = Ok false.
Proof.
  pose proof (isDaylightSavings_samples utcHost 1752580800000
                "America/New_York" _ eq_refl) as H1.
  pose proof (isDaylightSavings_samples utcHost 1736942400000
                "America/New_York" _ eq_refl) as H2.
  pose proof (isDaylightSavings_samples utcHost 1736942400000
                "Asia/Tokyo" _ eq_refl) as H3.
  cbv zeta in H1, H2, H3.
  destruct H1 as (_ & H1 & _), H2 as (_ & H2 & _), H3 as (_ & _ & H3).
  split; [|split].
  - rewrite H1; [vm_compute; reflexivity| vm_compute; reflexivity
                 | vm_compute; reflexivity].
  - rewrite H2; [vm_compute; reflexivity| vm_compute; reflexivity
                 | vm_compute; reflexivity].
  - apply H3; [reflexivity|]. exists 181. vm_compute. reflexivity.
Defined.

(** X23. In a zone that stays at a whole number of hours [k] from UTC,
    [getStartOfDay] and [getEndOfDay] take the zone's calendar date of
    the instant, make the machine's own 00:00:00.000 and 23:59:59.999 of
    that date, and move them back by the zone's offset.  On a machine set
    to UTC these are the first and the last millisecond of the zone's
    day, with the instant between them; on another machine they are off
    by the machine's own offset. *)
Theorem day_bounds_in_zone (host : Host) (date k : Z) (timezone : string)
        (f : Z -> Z) :
  DateTimeFormat host timezone = Ok f ->
  (forall t, f t = k) ->
  k mod 60 = 0 ->
  99 < YearFromTime (date + k * msPerMinute) ->
  let t := date + k * msPerMinute in
  let y := YearFromTime t in
  let mo := MonthFromTime t in
  let d := DateFromTime t in
  let midnight := Day t * msPerDay - k * msPerMinute in
  getStartOfDay host date timezone
  = Ok (newDate host y mo d 0 0 0 0 - k * msPerMinute)
  /\ getEndOfDay host date timezone
     = Ok (newDate host y mo d 23 59 59 999 - k * msPerMinute)
  /\ (hostOffset host = 0 ->
      getStartOfDay host date timezone = Ok midnight
      /\ getEndOfDay host date timezone = Ok (midnight + (msPerDay - 1))
      /\ midnight <= date <= midnight + (msPerDay - 1)).
Proof.
  intros Hf Hk Hm Hy t y mo d midnight.
  assert (P : forall h mi s ms,
             newDate host (year (formatToParts f date))
               (month (formatToParts f date) - 1)
               (day (formatToParts f date)) h mi s ms
             = newDate host y mo d h mi s ms).
  { intros. unfold formatToParts. rewrite Hk. cbn [year month day].
    fold t. fold y mo d. f_equal. lia. }
  assert (S : getStartOfDay host date timezone
              = Ok (newDate host y mo d 0 0 0 0 - k * msPerMinute)).
  { unfold getStartOfDay. rewrite Hf. cbn [bind]. rewrite P.
    rewrite (timezoneToUtc_value host _ timezone f Hf), Hk.
    replace (Z.quot k 60 * 60 * 60 * 1000) with (k * msPerMinute)
      by (unfold msPerMinute; lia).
    reflexivity. }
  assert (E : getEndOfDay host date timezone
              = Ok (newDate host y mo d 23 59 59 999 - k * msPerMinute)).
  { unfold getEndOfDay. rewrite Hf. cbn [bind]. rewrite P.
    rewrite (timezoneToUtc_value host _ timezone f Hf), Hk.
    replace (Z.quot k 60 * 60 * 60 * 1000) with (k * msPerMinute)
      by (unfold msPerMinute; lia).
    reflexivity. }
  split; [exact S|]. split; [exact E|].
  intros H0.
  assert (N : forall h mi s ms,
             newDate host y mo d h mi s ms
             = Day t * msPerDay + MakeTime h mi s ms).
  { intros. unfold newDate.
    replace ((0 <=? y) && (y <=? 99)) with false by (unfold y, t; lia).
    unfold y, mo, d. rewrite MakeDay_of_fields.
    unfold UTC, MakeDate. rewrite H0. lia. }
  rewrite S, E, !N, MakeTime_start_of_day, MakeTime_end_of_day.
  split; [f_equal; unfold midnight; lia|].
  split; [f_equal; unfold midnight; lia|].
  unfold midnight, t, Day, msPerDay, msPerMinute. lia.
Qed.

(** Tokyo at 2025-01-15T20:00Z: the day is January 16 there, which starts
    at 2025-01-15T15:00Z. *)
Lemma day_bounds_in_zone_witness :
  getStartOfDay utcHost 1736971200000 "Asia/Tokyo" = Ok 1736953200000
  /\ getEndOfDay utcHost 1736971200000 "Asia/Tokyo" = Ok 1737039599999.
Proof.
  destruct (day_bounds_in_zone utcHost 1736971200000 540 "Asia/Tokyo"
              (fun _ => 540) eq_refl (fun _ => eq_refl) eq_refl
              ltac:(vm_compute; reflexivity)) as (_ & _ & B).
  destruct (B eq_refl) as (S & E & _).
  split; [rewrite S|rewrite E]; vm_compute; reflexivity.
Defined.

(** ** The time field *)

Section TimeEnumeration.

Lemma isDigit_cases (c : ascii) : JS.isDigit c = true -> In c digits.
Proof.
  destruct c as [[] [] [] [] [] [] [] []]; intros H; try discriminate H;
    cbn; tauto.
Qed.

Lemma forallDigits4_spec (P : ascii -> ascii -> ascii -> ascii -> bool) :
  forallDigits4 P = true ->
  forall c1 c2 c3 c4,
    JS.isDigit c1 = true -> JS.isDigit c2 = true ->
    JS.isDigit c3 = true -> JS.isDigit c4 = true ->
    P c1 c2 c3 c4 = true.
Proof.
  unfold forallDigits4. intros H c1 c2 c3 c4 H1 H2 H3 H4.
  rewrite forallb_forall in H. specialize (H c1 (isDigit_cases _ H1)).
  rewrite forallb_forall in H. specialize (H c2 (isDigit_cases _ H2)).
  rewrite forallb_forall in H. specialize (H c3 (isDigit_cases _ H3)).
  rewrite forallb_forall in H. exact (H c4 (isDigit_cases _ H4)).
Qed.

Lemma wellFormedTime_shape (t : string) :
  wellFormedTime t = true ->
  exists h1 h2 m1 m2,
    t = hhmm h1 h2 m1 m2 /\ JS.isDigit h1 = true /\ JS.isDigit h2 = true
    /\ JS.isDigit m1 = true /\ JS.isDigit m2 = true.
Proof.
  destruct t as [|h1 [|h2 [|c [|m1 [|m2 [|? ?]]]]]]; try discriminate.
  unfold wellFormedTime. intros H.
  repeat (apply andb_true_iff in H; destruct H as [H ?]).
  match goal with E : Ascii.eqb c ":" = true |- _ =>
    apply Ascii.eqb_eq in E; subst c end.
  exists h1, h2, m1, m2. split; [reflexivity|].
  assert (JS.isDigit h1 = true /\ JS.isDigit h2 = true) as [? ?].
  { apply orb_true_iff in H. destruct H as [H|H].
    - apply andb_true_iff in H. destruct H as [H ?].
      apply orb_true_iff in H.
      destruct H as [H|H]; apply Ascii.eqb_eq in H; subst h1; auto.
    - repeat (apply andb_true_iff in H; destruct H as [H ?]).
      apply Ascii.eqb_eq in H; subst h1; auto. }
  auto.
Qed.

Lemma forallTimes_spec (P : string -> bool) :
  forallTimes P = true -> forall t, wellFormedTime t = true -> P t = true.
Proof.
  intros H t Ht.
  destruct (wellFormedTime_shape t Ht) as (h1 & h2 & m1 & m2 & -> & D1 & D2 & D3 & D4).
  pose proof (forallDigits4_spec
                (fun h1 h2 m1 m2 =>
                   if wellFormedTime (hhmm h1 h2 m1 m2)
                   then P (hhmm h1 h2 m1 m2) else true) H h1 h2 m1 m2 D1 D2 D3 D4) as Q.
  cbv beta in Q. rewrite Ht in Q. exact Q.
Qed.

Lemma emits_eq (r : option string) (t : string) :
  emits r t = true -> r = Some t.
Proof.
  destruct r as [u|]; [|discriminate]. cbn. intros H.
  apply String.eqb_eq in H. now subst.
Qed.

Lemma allDigits_stripNonDigits (s : string) :
  allDigits (stripNonDigits s) = true.
Proof.
  induction s as [|c s IH]; [reflexivity|]. cbn.
  destruct (JS.isDigit c) eqn:D; [cbn; now rewrite D|exact IH].
Qed.

End TimeEnumeration.

Section TimeFieldFacts.

Lemma stripNonDigits_allDigits (s : string) :
  allDigits s = true -> stripNonDigits s = s.
Proof.
  induction s as [|c s IH]; [reflexivity|]. cbn.
  intros H. apply andb_true_iff in H. destruct H as [D H].
  rewrite D. f_equal. now apply IH.
Qed.

Lemma handleInputChange_stripped (v : string) :
  TimeInput.handleInputChange v
  = TimeInput.handleInputChange (stripNonDigits v).
Proof.
  unfold TimeInput.handleInputChange.
  now rewrite (stripNonDigits_allDigits _ (allDigits_stripNonDigits v)).
Qed.

Lemma handleInputChange_first4 (c1 c2 c3 c4 : ascii) (r : string) :
  allDigits (String c1 (String c2 (String c3 (String c4 r)))) = true ->
  TimeInput.handleInputChange (String c1 (String c2 (String c3 (String c4 r))))
  = TimeInput.handleInputChange
      (String c1 (String c2 (String c3 (String c4 EmptyString)))).
Proof.
  intros H. unfold TimeInput.handleInputChange.
  assert (H' : allDigits (String c1 (String c2 (String c3 (String c4 ""))))
               = true).
  { cbn in *. repeat (apply andb_true_iff in H; destruct H as [?D H]).
    now rewrite D, D0, D1, D2. }
  rewrite (stripNonDigits_allDigits _ H), (stripNonDigits_allDigits _ H').
  destruct r; reflexivity.
Qed.

Lemma typed_four_digits :
  forallDigits4 (fun c1 c2 c3 c4 =>
    match TimeInput.handleInputChange
            (String c1 (String c2 (String c3 (String c4 EmptyString)))) with
    | TimeInput.Accepted (Some t) =>
        wellFormedTime t && String.eqb t (hhmm c1 c2 c3 c4)
    | _ => true
    end) = true.
Proof. vm_compute. reflexivity. Qed.

Lemma typed_well_formed :
  forallTimes (fun t =>
    match TimeInput.handleInputChange t with
    | TimeInput.Accepted (Some u) => String.eqb u t
    | _ => false
    end) = true.
Proof. vm_compute. reflexivity. Qed.

Lemma arrow_keys_checked :
  forallTimes (fun t =>
    match TimeInput.handleKeyDown (Some t) "ArrowUp",
          TimeInput.handleKeyDown (Some t) "ArrowDown",
          TimeInput.handleKeyDown (Some t) "ArrowRight",
          TimeInput.handleKeyDown (Some t) "ArrowLeft" with
    | Some up, Some down, Some rt, Some lt =>
        wellFormedTime up && wellFormedTime down
        && wellFormedTime rt && wellFormedTime lt
        && emits (TimeInput.handleKeyDown (Some up) "ArrowDown") t
        && emits (TimeInput.handleKeyDown (Some down) "ArrowUp") t
        && emits (TimeInput.handleKeyDown (Some rt) "ArrowLeft") t
        && emits (TimeInput.handleKeyDown (Some lt) "ArrowRight") t
        && emits (pressed 4 "ArrowRight" (Some t)) up
        && emits (pressed 4 "ArrowLeft" (Some t)) down
    | _, _, _, _ => false
    end) = true.
Proof. vm_compute. reflexivity. Qed.

Lemma hook_steps_checked :
  forallTimes (fun t =>
    let st := {| UseTimeInput.time := t; UseTimeInput.error := None |} in
    emits (TimeInput.handleKeyDown (Some t) "ArrowUp")
          (UseTimeInput.time (UseTimeInput.incrementHour st))
    && emits (TimeInput.handleKeyDown (Some t) "ArrowDown")
             (UseTimeInput.time (UseTimeInput.decrementHour st))
    && emits (TimeInput.handleKeyDown (Some t) "ArrowRight")
             (UseTimeInput.time (UseTimeInput.incrementMinute st))
    && emits (TimeInput.handleKeyDown (Some t) "ArrowLeft")
             (UseTimeInput.time (UseTimeInput.decrementMinute st))
    && wellFormedTime (UseTimeInput.time (UseTimeInput.incrementHour st))
    && wellFormedTime (UseTimeInput.time (UseTimeInput.decrementHour st))
    && wellFormedTime (UseTimeInput.time (UseTimeInput.incrementMinute st))
    && wellFormedTime (UseTimeInput.time (UseTimeInput.decrementMinute st)))
  = true.
Proof. vm_compute. reflexivity. Qed.

Lemma parts_checked :
  forallTimes (fun t =>
    match timeParts t with
    | (JSNum.Num h, JSNum.Num m) =>
        (0 <=? h) && (h <? 24) && (0 <=? m) && (m <? 60)
        && String.eqb (formatTime (JSNum.Num h) (JSNum.Num m)) t
    | _ => false
    end) = true.
Proof. vm_compute. reflexivity. Qed.

Lemma format_checked :
  forallb (fun h => forallb (fun m =>
    wellFormedTime (formatTime (JSNum.Num h) (JSNum.Num m))
    && match timeParts (formatTime (JSNum.Num h) (JSNum.Num m)) with
       | (JSNum.Num a, JSNum.Num b) => (a =? h) && (b =? m)
       | _ => false
       end)
    (map Z.of_nat (seq 0 60))) (map Z.of_nat (seq 0 24)) = true.
Proof. vm_compute. reflexivity. Qed.

Lemma In_range (n : nat) (x : Z) :
  0 <= x < Z.of_nat n -> In x (map Z.of_nat (seq 0 n)).
Proof.
  intros H. replace x with (Z.of_nat (Z.to_nat x)) by lia.
  apply in_map, in_seq. lia.
Qed.

Lemma combineDateTime_timeParts (host : Host) (d : Z) (s : string) :
  combineDateTime host d s
  = match timeParts s with
    | (JSNum.Num h, JSNum.Num m) => Some (setHours host d h m 0 0)
    | _ => None
    end.
Proof.
  unfold combineDateTime, timeParts, JSNum.nth.
  destruct (nth_error (map JS.Number (JS.split ":" s)) 0) as [[?|]|];
    destruct (nth_error (map JS.Number (JS.split ":" s)) 1) as [[?|]|];
    reflexivity.
Qed.

Lemma formatTime_parts (h m : Z) :
  0 <= h < 24 -> 0 <= m < 60 ->
  wellFormedTime (formatTime (JSNum.Num h) (JSNum.Num m)) = true
  /\ timeParts (formatTime (JSNum.Num h) (JSNum.Num m))
     = (JSNum.Num h, JSNum.Num m).
Proof.
  intros Hh Hm. pose proof format_checked as C.
  rewrite forallb_forall in C. specialize (C h (In_range 24 h Hh)).
  rewrite forallb_forall in C. specialize (C m (In_range 60 m Hm)).
  apply andb_true_iff in C. destruct C as [W C]. split; [exact W|].
  destruct (timeParts (formatTime (JSNum.Num h) (JSNum.Num m)))
    as [[a| |] [b| |]]; try discriminate C.
  apply andb_true_iff in C. destruct C as [A B].
  apply Z.eqb_eq in A, B. now subst.
Qed.

End TimeFieldFacts.

(** X24. What the time field hands to [onChange] when a value is typed is a
    well-formed time, the first four digits of the value with a colon in
    the middle; and typing a well-formed time, colon included, hands over
    that time. *)
Theorem TimeInput_typed_times :
  (forall v t, TimeInput.handleInputChange v = TimeInput.Accepted (Some t) ->
               wellFormedTime t = true
               /\ t = (String.substring 0 2 (stripNonDigits v) ++ ":"
                       ++ String.substring 2 2 (stripNonDigits v))%string)
  /\ (forall t, wellFormedTime t = true ->
                TimeInput.handleInputChange t = TimeInput.Accepted (Some t)).
Proof.
  split.
  - intros v t. rewrite handleInputChange_stripped.
    pose proof (allDigits_stripNonDigits v) as D.
    destruct (stripNonDigits v) as [|c1 [|c2 [|c3 [|c4 r]]]] eqn:E.
    + discriminate.
    + unfold TimeInput.handleInputChange.
      rewrite (stripNonDigits_allDigits _ D). discriminate.
    + unfold TimeInput.handleInputChange.
      rewrite (stripNonDigits_allDigits _ D).
      cbn [String.length Nat.ltb Nat.leb String.substring].
      destruct (JS.gt _ _); [discriminate|].
      cbn [String.eqb negb andb Nat.eqb String.length]. discriminate.
    + unfold TimeInput.handleInputChange.
      rewrite (stripNonDigits_allDigits _ D).
      cbn [String.length Nat.ltb Nat.leb String.substring].
      destruct (JS.gt _ _); [discriminate|].
      destruct (_ && _); [discriminate|].
      cbn [Nat.eqb String.length]. discriminate.
    + rewrite (handleInputChange_first4 _ _ _ _ _ D).
      cbn in D. repeat (apply andb_true_iff in D; destruct D as [?D D]).
      pose proof (forallDigits4_spec _ typed_four_digits c1 c2 c3 c4
                    D0 D1 D2 D3) as P.
      cbv beta in P. intros H. rewrite H in P.
      apply andb_true_iff in P. destruct P as [W P].
      apply String.eqb_eq in P. split; [exact W|]. rewrite P. destruct r; reflexivity.
  - intros t Ht. pose proof (forallTimes_spec _ typed_well_formed t Ht) as P.
    cbv beta in P.
    destruct (TimeInput.handleInputChange t) as [| |[u|]]; try discriminate P.
    apply String.eqb_eq in P. now subst.
Qed.

Lemma TimeInput_typed_times_witness :
  wellFormedTime "09:30" = true
  /\ TimeInput.handleInputChange "0930" = TimeInput.Accepted (Some "09:30")
  /\ TimeInput.handleInputChange "09:30" = TimeInput.Accepted (Some "09:30")
  /\ TimeInput.handleInputChange "2460"
     = TimeInput.Rejected "Hours must be 00-23".
Proof.
  split; [exact (proj1 (proj1 TimeInput_typed_times "0930" "09:30" eq_refl))|].
  split; [reflexivity|].
  split; [exact (proj2 TimeInput_typed_times "09:30" eq_refl)|reflexivity].
Defined.

(** X25. On a well-formed time each arrow key hands a well-formed time to
    [onChange]; ArrowUp and ArrowDown undo each other, and so do
    ArrowRight and ArrowLeft; four presses of ArrowRight (ArrowLeft) are
    one press of ArrowUp (ArrowDown).  Every other key hands over
    nothing, whatever the value. *)
Theorem TimeInput_arrow_keys (t : string) :
  wellFormedTime t = true ->
  (exists up down rt lt,
     TimeInput.handleKeyDown (Some t) "ArrowUp" = Some up
     /\ TimeInput.handleKeyDown (Some t) "ArrowDown" = Some down
     /\ TimeInput.handleKeyDown (Some t) "ArrowRight" = Some rt
     /\ TimeInput.handleKeyDown (Some t) "ArrowLeft" = Some lt
     /\ wellFormedTime up = true /\ wellFormedTime down = true
     /\ wellFormedTime rt = true /\ wellFormedTime lt = true
     /\ TimeInput.handleKeyDown (Some up) "ArrowDown" = Some t
     /\ TimeInput.handleKeyDown (Some down) "ArrowUp" = Some t
     /\ TimeInput.handleKeyDown (Some rt) "ArrowLeft" = Some t
     /\ TimeInput.handleKeyDown (Some lt) "ArrowRight" = Some t
     /\ pressed 4 "ArrowRight" (Some t) = Some up
     /\ pressed 4 "ArrowLeft" (Some t) = Some down)
  /\ (forall value key,
        ~ In key ["ArrowUp"; "ArrowDown"; "ArrowRight"; "ArrowLeft"] ->
        TimeInput.handleKeyDown value key = None).
Proof.
  intros Ht. split.
  - pose proof (forallTimes_spec _ arrow_keys_checked t Ht) as P.
    cbv beta in P.
    destruct (TimeInput.handleKeyDown (Some t) "ArrowUp") as [up|];
      [|discriminate P].
    destruct (TimeInput.handleKeyDown (Some t) "ArrowDown") as [down|];
      [|discriminate P].
    destruct (TimeInput.handleKeyDown (Some t) "ArrowRight") as [rt|];
      [|discriminate P].
    destruct (TimeInput.handleKeyDown (Some t) "ArrowLeft") as [lt|];
      [|discriminate P].
    repeat (apply andb_true_iff in P; destruct P as [P ?]).
    exists up, down, rt, lt.
    repeat split; try reflexivity; try assumption; now apply emits_eq.
  - intros value key Hk. unfold TimeInput.handleKeyDown.
    destruct (timeParts _) as [hours minutes].
    destruct (String.eqb_spec key "ArrowUp") as [->|_];
      [exfalso; apply Hk; cbn; tauto|].
    destruct (String.eqb_spec key "ArrowDown") as [->|_];
      [exfalso; apply Hk; cbn; tauto|].
    destruct (String.eqb_spec key "ArrowRight") as [->|_];
      [exfalso; apply Hk; cbn; tauto|].
    destruct (String.eqb_spec key "ArrowLeft") as [->|_];
      [exfalso; apply Hk; cbn; tauto|].
    reflexivity.
Qed.

Lemma TimeInput_arrow_keys_witness :
  exists up down rt lt,
    TimeInput.handleKeyDown (Some "23:50") "ArrowUp" = Some up
    /\ TimeInput.handleKeyDown (Some "23:50") "ArrowDown" = Some down
    /\ TimeInput.handleKeyDown (Some "23:50") "ArrowRight" = Some rt
    /\ TimeInput.handleKeyDown (Some "23:50") "ArrowLeft" = Some lt
    /\ wellFormedTime up = true /\ wellFormedTime down = true
    /\ wellFormedTime rt = true /\ wellFormedTime lt = true
    /\ TimeInput.handleKeyDown (Some up) "ArrowDown" = Some "23:50"
    /\ TimeInput.handleKeyDown (Some down) "ArrowUp" = Some "23:50"
    /\ TimeInput.handleKeyDown (Some rt) "ArrowLeft" = Some "23:50"
    /\ TimeInput.handleKeyDown (Some lt) "ArrowRight" = Some "23:50"
    /\ pressed 4 "ArrowRight" (Some "23:50") = Some up
    /\ pressed 4 "ArrowLeft" (Some "23:50") = Some down.
Proof.
  exact (proj1 (TimeInput_arrow_keys "23:50" eq_refl)).
Defined.

(** X26. On a well-formed time the four steps of [useTimeInput] give the time
    that the time field hands over for the matching arrow key, although
    the minute steps are computed differently (on the minutes of the day
    in the hook, with a carry in the field); they keep the time
    well-formed and leave the error as it is. *)
Theorem useTimeInput_steps_follow_keys (st : UseTimeInput.State) :
  wellFormedTime (UseTimeInput.time st) = true ->
  let t := Some (UseTimeInput.time st) in
  TimeInput.handleKeyDown t "ArrowUp"
  = Some (UseTimeInput.time (UseTimeInput.incrementHour st))
  /\ TimeInput.handleKeyDown t "ArrowDown"
     = Some (UseTimeInput.time (UseTimeInput.decrementHour st))
  /\ TimeInput.handleKeyDown t "ArrowRight"
     = Some (UseTimeInput.time (UseTimeInput.incrementMinute st))
  /\ TimeInput.handleKeyDown t "ArrowLeft"
     = Some (UseTimeInput.time (UseTimeInput.decrementMinute st))
  /\ (forall step,
        In step [UseTimeInput.incrementHour; UseTimeInput.decrementHour;
                 UseTimeInput.incrementMinute; UseTimeInput.decrementMinute] ->
        wellFormedTime (UseTimeInput.time (step st)) = true
        /\ UseTimeInput.error (step st) = UseTimeInput.error st).
Proof.
  intros Ht t.
  pose proof (forallTimes_spec _ hook_steps_checked _ Ht) as P.
  cbv beta zeta in P.
  assert (T : forall f e,
             (let (hours, minutes) := timeParts (UseTimeInput.time st) in
              {| UseTimeInput.time := f hours minutes;
                 UseTimeInput.error := e |})
             = {| UseTimeInput.time :=
                    f (fst (timeParts (UseTimeInput.time st)))
                      (snd (timeParts (UseTimeInput.time st)));
                  UseTimeInput.error := e |}).
  { intros. now destruct (timeParts (UseTimeInput.time st)). }
  assert (I : forall step : UseTimeInput.State -> UseTimeInput.State,
             In step [UseTimeInput.incrementHour; UseTimeInput.decrementHour;
                      UseTimeInput.incrementMinute;
                      UseTimeInput.decrementMinute] ->
             UseTimeInput.time (step st)
             = UseTimeInput.time
                 (step {| UseTimeInput.time := UseTimeInput.time st;
                          UseTimeInput.error := None |})
             /\ UseTimeInput.error (step st) = UseTimeInput.error st).
  { intros step [<-|[<-|[<-|[<-|[]]]]];
      unfold UseTimeInput.incrementHour, UseTimeInput.decrementHour,
        UseTimeInput.incrementMinute, UseTimeInput.decrementMinute;
      cbn [UseTimeInput.time UseTimeInput.error];
      destruct (timeParts (UseTimeInput.time st)); split; reflexivity. }
  repeat (apply andb_true_iff in P; destruct P as [P ?]).
  destruct (I UseTimeInput.incrementHour ltac:(cbn; tauto)) as [E1 _].
  destruct (I UseTimeInput.decrementHour ltac:(cbn; tauto)) as [E2 _].
  destruct (I UseTimeInput.incrementMinute ltac:(cbn; tauto)) as [E3 _].
  destruct (I UseTimeInput.decrementMinute ltac:(cbn; tauto)) as [E4 _].
  subst t. rewrite E1, E2, E3, E4.
  split; [now apply emits_eq|]. split; [now apply emits_eq|].
  split; [now apply emits_eq|]. split; [now apply emits_eq|].
  intros step Hs. destruct (I step Hs) as [E Er]. split; [|exact Er].
  rewrite E. destruct Hs as [<-|[<-|[<-|[<-|[]]]]]; assumption.
Qed.

Lemma useTimeInput_steps_follow_keys_witness :
  UseTimeInput.time (UseTimeInput.incrementMinute (UseTimeInput.init (Some "23:50")))
  = "00:05"
  /\ UseTimeInput.time (UseTimeInput.decrementMinute (UseTimeInput.init None))
     = "23:45".
Proof.
  destruct (useTimeInput_steps_follow_keys (UseTimeInput.init (Some "23:50"))
              eq_refl) as (_ & _ & R & _).
  destruct (useTimeInput_steps_follow_keys (UseTimeInput.init None)
              eq_refl) as (_ & _ & _ & L & _).
  cbv zeta in R, L. split.
  - assert (E : TimeInput.handleKeyDown
                  (Some (UseTimeInput.time (UseTimeInput.init (Some "23:50"))))
                  "ArrowRight" = Some "00:05") by (vm_compute; reflexivity).
    rewrite E in R. congruence.
  - assert (E : TimeInput.handleKeyDown
                  (Some (UseTimeInput.time (UseTimeInput.init None)))
                  "ArrowLeft" = Some "23:45") by (vm_compute; reflexivity).
    rewrite E in L. congruence.
Defined.

(** X27. Hours and minutes go through the text of a time unchanged: written
    with [formatTime] (two digits each) they form a well-formed time that
    reads back as the same numbers, and [combineDateTime] puts them on the
    date as its local hours and minutes, with seconds and milliseconds at
    zero and the day kept.  Conversely every well-formed time is the text
    of its own hours and minutes. *)
Theorem time_text_round_trip (host : Host) (d : Z) :
  (forall h m, 0 <= h < 24 -> 0 <= m < 60 ->
     let t := formatTime (JSNum.Num h) (JSNum.Num m) in
     wellFormedTime t = true
     /\ timeParts t = (JSNum.Num h, JSNum.Num m)
     /\ exists x, combineDateTime host d t = Some x
                  /\ getHours host x = h /\ getMinutes host x = m
                  /\ getSeconds host x = 0 /\ getMilliseconds host x = 0
                  /\ isSameDay host d x = true)
  /\ (forall t, wellFormedTime t = true ->
        exists h m, 0 <= h < 24 /\ 0 <= m < 60
                    /\ timeParts t = (JSNum.Num h, JSNum.Num m)
                    /\ formatTime (JSNum.Num h) (JSNum.Num m) = t).
Proof.
  split.
  - intros h m Hh Hm t. subst t.
    destruct (formatTime_parts h m Hh Hm) as [W P].
    split; [exact W|]. split; [exact P|].
    exists (setHours host d h m 0 0).
    split; [rewrite combineDateTime_timeParts, P; reflexivity|].
    destruct (time_fields_of_MakeDate host (Day (LocalTime host d)) h m 0 0
                Hh Hm ltac:(lia) ltac:(lia)) as (F1 & F2 & F3 & F4).
    fold (setHours host d h m 0 0) in F1, F2, F3, F4.
    split; [exact F1|]. split; [exact F2|]. split; [exact F3|].
    split; [exact F4|].
    apply isSameDay_iff. symmetry. apply Day_setHours.
    unfold MakeTime, msPerDay, msPerHour, msPerMinute, msPerSecond. lia.
  - intros t Ht. pose proof (forallTimes_spec _ parts_checked t Ht) as P.
    cbv beta in P.
    destruct (timeParts t) as [[h| |] [m| |]]; try discriminate P.
    repeat (apply andb_true_iff in P; destruct P as [P ?]).
    exists h, m. apply String.eqb_eq in H. repeat split; try lia. exact H.
Qed.

Lemma time_text_round_trip_witness :
  wellFormedTime (formatTime (JSNum.Num 9) (JSNum.Num 5)) = true
  /\ timeParts (formatTime (JSNum.Num 9) (JSNum.Num 5))
     = (JSNum.Num 9, JSNum.Num 5).
Proof.
  destruct (proj1 (time_text_round_trip utcHost 0) 9 5 ltac:(lia) ltac:(lia))
    as (W & P & _).
  exact (conj W P).
Defined.

(** ** The hooks *)

Section HookFacts.

Variable host : Host.




Lemma isDateValid_results (d : Z) (c : PickerConstraints) :
  In (isDateValid host d c)
     [ beforeMinimum; afterMaximum; notAvailable;
       {| valid := false; error := Some "This day is disabled" |};
       {| valid := true; error := None |} ].
Proof.
  unfold isDateValid, beforeMinimum, afterMaximum, notAvailable.
  repeat match goal with
         | |- context [if ?b then _ else _] => destruct b
         end;
    cbn; tauto.
Qed.

(** The error that the date setters keep. *)
Lemma dateError_value (d : Z) (st : PickerState.t) :
  UseDateTimeRangeState.dateError host (Some d) st
  = error (isDateValid host d (PickerState.constraints st))
  /\ (error (isDateValid host d (PickerState.constraints st)) = None
      <-> valid (isDateValid host d (PickerState.constraints st)) = true).
Proof.
  unfold UseDateTimeRangeState.dateError. cbv zeta.
  pose proof (isDateValid_results d (PickerState.constraints st)) as R.
  destruct R as [<-|[<-|[<-|[<-|[<-|[]]]]]];
    (split; [reflexivity|split; intros; (reflexivity || discriminate)]).
Qed.

End HookFacts.


(** X29. [setStartDate] and [setEndDate] leave as [error] the message of
    [isDateValid] for the date just set, null for a valid date or for no
    date: the error speaks of the last date set only.  So a valid end
    date clears the error of a refused start date, which stays in the
    range, and [validate] still answers false. *)
Theorem useDateTimeRangeState_date_error (host : Host) (d1 d2 : Z)
        (st : PickerState.t) :
  let c := PickerState.constraints st in
  valid (isDateValid host d1 c) = false ->
  valid (isDateValid host d2 c) = true ->
  let s1 := UseDateTimeRangeState.setStartDate host (Some d1) st in
  let s2 := UseDateTimeRangeState.setEndDate host (Some d2) s1 in
  PickerState.error s1 = error (isDateValid host d1 c)
  /\ PickerState.error s1 <> None
  /\ PickerState.error s2 = None
  /\ date (start (PickerState.range s2)) = Some d1
  /\ date (end_ (PickerState.range s2)) = Some d2
  /\ (forall t1 t2,
        fst (UseDateTimeRangeState.validate host
               (UseDateTimeRangeState.setEndTime t2
                  (UseDateTimeRangeState.setStartTime t1 s2))) = false)
  /\ PickerState.error (UseDateTimeRangeState.setStartDate host None s1)
     = None.
Proof.
  intros c H1 H2 s1 s2.
  destruct (dateError_value host d1 st) as [E1 V1].
  assert (E2 : PickerState.error s2 = None).
  { subst s2 s1. unfold UseDateTimeRangeState.setEndDate.
    cbn [PickerState.error].
    destruct (dateError_value host d2
                (UseDateTimeRangeState.setStartDate host (Some d1) st))
      as [E V].
    rewrite E. apply V. exact H2. }
  split; [exact E1|]. split.
  { subst s1. unfold UseDateTimeRangeState.setStartDate.
    cbn [PickerState.error]. rewrite E1. intros N. apply V1 in N.
    fold c in N. congruence. }
  split; [exact E2|]. split; [reflexivity|]. split; [reflexivity|].
  split; [|reflexivity].
  intros t1 t2. unfold UseDateTimeRangeState.validate. cbn [fst].
  subst s2 s1.
  unfold UseDateTimeRangeState.setEndTime, UseDateTimeRangeState.setStartTime,
    UseDateTimeRangeState.setEndDate, UseDateTimeRangeState.setStartDate.
  cbn [PickerState.range PickerState.constraints start end_ date time].
  fold c.
  apply not_true_is_false. intros V.
  apply isRangeValid_rvalid_errors in V.
  revert V. unfold isRangeValid.
  cbn [start end_ date time JS.truthyObject negb orb]. cbv zeta.
  rewrite H1, H2. unfold JS.push.
  destruct (JS.truthyString t1), (JS.truthyString t2);
    cbn [negb app List.length Z.of_nat Pos.of_succ_nat Pos.succ
         Z.ltb Z.compare errors];
    try discriminate.
  repeat match goal with
         | |- context [if ?b then _ else _] => destruct b
         end;
    cbn [errors app List.length]; discriminate.
Qed.

Lemma useDateTimeRangeState_date_error_witness :
  PickerState.error
    (UseDateTimeRangeState.setEndDate utcHost (Some (ymd 2025 0 20))
       (UseDateTimeRangeState.setStartDate utcHost (Some (ymd 2025 0 5))
          (UseDateTimeRangeState.init None
             (Some {| minDate := Some (ymd 2025 0 10); maxDate := None;
                      blackoutDates := None; minDuration := None;
                      maxDuration := None; disabledDays := None |}))))
  = None.
Proof.
  exact (proj1 (proj2 (proj2
    (useDateTimeRangeState_date_error utcHost (ymd 2025 0 5) (ymd 2025 0 20)
       (UseDateTimeRangeState.init None
          (Some {| minDate := Some (ymd 2025 0 10); maxDate := None;
                   blackoutDates := None; minDuration := None;
                   maxDuration := None; disabledDays := None |}))
       eq_refl eq_refl)))).
Defined.

Lemma setMonth_of_fields (host : Host) (x y d mo : Z) :
  getFullYear host x = y -> getDate host x = d ->
  setMonth host x mo
  = UTC host (MakeDate (MakeDay y mo d) (TimeWithinDay (LocalTime host x))).
Proof. unfold setMonth, getFullYear, getDate. now intros <- <-. Qed.

(** X30. [goToNextMonth] and [goToPreviousMonth] keep the day of the month
    and the time of day.  When that day exists in the month gone to, the
    date lands in that month and the step back gives the date again;
    when it does not, as from the 31st of January, the step forward
    lands in the month after, past the month asked for.
    [selectDateRelative] selects the date moved by whole days. *)
Theorem calendar_navigation_steps (host : Host)
        (st : UseCalendarNavigation.State) (k : Z) :
  let now := UseCalendarNavigation.currentDate st in
  let y := getFullYear host now in
  let m := getMonth host now in
  let d := getDate host now in
  let next := UseCalendarNavigation.goToNextMonth host st in
  let prev := UseCalendarNavigation.goToPreviousMonth host st in
  let base := match UseCalendarNavigation.selectedDate st with
              | Some s => s
              | None => now
              end in
  (d <= monthLength (y + (m + 1) / 12) ((m + 1) mod 12) ->
   getMonth host (UseCalendarNavigation.currentDate next) = (m + 1) mod 12
   /\ getDate host (UseCalendarNavigation.currentDate next) = d
   /\ UseCalendarNavigation.goToPreviousMonth host next = st)
  /\ (monthLength (y + (m + 1) / 12) ((m + 1) mod 12) < d ->
      getMonth host (UseCalendarNavigation.currentDate next) = (m + 2) mod 12
      /\ getDate host (UseCalendarNavigation.currentDate next)
         = d - monthLength (y + (m + 1) / 12) ((m + 1) mod 12))
  /\ (d <= monthLength (y + (m - 1) / 12) ((m - 1) mod 12) ->
      getMonth host (UseCalendarNavigation.currentDate prev) = (m - 1) mod 12
      /\ getDate host (UseCalendarNavigation.currentDate prev) = d
      /\ UseCalendarNavigation.goToNextMonth host prev = st)
  /\ UseCalendarNavigation.selectDateRelative host k st
     = ({| UseCalendarNavigation.currentDate := now;
           UseCalendarNavigation.selectedDate := Some (base + k * msPerDay) |},
        base + k * msPerDay).
Proof.
  intros now y m d next prev base.
  pose proof (getMonth_range host now) as Hm. fold m in Hm.
  pose proof (getDate_range host now) as Hd. fold d in Hd.
  pose proof (TimeWithinDay_range (LocalTime host now)) as Ht.
  assert (Back : forall mo,
             d <= monthLength (y + mo / 12) (mo mod 12) ->
             y + mo / 12 + (mo mod 12 - (mo - m)) / 12 = y ->
             (mo mod 12 - (mo - m)) mod 12 = m ->
             getMonth host (setMonth host now mo) = mo mod 12
             /\ getDate host (setMonth host now mo) = d
             /\ setMonth host (setMonth host now mo)
                  (getMonth host (setMonth host now mo) - (mo - m)) = now).
  { intros mo Hle Ey Em.
    pose proof (LocalTime_setMonth host now mo) as L. fold y d in L.
    destruct (fields_of_MakeDay_any y mo d (TimeWithinDay (LocalTime host now)))
      as (F1 & F2 & F3); [lia|exact Ht|].
    rewrite <- L in F1, F2, F3.
    split; [exact F2|]. split; [exact F3|].
    assert (G2 : getMonth host (setMonth host now mo) = mo mod 12)
      by exact F2.
    rewrite G2.
    rewrite (setMonth_of_fields host (setMonth host now mo) _ _
               (mo mod 12 - (mo - m)) F1 F3).
    rewrite L. rewrite TimeWithinDay_MakeDate by exact Ht.
    rewrite (MakeDay_normalize (y + mo / 12)), Ey, Em.
    unfold y, m, d, getFullYear, getMonth, getDate.
    rewrite MakeDay_of_fields, Z.sub_diag, Z.add_0_r.
    rewrite MakeDate_Day_TimeWithinDay. apply UTC_LocalTime. }
  split; [|split; [|split]].
  - intros Hle.
    destruct (Back (m + 1) Hle ltac:(lia) ltac:(lia)) as (B1 & B2 & B3).
    split; [exact B1|]. split; [exact B2|].
    subst next. unfold UseCalendarNavigation.goToPreviousMonth,
      UseCalendarNavigation.goToNextMonth.
    cbn [UseCalendarNavigation.currentDate UseCalendarNavigation.selectedDate].
    fold now. fold m.
    replace (m + 1 - m) with 1 in B3 by lia. rewrite B3.
    destruct st; reflexivity.
  - intros Hgt. subst next. unfold UseCalendarNavigation.goToNextMonth.
    cbn [UseCalendarNavigation.currentDate]. fold now. fold m.
    pose proof (LocalTime_setMonth host now (m + 1)) as L. fold y d in L.
    destruct (fields_of_MakeDay_overflow y (m + 1) d
                (TimeWithinDay (LocalTime host now)))
      as (_ & F2 & F3); [lia|exact Ht|].
    rewrite <- L in F2, F3.
    replace (m + 1 + 1) with (m + 2) in F2 by lia.
    split; [exact F2|exact F3].
  - intros Hle.
    destruct (Back (m - 1) Hle ltac:(lia) ltac:(lia)) as (B1 & B2 & B3).
    split; [exact B1|]. split; [exact B2|].
    subst prev. unfold UseCalendarNavigation.goToPreviousMonth,
      UseCalendarNavigation.goToNextMonth.
    cbn [UseCalendarNavigation.currentDate UseCalendarNavigation.selectedDate].
    fold now. fold m.
    replace (getMonth host (setMonth host now (m - 1)) + 1)
      with (getMonth host (setMonth host now (m - 1)) - (m - 1 - m)) by lia.
    rewrite B3. destruct st; reflexivity.
  - unfold UseCalendarNavigation.selectDateRelative,
      UseCalendarNavigation.selectDate.
    fold now. fold base. cbv zeta.
    now rewrite setDate_getDate_plus.
Qed.

(** From 2025-01-15 the next month is February 15 and the step back
    returns; from 2025-01-31 the next month is March 3. *)
Lemma calendar_navigation_steps_witness :
  UseCalendarNavigation.goToPreviousMonth utcHost
    (UseCalendarNavigation.goToNextMonth utcHost
       {| UseCalendarNavigation.currentDate := ymd 2025 0 15;
          UseCalendarNavigation.selectedDate := None |})
  = {| UseCalendarNavigation.currentDate := ymd 2025 0 15;
       UseCalendarNavigation.selectedDate := None |}
  /\ UseCalendarNavigation.currentDate
       (UseCalendarNavigation.goToNextMonth utcHost
          {| UseCalendarNavigation.currentDate := ymd 2025 0 31;
             UseCalendarNavigation.selectedDate := None |})
     = ymd 2025 2 3.
Proof.
  split.
  - apply (calendar_navigation_steps utcHost
             {| UseCalendarNavigation.currentDate := ymd 2025 0 15;
                UseCalendarNavigation.selectedDate := None |} 0).
    vm_compute. discriminate.
  - vm_compute. reflexivity.
Defined.
